(** * Sequential-thinking server: a shallow embedding and its properties

    The development follows the TypeScript sources of the server:
    - [PromptAnalyzer] / [PromptContext]   (analytics/promptAnalyzer.ts)
    - [SemanticAnalyzer]                   (analytics/semanticAnalyzer.ts)
    - [ContradictionDetector]              (analytics/contradictionDetector.ts)
    - [ReflectionEngine]                   (analytics/reflectionEngine.js)
    - [IntelligenceMaximizationModule]     (analytics/intelligenceMaximizationModule.ts)
    - [SequentialThinkingServer] and the tool-call handler (index.ts)

    Number model.  JavaScript numbers that only go through comparisons,
    [+], [-], [*], [/], [Math.min], [Math.max] and [Math.round] are modelled
    as exact rationals ([Q]).  The semantic analyzer also takes square roots
    and logarithms; its numbers are modelled as real numbers ([R]).  Both
    models are exact: they do not round after each operation as the
    doubles of the implementation do.  Where a statement turns on that
    rounding, as the equalities claimed of the similarity of two thoughts
    do, the functions are given over the doubles themselves ([Doubles]):
    binary64 numbers with the operations of IEEE 754, rounded to nearest.

    String model.  JavaScript strings are modelled as [string], one
    character per [ascii] code; the character classes [\s] and [\w] and the
    case conversions are those of the ASCII range.

    Objects used as dictionaries ([Record<string, T>]) are association
    lists of their own keys, enumerated in the property order of the
    language (array-index keys in ascending order first, then the other
    keys in insertion order).  Where the code reads a key chosen by the
    input from such an object, the members inherited from
    [Object.prototype] are modelled too ([JS.inherited_names],
    [JS.assign]). *)

From Stdlib Require Import String Ascii List Bool Arith ZArith QArith Qround.
From Stdlib Require Import Reals Psatz Lia Permutation DecimalString DecimalZ.
From Stdlib Require Floats.
Import ListNotations.

Set Implicit Arguments.

(* ------------------------------------------------------------------------- *)
(** ** Built-ins of the host language                                         *)
(* ------------------------------------------------------------------------- *)

Module JS.

Local Open Scope nat_scope.
Local Open Scope bool_scope.

(** [\s] on the ASCII range: TAB, LF, VT, FF, CR and SPACE. *)
Definition is_space (c : ascii) : bool :=
  let n := nat_of_ascii c in (n =? 32) || ((9 <=? n) && (n <=? 13)).

Definition is_upper (c : ascii) : bool :=
  let n := nat_of_ascii c in (65 <=? n) && (n <=? 90).

Definition is_lower (c : ascii) : bool :=
  let n := nat_of_ascii c in (97 <=? n) && (n <=? 122).

Definition is_digit (c : ascii) : bool :=
  let n := nat_of_ascii c in (48 <=? n) && (n <=? 57).

(** [\w] is [[A-Za-z0-9_]]. *)
Definition is_word (c : ascii) : bool :=
  is_upper c || is_lower c || is_digit c || (nat_of_ascii c =? 95).

Definition lower_char (c : ascii) : ascii :=
  if is_upper c then ascii_of_nat (nat_of_ascii c + 32) else c.

Definition upper_char (c : ascii) : ascii :=
  if is_lower c then ascii_of_nat (nat_of_ascii c - 32) else c.

Definition chars (s : string) : list ascii := list_ascii_of_string s.
Definition str (l : list ascii) : string := string_of_list_ascii l.

(** [s.toLowerCase()] *)
Definition toLowerCase (s : string) : string := str (map lower_char (chars s)).

(** [s.startsWith(p)] *)
Definition startsWith (s p : string) : bool := String.prefix p s.

(** [s.includes(sub)] *)
Fixpoint includes (s sub : string) : bool :=
  if String.prefix sub s then true
  else match s with
       | EmptyString => false
       | String _ s' => includes s' sub
       end.

(** [s.indexOf(sub)]; [None] stands for [-1]. *)
Fixpoint indexOf (s sub : string) : option nat :=
  if String.prefix sub s then Some 0
  else match s with
       | EmptyString => None
       | String _ s' => option_map S (indexOf s' sub)
       end.

(** [s.substring(n)] and [s.slice(n)] for [0 <= n]. *)
Definition substring_from (n : nat) (s : string) : string := str (skipn n (chars s)).

(** [s.substring(0, n)] *)
Definition substring_to (n : nat) (s : string) : string := str (firstn n (chars s)).

(** [s.slice(0, -n)] *)
Definition drop_last (n : nat) (s : string) : string :=
  str (firstn (String.length s - n) (chars s)).

(** [s.endsWith(p)] *)
Definition endsWith (s p : string) : bool :=
  (String.length p <=? String.length s) &&
  String.eqb (substring_from (String.length s - String.length p) s) p.

Fixpoint drop_while (p : ascii -> bool) (l : list ascii) : list ascii :=
  match l with
  | [] => []
  | c :: l' => if p c then drop_while p l' else l
  end.

(** [s.trim()] *)
Definition trim (s : string) : string :=
  str (rev (drop_while is_space (rev (drop_while is_space (chars s))))).

(** [s.split(re)] for a regular expression [re] that is a character class
    [sep], repeated ([plus = true], as in [/\s+/]) or not (as in [/[.!?]/]).
    [cur] collects the current piece in reverse, [insep] tells that the
    previous character belonged to a separator. *)
Fixpoint split_class (sep : ascii -> bool) (plus : bool)
         (cur : list ascii) (insep : bool) (s : list ascii) : list string :=
  match s with
  | [] => [str (rev cur)]
  | c :: s' =>
      if sep c then
        if plus && insep then split_class sep plus cur true s'
        else str (rev cur) :: split_class sep plus [] true s'
      else split_class sep plus (c :: cur) false s'
  end.

(** [s.split(/\s+/)] *)
Definition split_ws (s : string) : list string :=
  split_class is_space true [] false (chars s).

Definition is_sentence_end (c : ascii) : bool :=
  let n := nat_of_ascii c in (n =? 46) || (n =? 33) || (n =? 63).

(** [s.split(/[.!?]+/)] *)
Definition split_sentences (s : string) : list string :=
  split_class is_sentence_end true [] false (chars s).

(** [s.split(/[.!?]/)] *)
Definition split_sentence_marks (s : string) : list string :=
  split_class is_sentence_end false [] false (chars s).

(** [s.split(' ')] *)
Definition split_space (s : string) : list string :=
  split_class (fun c => nat_of_ascii c =? 32) false [] false (chars s).

(** [l.join(sep)] *)
Fixpoint join (sep : string) (l : list string) : string :=
  match l with
  | [] => EmptyString
  | [x] => x
  | x :: l' => (x ++ sep ++ join sep l')%string
  end.

(** [s.replace(/[^\w\s]/g, '')] *)
Definition strip_punctuation (s : string) : string :=
  str (filter (fun c => is_word c || is_space c) (chars s)).

(** [s.replace(/[^\w]/g, '')] *)
Definition strip_nonword (s : string) : string :=
  str (filter is_word (chars s)).

(** [l.includes(x)] on an array of strings, [set.has(x)] on a set of them. *)
Definition mem (x : string) (l : list string) : bool :=
  existsb (String.eqb x) l.

(** [[...new Set(l)]]: the first occurrence of every element, in order. *)
Fixpoint dedup_aux (seen : list string) (l : list string) : list string :=
  match l with
  | [] => []
  | x :: l' => if mem x seen then dedup_aux seen l'
               else x :: dedup_aux (x :: seen) l'
  end.

Definition dedup (l : list string) : list string := dedup_aux [] l.

(** [l.slice(0, n)] *)
Definition take {A} (n : nat) (l : list A) : list A := firstn n l.

(** [l.slice(-n)] *)
Definition last_n {A} (n : nat) (l : list A) : list A :=
  skipn (List.length l - n) l.

(** [Array.prototype.sort] is stable; for a comparator given as the
    decidable relation [before a b] (the comparator is negative or zero,
    so that [a] need not move behind [b]) it is insertion from the right. *)
Section Sort.
Context {A : Type} (before : A -> A -> bool).

Fixpoint insert_sorted (x : A) (l : list A) : list A :=
  match l with
  | [] => [x]
  | y :: l' => if before x y then x :: l else y :: insert_sorted x l'
  end.

Definition sort (l : list A) : list A := fold_right insert_sorted [] l.
End Sort.

(** Decimal rendering of an integer, as in a template literal. *)
Definition string_of_Z (z : Z) : string := NilEmpty.string_of_int (Z.to_int z).

(** The double-quote character inside a message. *)
Definition dq : string := String (ascii_of_nat 34) EmptyString.

(** *** Objects used as dictionaries *)

(** A key is an array index when it is the canonical decimal form of an
    integer below [2^32 - 1]. *)
Definition digit_value (c : ascii) : N := N.of_nat (nat_of_ascii c - 48).

Definition decimal_value (s : string) : N :=
  fold_left (fun acc c => (acc * 10 + digit_value c)%N) (chars s) 0%N.

Definition is_array_index (k : string) : bool :=
  match chars k with
  | [] => false
  | c :: rest =>
      forallb is_digit (c :: rest) &&
      ((nat_of_ascii c =? 48) && (List.length rest =? 0) || negb (nat_of_ascii c =? 48)) &&
      (decimal_value k <? 4294967295)%N
  end.

Section Dict.
Context {V : Type}.

Definition dict := list (string * V).

(** [o[k]], [None] for [undefined]. *)
Fixpoint get (o : dict) (k : string) : option V :=
  match o with
  | [] => None
  | (k', v) :: o' => if String.eqb k k' then Some v else get o' k
  end.

(** [o[k] = v]: an existing key keeps its place. *)
Fixpoint set (o : dict) (k : string) (v : V) : dict :=
  match o with
  | [] => [(k, v)]
  | (k', v') :: o' =>
      if String.eqb k k' then (k', v) :: o' else (k', v') :: set o' k v
  end.

(** [Object.entries(o)] in property order. *)
Definition entries (o : dict) : list (string * V) :=
  sort (fun a b => (decimal_value (fst a) <=? decimal_value (fst b))%N)
       (filter (fun e => is_array_index (fst e)) o)
  ++ filter (fun e => negb (is_array_index (fst e))) o.

Definition keys (o : dict) : list string := map fst (entries o).
Definition values (o : dict) : list V := map snd (entries o).

(** [o[k] = v] on an object literal: ["__proto__"] names the accessor of
    the prototype, and assigning to it adds no key. *)
Definition assign (o : dict) (k : string) (v : V) : dict :=
  if String.eqb k "__proto__" then o else set o k v.
End Dict.

Arguments dict V : clear implicits.

(** The names that an object literal inherits from [Object.prototype].  Read
    from a dictionary that has no such key of its own, each of them gives
    the inherited member: a function, or the prototype itself for
    ["__proto__"]; all of them are truthy and none has a [push]. *)
Definition inherited_names : list string :=
  ["constructor"; "__defineGetter__"; "__defineSetter__"; "hasOwnProperty";
   "__lookupGetter__"; "__lookupSetter__"; "isPrototypeOf";
   "propertyIsEnumerable"; "toString"; "valueOf"; "__proto__";
   "toLocaleString"]%string.

Definition is_inherited (k : string) : bool := mem k inherited_names.

(** [o[k]] is an inherited member. *)
Definition reads_inherited {V} (o : dict V) (k : string) : bool :=
  is_inherited k && match get o k with Some _ => false | None => true end.

End JS.


(* ------------------------------------------------------------------------- *)
(** ** Numbers that stay rational                                             *)
(* ------------------------------------------------------------------------- *)

Module Num.

Local Open Scope Q_scope.

(** [Math.round(x)]: the nearest integer, halves upwards. *)
Definition round (x : Q) : Z := Qfloor (x + (1 # 2)).

Definition min (x y : Q) : Q := if Qle_bool x y then x else y.
Definition max (x y : Q) : Q := if Qle_bool x y then y else x.

(** [x > y], [x < y] and [x === y] on numbers. *)
Definition gt (x y : Q) : bool := negb (Qle_bool x y).
Definition lt (x y : Q) : bool := negb (Qle_bool y x).
Definition eq (x y : Q) : bool := Qeq_bool x y.

Definition of_nat (n : nat) : Q := inject_Z (Z.of_nat n).

(** Numbers of the progress bars.  A quotient by zero is an infinity or
    [NaN] there, and decides whether [String.prototype.repeat] throws. *)
Inductive xnum :=
| Fin (q : Q)
| PInf
| NInf
| NaN.

(** [n / d] *)
Definition xdiv (n d : Q) : xnum :=
  if Qeq_bool d 0 then
    if gt n 0 then PInf else if lt n 0 then NInf else NaN
  else Fin (n / d).

(** [f(x)] for an increasing [f], such as [x * 100] or [30 * (x / 100)]. *)
Definition xmap (f : Q -> Q) (x : xnum) : xnum :=
  match x with Fin q => Fin (f q) | other => other end.

(** [Math.min(c, x)] *)
Definition xmin (c : Q) (x : xnum) : xnum :=
  match x with
  | Fin q => Fin (min c q)
  | PInf => Fin c
  | other => other
  end.

(** [x + y] for a finite or [NaN] second summand. *)
Definition xadd (x y : xnum) : xnum :=
  match x, y with
  | Fin a, Fin b => Fin (a + b)
  | _, NaN => NaN
  | other, _ => other
  end.

(** [Math.round(x)] and [Math.floor(x)] *)
Definition xround (x : xnum) : xnum := xmap (fun q => inject_Z (round q)) x.
Definition xfloor (x : xnum) : xnum := xmap (fun q => inject_Z (Qfloor q)) x.

(** [c - x] *)
Definition xsub_from (c : Q) (x : xnum) : xnum :=
  match x with
  | Fin q => Fin (c - q)
  | PInf => NInf
  | NInf => PInf
  | NaN => NaN
  end.

(** [s.repeat(count)] throws a [RangeError] for a negative or infinite
    count; [NaN] counts as zero.  The counts here are integral. *)
Definition repeat_throws (count : xnum) : bool :=
  match count with
  | Fin q => lt q 0
  | PInf | NInf => true
  | NaN => false
  end.

End Num.

(* ------------------------------------------------------------------------- *)
(** ** analytics/promptAnalyzer.ts                                            *)
(* ------------------------------------------------------------------------- *)

Inductive Priority := low | medium_priority | high.
Inductive Complexity := simple | medium | complex.
Inductive TaskType := creative | analytical | informational | technical | mixed.

Record PromptMetadata := {
  originalPrompt : string;
  goals : list string;
  constraints : list string;
  domains : list string;
  expectedOutputFormat : option string;
  priority : Priority;
  complexity : Complexity;
  keywords : list string;
  entities : list string;
  taskType : TaskType
}.

Record PromptAlignmentData := {
  pa_promptAlignment : Q;
  pa_promptRelevance : JS.dict Q;
  pa_driftWarning : option string;
  pa_suggestedCorrections : option (list string)
}.

Record DriftCheck := {
  hasDrift : bool;
  warning : option string;
  corrections : option (list string)
}.

Module PromptAnalyzer.

Import JS.
Local Open Scope string_scope.
Local Open Scope nat_scope.
Local Open Scope bool_scope.

(** The sentences of a prompt:
    [prompt.split(/[.!?]+/).map(s => s.trim()).filter(s => s.length > 0)]. *)
Definition sentences_of (prompt : string) : list string :=
  filter (fun s => 0 <? String.length s) (map trim (split_sentences prompt)).

(** [for (const indicator of indicators) if (text.includes(indicator)) ...] *)
Definition includes_any (text : string) (indicators : list string) : bool :=
  existsb (includes text) indicators.

Definition goalIndicators : list string :=
  ["goal is"; "objective is"; "aim is"; "purpose is"; "trying to";
   "want to"; "need to"; "would like to"; "goal:"; "objective:"].

Definition extractGoals (prompt : string) : list string :=
  let sentences := sentences_of prompt in
  let goals := filter (fun s => includes_any (toLowerCase s) goalIndicators) sentences in
  match goals, sentences with
  | [], first :: _ => [first]
  | _, _ => goals
  end.

Definition constraintIndicators : list string :=
  ["must"; "should"; "need to"; "have to"; "required";
   "necessary"; "important"; "essential"; "critical";
   "cannot"; "can't"; "don't"; "shouldn't"; "mustn't"].

Definition extractConstraints (prompt : string) : list string :=
  filter (fun s => includes_any (toLowerCase s) constraintIndicators)
         (sentences_of prompt).

Definition domainKeywords : list (string * list string) :=
  [("programming", ["code"; "programming"; "software"; "development"; "algorithm"; "function"]);
   ("math", ["math"; "calculation"; "formula"; "equation"; "numerical"]);
   ("science", ["science"; "scientific"; "experiment"; "hypothesis"; "theory"]);
   ("business", ["business"; "market"; "strategy"; "company"; "product"; "service"]);
   ("writing", ["write"; "essay"; "article"; "blog"; "content"; "story"]);
   ("design", ["design"; "layout"; "visual"; "UI"; "UX"; "interface"]);
   ("data", ["data"; "analysis"; "statistics"; "dataset"; "visualization"])].

Definition extractDomains (prompt : string) : list string :=
  let promptLower := toLowerCase prompt in
  map fst (filter (fun d => includes_any promptLower (snd d)) domainKeywords).

Definition formatIndicators : list string :=
  ["format:"; "in the form of"; "as a"; "output as"; "result as";
   "in markdown"; "in json"; "in html"; "in csv"; "in table"].

Fixpoint extractOutputFormat_from (indicators : list string)
         (prompt promptLower : string) : option string :=
  match indicators with
  | [] => None
  | indicator :: rest =>
      match indexOf promptLower indicator with
      | Some index =>
          let afterIndicator :=
            trim (substring_from (index + String.length indicator) prompt) in
          Some (trim (hd "" (split_sentence_marks afterIndicator)))
      | None => extractOutputFormat_from rest prompt promptLower
      end
  end.

Definition extractOutputFormat (prompt : string) : option string :=
  extractOutputFormat_from formatIndicators prompt (toLowerCase prompt).

Definition highPriorityIndicators : list string :=
  ["urgent"; "immediately"; "asap"; "critical"; "high priority";
   "as soon as possible"; "emergency"; "deadline"].

Definition mediumPriorityIndicators : list string :=
  ["important"; "soon"; "timely"; "needed"; "significant"].

Definition determinePriority (prompt : string) : Priority :=
  let promptLower := toLowerCase prompt in
  if includes_any promptLower highPriorityIndicators then high
  else if includes_any promptLower mediumPriorityIndicators then medium_priority
  else low.

Definition complexityIndicators : list string :=
  ["complex"; "complicated"; "difficult"; "challenging"; "advanced";
   "sophisticated"; "intricate"; "elaborate"; "comprehensive"].

Definition estimateComplexity (prompt : string) : Complexity :=
  let wordCount := List.length (split_ws prompt) in
  if includes_any (toLowerCase prompt) complexityIndicators then complex
  else if 100 <? wordCount then complex
  else if 30 <? wordCount then medium
  else simple.

Definition stopWords : list string :=
  ["a"; "an"; "the"; "and"; "or"; "but"; "in"; "on"; "at"; "to"; "for";
   "with"; "by"; "about"; "as"].

(** [wordCounts[word] = (wordCounts[word] || 0) + 1] over the words.  For a
    word that names an inherited member the sum is a string, written
    [None] here, and stays one. *)
Definition count_words (words : list string) : dict (option nat) :=
  fold_left (fun counts word =>
               match get counts word with
               | Some (Some n) => set counts word (Some (n + 1))
               | Some None => set counts word None
               | None =>
                   if is_inherited word then assign counts word None
                   else set counts word (Some 1)
               end)
            words [].

(** [.sort((a, b) => b[1] - a[1])] on entries; a difference that is not a
    number moves nothing.  (With such a difference the comparator is not
    consistent, and where the entries end up is up to the sorting algorithm
    of the runtime; the statements below do not depend on their order.) *)
Definition by_count_desc {K} (a b : K * nat) : bool := snd b <=? snd a.

Definition by_word_count_desc {K} (a b : K * option nat) : bool :=
  match snd a, snd b with
  | Some x, Some y => y <=? x
  | _, _ => true
  end.

Definition extractKeywords (prompt : string) : list string :=
  let words :=
    filter (fun w => negb (mem w stopWords))
      (filter (fun w => 3 <? String.length w)
         (split_ws (strip_punctuation (toLowerCase prompt)))) in
  map fst (take 10 (sort by_word_count_desc (entries (count_words words)))).

(** A word of the prompt is an entity when it is not the first word and
    its first character is an upper-case letter. *)
Definition starts_upper (word : string) : bool :=
  match word with
  | EmptyString => false
  | String c _ => Ascii.eqb c (upper_char c) && negb (Ascii.eqb c (lower_char c))
  end.

Fixpoint entities_from (i : nat) (words : list string) : list string :=
  match words with
  | [] => []
  | w :: rest =>
      let word := strip_nonword w in
      if (0 <? String.length word) && starts_upper word && (0 <? i)
      then word :: entities_from (S i) rest
      else entities_from (S i) rest
  end.

Definition extractEntities (prompt : string) : list string :=
  dedup (entities_from 0 (split_ws prompt)).

Definition creativeIndicators : list string :=
  ["create"; "design"; "generate"; "write"; "compose"; "imagine"; "story"].
Definition analyticalIndicators : list string :=
  ["analyze"; "evaluate"; "assess"; "compare"; "contrast"; "examine"].
Definition informationalIndicators : list string :=
  ["explain"; "describe"; "what is"; "how to"; "information about"; "tell me about"].
Definition technicalIndicators : list string :=
  ["code"; "program"; "implement"; "function"; "algorithm"; "debug"; "fix"].

Definition count_matches (text : string) (indicators : list string) : nat :=
  List.length (filter (includes text) indicators).

Definition determineTaskType (prompt : string) : TaskType :=
  let promptLower := toLowerCase prompt in
  let counts :=
    sort by_count_desc
      [(creative, count_matches promptLower creativeIndicators);
       (analytical, count_matches promptLower analyticalIndicators);
       (informational, count_matches promptLower informationalIndicators);
       (technical, count_matches promptLower technicalIndicators)] in
  match counts with
  | (type0, count0) :: (_, count1) :: _ =>
      if (0 <? count0) && (count1 <? count0) then type0 else mixed
  | _ => mixed
  end.

Definition analyzePrompt (prompt : string) : PromptMetadata :=
  {| originalPrompt := prompt;
     goals := extractGoals prompt;
     constraints := extractConstraints prompt;
     domains := extractDomains prompt;
     expectedOutputFormat := extractOutputFormat prompt;
     priority := determinePriority prompt;
     complexity := estimateComplexity prompt;
     keywords := extractKeywords prompt;
     entities := extractEntities prompt;
     taskType := determineTaskType prompt |}.

(** The words of an aspect that count:
    [aspect.toLowerCase().replace(/[^\w\s]/g, '').split(/\s+/).filter(w => w.length > 3)]. *)
Definition aspect_keywords (aspect : string) : list string :=
  filter (fun w => 3 <? String.length w)
         (split_ws (strip_punctuation (toLowerCase aspect))).

Local Open Scope Q_scope.

Definition goalMatchPercentage (thoughtLower goal : string) : Q :=
  let goalKeywords := aspect_keywords goal in
  let goalKeywordMatches := count_matches thoughtLower goalKeywords in
  if (0 <? List.length goalKeywords)%nat
  then Num.of_nat goalKeywordMatches / Num.of_nat (List.length goalKeywords)
  else 0.

Definition calculateAlignmentScore (thought : string) (m : PromptMetadata) : Q :=
  let score := 5 in
  let thoughtLower := toLowerCase thought in
  let keywordMatches := count_matches thoughtLower (keywords m) in
  let keywordScore := Num.min 10 (Num.of_nat keywordMatches * 2) in
  let score := (score + keywordScore) / 2 in
  let goalAlignmentScore :=
    fold_left (fun best goal => Num.max best (goalMatchPercentage thoughtLower goal * 10))
              (goals m) 0 in
  let score := (score + goalAlignmentScore) / 2 in
  inject_Z (Num.round score).

Definition calculateAspectRelevance (thought : string) (aspects : list string) : Q :=
  match aspects with
  | [] => 5
  | _ =>
      let totalRelevance :=
        fold_left (fun total aspect =>
                     let aspectKeywords := aspect_keywords aspect in
                     let keywordMatches := count_matches thought aspectKeywords in
                     let aspectRelevance :=
                       if (0 <? List.length aspectKeywords)%nat
                       then (Num.of_nat keywordMatches / Num.of_nat (List.length aspectKeywords)) * 10
                       else 5 in
                     total + aspectRelevance)
                  aspects 0 in
      inject_Z (Num.round (totalRelevance / Num.of_nat (List.length aspects)))
  end.

Definition calculateRelevanceScores (thought : string) (m : PromptMetadata) : dict Q :=
  let thoughtLower := toLowerCase thought in
  let scores := set [] "goals" (calculateAspectRelevance thoughtLower (goals m)) in
  let scores := set scores "constraints" (calculateAspectRelevance thoughtLower (constraints m)) in
  set scores "domains" (calculateAspectRelevance thoughtLower (domains m)).

(** The alignment score is integral, so it prints as an integer. *)
Definition show_score (q : Q) : string := string_of_Z (Qfloor q).

Definition checkForTopicDrift (thought : string) (m : PromptMetadata) : DriftCheck :=
  let alignmentScore := calculateAlignmentScore thought m in
  if Num.lt alignmentScore 4 then
    let corrections :=
      map (fun goal => ("Consider addressing the goal: " ++ dq ++ goal ++ dq)%string)
          (filter (fun goal =>
                     let goalKeywords := aspect_keywords goal in
                     let goalKeywordMatches :=
                       count_matches (toLowerCase thought) goalKeywords in
                     Num.lt (Num.of_nat goalKeywordMatches)
                            (Num.of_nat (List.length goalKeywords) * (3 # 10)))
                  (goals m)) in
    {| hasDrift := true;
       warning := Some ("This thought appears to drift from the original prompt (alignment score: "
                        ++ show_score alignmentScore ++ "/10)")%string;
       corrections := Some (match corrections with
                            | [] => ["Try to align more closely with the original prompt goals"%string]
                            | _ => corrections
                            end) |}
  else {| hasDrift := false; warning := None; corrections := None |}.

Definition analyzeThoughtAlignment (thought : string) (m : PromptMetadata)
  : PromptAlignmentData :=
  let promptAlignment := calculateAlignmentScore thought m in
  let promptRelevance := calculateRelevanceScores thought m in
  let driftCheck := checkForTopicDrift thought m in
  if hasDrift driftCheck then
    {| pa_promptAlignment := promptAlignment;
       pa_promptRelevance := promptRelevance;
       pa_driftWarning := warning driftCheck;
       pa_suggestedCorrections := corrections driftCheck |}
  else
    {| pa_promptAlignment := promptAlignment;
       pa_promptRelevance := promptRelevance;
       pa_driftWarning := None;
       pa_suggestedCorrections := None |}.

End PromptAnalyzer.

(* ------------------------------------------------------------------------- *)
(** ** analytics/intelligenceMaximizationModule.ts                            *)
(* ------------------------------------------------------------------------- *)

Inductive Phase := Planning | Analysis | Execution | Verification.

Record DimensionalComplexity := {
  conceptual : Q;
  procedural : Q;
  contextual : Q;
  domain : Q
}.

Record PhaseDistribution := {
  pd_Planning : Q;
  pd_Analysis : Q;
  pd_Execution : Q;
  pd_Verification : Q
}.

Record ComplexityEstimation := {
  overallComplexity : Complexity;
  dimensionalComplexity : DimensionalComplexity;
  recommendedThoughtCount : Q;
  recommendedPhaseDistribution : PhaseDistribution
}.

(** Of the recommendation bundle the server reads back the complexity
    estimation only; the other members (strategies, reasoning types, tools,
    focus areas, pitfalls, biases, ...) are lists of display texts built
    from literals on every call and are not represented. *)
Record IntelligenceMaximizationRecommendations := {
  complexityEstimation : ComplexityEstimation
}.

Module IntelligenceMaximizationModule.

Import JS.
Local Open Scope string_scope.
Local Open Scope Q_scope.

(** [Math.max(0, Math.min(10, complexity))] *)
Definition clamp (complexity : Q) : Q := Num.max 0 (Num.min 10 complexity).

Definition is_type (a b : TaskType) : bool :=
  match a, b with
  | creative, creative | analytical, analytical | informational, informational
  | technical, technical | mixed, mixed => true
  | _, _ => false
  end.

Definition calculateConceptualComplexity (m : PromptMetadata) : Q :=
  let complexity := 5 in
  let complexity := complexity + Num.min (Num.of_nat (List.length (goals m)) - 1) 3 in
  let complexity := complexity + Num.min (Num.of_nat (List.length (domains m)) - 1) 2 in
  let complexity :=
    if is_type (taskType m) analytical || is_type (taskType m) technical
    then complexity + 1 else complexity in
  clamp complexity.

Definition calculateProceduralComplexity (m : PromptMetadata) : Q :=
  let complexity := 5 in
  let complexity := complexity + Num.min (Num.of_nat (List.length (constraints m))) 3 in
  let complexity :=
    if is_type (taskType m) technical then complexity + 2
    else if is_type (taskType m) analytical then complexity + 1
    else complexity in
  let complexity :=
    match priority m with high => complexity + 1 | _ => complexity end in
  clamp complexity.

Definition calculateContextualComplexity (m : PromptMetadata) : Q :=
  let complexity := 5 in
  let complexity := complexity + Num.min (Num.of_nat (List.length (entities m)) / 2) 3 in
  let complexity :=
    if is_type (taskType m) mixed then complexity + 2
    else if is_type (taskType m) creative then complexity + 1
    else complexity in
  clamp complexity.

Definition complexDomains : list string :=
  ["quantum physics"; "machine learning"; "artificial intelligence";
   "cryptography"; "medicine"; "law"; "finance"; "mathematics"].

Definition mediumDomains : list string :=
  ["programming"; "engineering"; "biology"; "chemistry"; "psychology";
   "economics"; "business"; "education"].

(** The loop over the domains stops at the first domain that is complex
    or medium. *)
Fixpoint domain_bonus (ds : list string) : Q :=
  match ds with
  | [] => 0
  | d :: rest =>
      if existsb (includes (toLowerCase d)) complexDomains then 2
      else if existsb (includes (toLowerCase d)) mediumDomains then 1
      else domain_bonus rest
  end.

Definition calculateDomainComplexity (m : PromptMetadata) : Q :=
  clamp (5 + domain_bonus (domains m)).

Definition calculatePhaseDistribution (overall : Complexity)
           (d : DimensionalComplexity) : PhaseDistribution :=
  let '(p, a, e, v) :=
    match overall with
    | simple => (1, 1, 2, 1)
    | medium => (2, 2, 3, 1)
    | complex => (3, 3, 4, 2)
    end in
  let '(p, a) := if Num.gt (conceptual d) 7 then (p + 1, a + 1) else (p, a) in
  let e := if Num.gt (procedural d) 7 then e + 1 else e in
  let a := if Num.gt (contextual d) 7 then a + 1 else a in
  let '(a, v) := if Num.gt (domain d) 7 then (a + 1, v + 1) else (a, v) in
  {| pd_Planning := p; pd_Analysis := a; pd_Execution := e; pd_Verification := v |}.

Definition estimateDetailedComplexity (m : PromptMetadata) : ComplexityEstimation :=
  let overall := complexity m in
  let d := {| conceptual := calculateConceptualComplexity m;
              procedural := calculateProceduralComplexity m;
              contextual := calculateContextualComplexity m;
              domain := calculateDomainComplexity m |} in
  let base := match overall with simple => 5 | medium => 8 | complex => 12 end in
  let avgDimensionalComplexity :=
    (conceptual d + procedural d + contextual d + domain d) / 4 in
  {| overallComplexity := overall;
     dimensionalComplexity := d;
     recommendedThoughtCount :=
       inject_Z (Num.round (base * (1 + (avgDimensionalComplexity - 5) / 10)));
     recommendedPhaseDistribution := calculatePhaseDistribution overall d |}.

Definition generateRecommendations (m : PromptMetadata)
           (currentThoughtNumber totalThoughts : Q) (phase : Phase)
  : IntelligenceMaximizationRecommendations :=
  {| complexityEstimation := estimateDetailedComplexity m |}.

End IntelligenceMaximizationModule.

(* ------------------------------------------------------------------------- *)
(** ** types/ThoughtData.ts                                                   *)
(* ------------------------------------------------------------------------- *)

Inductive Status := complete | in_progress | needs_revision.
Inductive Classification := hypothesis | observation | conclusion | question | solution.

Record Quality := {
  coherence : Q;
  depth : Q;
  relevance : Q;
  qualityScore : Q;
  feedback : list string
}.

Record Contradiction := {
  c_thoughtNumber : Q;
  explanation : string
}.

(** An optional member is an [option]; [None] is [undefined]. *)
Record ThoughtData := {
  thought : string;
  thoughtNumber : Q;
  totalThoughts : Q;
  isRevision : option bool;
  revisesThought : option Q;
  branchFromThought : option Q;
  branchId : option string;
  needsMoreThoughts : option bool;
  nextThoughtNeeded : bool;
  phase : option Phase;
  dependencies : option (list Q);
  toolsUsed : option (list string);
  td_complexity : option Complexity;
  status : option Status;
  quality : option Quality;
  td_keywords : option (list string);
  insightValue : option Q;
  classification : option Classification;
  confidenceScore : option Q;
  evidenceStrength : option Q;
  assumptions : option (list string);
  vector : option (list R);
  conceptsExtracted : option (list string);
  contradictions : option (list Contradiction);
  reflectionPrompts : option (list string);
  promptAlignment : option Q;
  promptRelevance : option (JS.dict Q);
  driftWarning : option string;
  suggestedCorrections : option (list string);
  intelligenceRecommendations : option IntelligenceMaximizationRecommendations
}.

(** Truthiness of optional members. *)
Definition truthy_bool (b : option bool) : bool :=
  match b with Some true => true | _ => false end.

Definition truthy_num (n : option Q) : bool :=
  match n with Some q => negb (Qeq_bool q 0) | None => false end.

Definition truthy_str (s : option string) : bool :=
  match s with Some EmptyString => false | Some _ => true | None => false end.

Definition is_some {A} (o : option A) : bool :=
  match o with Some _ => true | None => false end.

Definition phase_eqb (a b : Phase) : bool :=
  match a, b with
  | Planning, Planning | Analysis, Analysis
  | Execution, Execution | Verification, Verification => true
  | _, _ => false
  end.

Definition classification_name (c : Classification) : string :=
  match c with
  | hypothesis => "hypothesis"
  | observation => "observation"
  | conclusion => "conclusion"
  | question => "question"
  | solution => "solution"
  end.

(* ------------------------------------------------------------------------- *)
(** ** analytics/semanticAnalyzer.ts                                          *)
(* ------------------------------------------------------------------------- *)

(** Numbers of the semantic analyzer.  A quotient [0 / 0] of the source is
    [NaN]; where the source can produce it the value is an [option R] with
    [None] for [NaN]. *)
Module RNum.

Local Open Scope R_scope.

Definition eqb (x y : R) : bool := if Req_dec_T x y then true else false.
Definition gtb (x y : R) : bool := if Rgt_dec x y then true else false.
Definition ltb (x y : R) : bool := if Rlt_dec x y then true else false.
Definition leb (x y : R) : bool := if Rle_dec x y then true else false.

Definition sum (l : list R) : R := fold_left Rplus l 0.

Definition nan_add (a b : option R) : option R :=
  match a, b with Some x, Some y => Some (x + y) | _, _ => None end.

Definition nan_mul (a b : option R) : option R :=
  match a, b with Some x, Some y => Some (x * y) | _, _ => None end.

(** [a / n] for a count [n > 0]. *)
Definition nan_div_count (a : option R) (n : nat) : option R :=
  match a with Some x => Some (x / INR n) | None => None end.

(** [x || 0] *)
Definition or_zero (a : option R) : R :=
  match a with Some x => x | None => 0 end.

(** [a > c] with a possible [NaN] on the left. *)
Definition nan_gtb (a : option R) (c : R) : bool :=
  match a with Some x => gtb x c | None => false end.

(** The comparator [(a, b) => b - a] does not ask to move [a] behind [b]:
    it is negative or zero, or [NaN], which sorting reads as zero. *)
Definition desc_before (a b : option R) : bool :=
  match a, b with Some x, Some y => leb y x | _, _ => true end.

End RNum.

(** The stand-ins for the [natural] and [stopword] packages. *)
Module Natural.

Import JS.
Local Open Scope string_scope.
Local Open Scope nat_scope.

(** [new natural.WordTokenizer().tokenize(text)] *)
Definition tokenize (text : string) : list string := split_ws text.

(** A [TfIdf] instance is its list of documents. *)
Definition TfIdf := list (list string).

Definition addDocument_string (t : TfIdf) (doc : string) : TfIdf :=
  (t ++ [split_ws doc])%list.
Definition addDocument_tokens (t : TfIdf) (doc : list string) : TfIdf :=
  (t ++ [doc])%list.

Definition count_term (term : string) (doc : list string) : nat :=
  List.length (filter (String.eqb term) doc).

Definition document_frequency (t : TfIdf) (term : string) : nat :=
  List.length (filter (mem term) t).

(** [tfidf(term, documentIndex)]; an empty document makes the term
    frequency [0 / 0]. *)
Definition tfidf (t : TfIdf) (term : string) (documentIndex : nat) : option R :=
  match nth_error t documentIndex with
  | None => Some 0%R
  | Some [] => None
  | Some doc =>
      let tf := (INR (count_term term doc) / INR (List.length doc))%R in
      let idf := ln (INR (List.length t) / (1 + INR (document_frequency t term)))%R in
      Some (tf * idf)%R
  end.

(** [listTerms(documentIndex)] *)
Definition listTerms (t : TfIdf) (documentIndex : nat) : list (string * option R) :=
  match nth_error t documentIndex with
  | None => []
  | Some doc =>
      sort (fun a b => RNum.desc_before (snd a) (snd b))
           (map (fun term => (term, tfidf t term documentIndex)) (dedup doc))
  end.

(** [PorterStemmer.stem(word)] *)
Definition stem (word : string) : string :=
  if endsWith word "ing" then drop_last 3 word
  else if endsWith word "ed" then drop_last 2 word
  else if endsWith word "s" then drop_last 1 word
  else word.

(** One row of the edit-distance matrix: [prev] is the row above from the
    column to the left on, [left] the entry to the left. *)
Fixpoint lev_row (c2 : ascii) (s1 : list ascii) (prev : list nat) (left : nat) : list nat :=
  match s1, prev with
  | c1 :: s1', diag :: ((up :: _) as prev') =>
      let cost := if Ascii.eqb c2 c1 then 0 else 1 in
      let v := Nat.min (Nat.min (up + 1) (left + 1)) (diag + cost) in
      v :: lev_row c2 s1' prev' v
  | _, _ => []
  end.

Fixpoint lev_rows (s2 : list ascii) (s1 : list ascii) (i : nat) (prev : list nat) : list nat :=
  match s2 with
  | [] => prev
  | c2 :: s2' => lev_rows s2' s1 (S i) (S i :: lev_row c2 s1 prev (S i))
  end.

(** [natural.LevenshteinDistance(str1, str2)] *)
Definition LevenshteinDistance (str1 str2 : string) : nat :=
  if String.eqb str1 str2 then 0
  else if String.length str1 =? 0 then String.length str2
  else if String.length str2 =? 0 then String.length str1
  else last (lev_rows (chars str2) (chars str1) 0 (seq 0 (S (String.length str1)))) 0.

Definition stopwords : list string :=
  ["the"; "and"; "or"; "but"; "in"; "on"; "at"; "to"; "for"; "with"; "by"; "is";
   "are"; "was"; "were"; "this"; "that"; "these"; "those"].

(** [stopword.removeStopwords(tokens)] *)
Definition removeStopwords (tokens : list string) : list string :=
  filter (fun token => negb (mem (toLowerCase token) stopwords)) tokens.

End Natural.

Module SemanticAnalyzer.

Import JS Natural.
Local Open Scope string_scope.
Local Open Scope nat_scope.
Local Open Scope bool_scope.

Definition vectorDimension : nat := 300.

Definition tokenizeAndNormalize (text : string) : list string :=
  removeStopwords (tokenize (toLowerCase text)).

(** [vector[index] += x] *)
Fixpoint add_at (index : nat) (x : R) (v : list R) : list R :=
  match v, index with
  | [], _ => []
  | y :: v', O => (y + x)%R :: v'
  | y :: v', S n => y :: add_at n x v'
  end.

Definition zero_vector : list R := repeat 0%R vectorDimension.

Definition seedPrimes : list nat := [31; 101; 257; 401; 631].

(** The inner loop of [getWordVector] for the character [c] at position [i]. *)
Definition hash_char (v : list R) (i : nat) (c : ascii) : list R :=
  fst (fold_left
         (fun (st : list R * nat) prime =>
            let (v, j) := st in
            (add_at ((nat_of_ascii c * prime + i + j) mod vectorDimension)
                    (1 / (INR i + 1))%R v, S j))
         seedPrimes (v, 0)).

Definition hash_word (word : string) : list R :=
  fst (fold_left
         (fun (st : list R * nat) c => let (v, i) := st in (hash_char v i c, S i))
         (chars word) (zero_vector, 0)).

(** [Math.sqrt(vector.reduce((sum, val) => sum + val * val, 0))] *)
Definition magnitude (v : list R) : R :=
  sqrt (fold_left (fun sum val => sum + val * val)%R v 0%R).

(** [vector.map(val => magnitude === 0 ? 0 : val / magnitude)] *)
Definition normalize (v : list R) : list R :=
  let m := magnitude v in
  map (fun val => if RNum.eqb m 0 then 0%R else (val / m)%R) v.

(** [getWordVector(word)]; the cache of word vectors stores the value
    computed here and does not change any result. *)
Definition getWordVector (word : string) : list R := normalize (hash_word word).

Definition getIdfWeight (word : string) : R := 1%R.

Definition buildThoughtVectors (t : ThoughtData) : list R :=
  let tokens := tokenizeAndNormalize (thought t) in
  let acc :=
    fold_left
      (fun (st : list R * nat) token =>
         let (vector, wordCount) := st in
         let wordVector := getWordVector token in
         let idfWeight := getIdfWeight token in
         (map (fun p => (fst p + snd p * idfWeight)%R) (combine vector wordVector),
          S wordCount))
      tokens (zero_vector, 0) in
  let vector :=
    if 0 <? snd acc then map (fun val => (val / INR (snd acc))%R) (fst acc)
    else fst acc in
  normalize vector.

Definition cosineSimilarity (vec1 vec2 : list R) : R :=
  if negb (List.length vec1 =? List.length vec2) then 0%R
  else
    let dotProduct :=
      fold_left (fun sum p => (sum + fst p * snd p)%R) (combine vec1 vec2) 0%R in
    let magnitude1 := magnitude vec1 in
    let magnitude2 := magnitude vec2 in
    if RNum.eqb magnitude1 0 || RNum.eqb magnitude2 0 then 0%R
    else (dotProduct / (magnitude1 * magnitude2))%R.

(** Sets of strings are lists without repetition, in insertion order. *)
Definition jaccardSimilarity (set1 set2 : list string) : R :=
  let intersection := dedup (filter (fun x => mem x set2) set1) in
  let union := dedup (set1 ++ set2) in
  if List.length union =? 0 then 0%R
  else (INR (List.length intersection) / INR (List.length union))%R.

Definition by_score_desc {K} (a b : K * option R) : bool :=
  RNum.desc_before (snd a) (snd b).

Definition extractKeywords (text : string) : list string :=
  let tokens := tokenizeAndNormalize text in
  match tokens with
  | [] => []
  | _ =>
      let tempTfidf := addDocument_tokens [] tokens in
      let terms := listTerms tempTfidf 0 in
      map fst (take 10 (sort by_score_desc terms))
  end.

(** [vec[term] || 0] *)
(* Every term that is read is a key of both vectors: they are filled with
   the same terms at the only call. *)
Definition entry_or_zero (vec : dict (option R)) (term : string) : R :=
  match get vec term with
  | Some v => RNum.or_zero v
  | None => 0%R
  end.

(** [{...vec1, ...vec2}] *)
Definition spread {V} (vec1 vec2 : dict V) : dict V :=
  fold_left (fun o e => set o (fst e) (snd e)) (entries vec2)
            (fold_left (fun o e => set o (fst e) (snd e)) (entries vec1) []).

Definition cosineSimilarityObjects (vec1 vec2 : dict (option R)) : R :=
  let acc :=
    fold_left
      (fun (st : R * R * R) term =>
         let '(dotProduct, magnitude1, magnitude2) := st in
         let val1 := entry_or_zero vec1 term in
         let val2 := entry_or_zero vec2 term in
         (dotProduct + val1 * val2, magnitude1 + val1 * val1,
          magnitude2 + val2 * val2)%R)
      (keys (spread vec1 vec2)) (0, 0, 0)%R in
  let '(dotProduct, magnitude1, magnitude2) := acc in
  let magnitude1 := sqrt magnitude1 in
  let magnitude2 := sqrt magnitude2 in
  if RNum.eqb magnitude1 0 || RNum.eqb magnitude2 0 then 0%R
  else (dotProduct / (magnitude1 * magnitude2))%R.

Definition calculateTfidfSimilarity (text1 text2 : string) : R :=
  let tempTfidf :=
    addDocument_string
      (addDocument_string [] (join " " (tokenizeAndNormalize text1)))
      (join " " (tokenizeAndNormalize text2)) in
  let terms := dedup (tokenizeAndNormalize text1 ++ tokenizeAndNormalize text2) in
  let vector1 := fold_left (fun o term => assign o term (tfidf tempTfidf term 0)) terms [] in
  let vector2 := fold_left (fun o term => assign o term (tfidf tempTfidf term 1)) terms [] in
  cosineSimilarityObjects vector1 vector2.

Definition thought_vector (t : ThoughtData) : list R :=
  match vector t with
  | Some v => v
  | None => buildThoughtVectors t
  end.

Definition analyzeSemanticSimilarity (thought1 thought2 : ThoughtData) : R :=
  let vector1 := thought_vector thought1 in
  let vector2 := thought_vector thought2 in
  let cosineSim := cosineSimilarity vector1 vector2 in
  let keywords1 := dedup (extractKeywords (thought thought1)) in
  let keywords2 := dedup (extractKeywords (thought thought2)) in
  let jaccardSim := jaccardSimilarity keywords1 keywords2 in
  let tfidfSim := calculateTfidfSimilarity (thought thought1) (thought thought2) in
  ((cosineSim * 0.5) + (jaccardSim * 0.2) + (tfidfSim * 0.3))%R.

(** [extractTopicKeywords(thoughts)]: the five terms with the highest
    average TF-IDF over the documents of the cluster. *)
Definition extractTopicKeywords (thoughts : list ThoughtData) : list string :=
  let tfidfs :=
    fold_left (fun t th => addDocument_tokens t (tokenizeAndNormalize (thought th)))
              thoughts [] in
  let docIndexes := seq 0 (List.length thoughts) in
  let uniqueTerms :=
    dedup (flat_map (fun docIndex => map fst (listTerms tfidfs docIndex)) docIndexes) in
  let terms :=
    map (fun term =>
           let totalScore :=
             fold_left (fun total docIndex => RNum.nan_add total (tfidf tfidfs term docIndex))
                       docIndexes (Some 0%R) in
           (term, RNum.nan_div_count totalScore (List.length thoughts)))
        uniqueTerms in
  map fst (take 5 (sort by_score_desc terms)).

Definition has_number (processed : list Q) (n : Q) : bool :=
  existsb (Qeq_bool n) processed.

(** The entry [similarityMatrix[i][j]]. *)
Definition similarity_entry (thoughts : list ThoughtData) (i j : nat) : R :=
  if i =? j then 1%R
  else match nth_error thoughts i, nth_error thoughts j with
       | Some ti, Some tj => analyzeSemanticSimilarity ti tj
       | _, _ => 0%R
       end.

Definition indexed {A} (l : list A) : list (nat * A) := combine (seq 0 (List.length l)) l.

Record ClusterState := {
  clusters : dict (list ThoughtData);
  processedThoughts : list Q;
  clusterCount : nat
}.

(** The body of the [forEach] of the clustering. *)
Definition cluster_step (thoughts : list ThoughtData) (st : ClusterState)
           (it : nat * ThoughtData) : ClusterState :=
  let (index, th) := it in
  if has_number (processedThoughts st) (thoughtNumber th) then st
  else
    let cluster :=
      map snd
        (filter (fun jt : nat * ThoughtData =>
                   negb (has_number (processedThoughts st) (thoughtNumber (snd jt))) &&
                   RNum.gtb (similarity_entry thoughts index (fst jt)) 0.6)
                (indexed thoughts)) in
    if 0 <? List.length cluster then
      let topicKeywords := extractTopicKeywords cluster in
      let topicName :=
        if 0 <? List.length topicKeywords
        then join "_" (take 2 topicKeywords)
        else "topic_" ++ string_of_Z (Z.of_nat (clusterCount st + 1)) in
      {| clusters := assign (clusters st) topicName cluster;
         clusterCount := clusterCount st + 1;
         processedThoughts :=
           (processedThoughts st ++ map thoughtNumber cluster)%list |}
    else st.

(** [clusterThoughtsByTopic(thoughts)].  The document-term matrix that the
    source builds first is not read afterwards. *)
Definition clusterThoughtsByTopic (thoughts : list ThoughtData)
  : dict (list ThoughtData) :=
  clusters
    (fold_left (cluster_step thoughts) (indexed thoughts)
               {| clusters := []; processedThoughts := []; clusterCount := 0 |}).

Definition conceptStopWords : list string :=
  ["the"; "and"; "or"; "but"; "in"; "on"; "at"; "to"; "for"; "with"; "by"; "is"; "are"; "was";
   "were"; "this"; "that"; "these"; "those"; "be"; "been"; "being"; "have"; "has"; "had"; "do";
   "does"; "did"; "can"; "could"; "will"; "would"; "should"; "may"; "might"; "must"; "shall"].

Definition isSignificantConcept (concept : string) : bool :=
  let words := split_space concept in
  if 1 <? List.length words then
    if forallb (fun word => mem word conceptStopWords) words then false
    else if 3 <=? List.length words then true
    else existsb (fun word => negb (mem word conceptStopWords) && (3 <? String.length word)) words
  else (3 <? String.length concept) && negb (mem concept conceptStopWords).

Fixpoint bigrams (tokens : list string) : list string :=
  match tokens with
  | a :: ((b :: _) as rest) => (a ++ " " ++ b) :: bigrams rest
  | _ => []
  end.

Fixpoint trigrams (tokens : list string) : list string :=
  match tokens with
  | a :: ((b :: c :: _) as rest) => (a ++ " " ++ b ++ " " ++ c) :: trigrams rest
  | _ => []
  end.

Definition extractConcepts (t : ThoughtData) : list string :=
  let tokens := tokenizeAndNormalize (thought t) in
  let ngrams :=
    (filter isSignificantConcept tokens
     ++ filter isSignificantConcept (bigrams tokens)
     ++ filter isSignificantConcept (trigrams tokens))%list in
  let tempTfidf := addDocument_string [] (join " " tokens) in
  let scoredNgrams :=
    map (fun ngram =>
           let ngramTokens := split_space ngram in
           let score :=
             fold_left (fun score token => RNum.nan_add score (tfidf tempTfidf token 0))
                       ngramTokens (Some 0%R) in
           (ngram, RNum.nan_div_count score (List.length ngramTokens)))
        ngrams in
  map fst (take 10 (sort by_score_desc scoredNgrams)).

Definition calculateStringSimilarity (str1 str2 : string) : R :=
  let distance := LevenshteinDistance str1 str2 in
  let maxLength := Nat.max (String.length str1) (String.length str2) in
  if maxLength =? 0 then 1%R
  else (1 - INR distance / INR maxLength)%R.

Definition calculatePhraseRelevance (phrase1 phrase2 : string) : R :=
  let words1 := split_space phrase1 in
  let words2 := split_space phrase2 in
  let overlapSim := jaccardSimilarity (dedup words1) (dedup words2) in
  let stringSim := calculateStringSimilarity phrase1 phrase2 in
  let semanticSim :=
    fold_left
      (fun semanticSim word1 =>
         fold_left
           (fun semanticSim word2 =>
              let stem1 := stem word1 in
              let stem2 := stem word2 in
              if String.eqb stem1 stem2 then Rmax semanticSim 0.9
              else Rmax semanticSim (calculateStringSimilarity stem1 stem2 * 0.7))
           words2 semanticSim)
      words1 0%R in
  ((overlapSim * 0.4) + (stringSim * 0.3) + (semanticSim * 0.3))%R.

Definition calculateContextualAspectRelevance (text : string) (aspects : list string) : R :=
  match aspects with
  | [] => 1%R
  | _ =>
      let totalRelevance :=
        fold_left
          (fun totalRelevance aspect =>
             if includes (toLowerCase text) (toLowerCase aspect)
             then (totalRelevance + 1)%R
             else
               let aspectTokens := tokenizeAndNormalize aspect in
               let textTokens := tokenizeAndNormalize text in
               let tokenMatches :=
                 List.length (filter (fun token => mem token textTokens) aspectTokens) in
               let tokenMatchRatio :=
                 if 0 <? List.length aspectTokens
                 then (INR tokenMatches / INR (List.length aspectTokens))%R
                 else 0%R in
               let sentences :=
                 filter (fun s => 0 <? String.length s) (map trim (split_sentences text)) in
               let maxSentenceSimilarity :=
                 fold_left (fun best sentence =>
                              Rmax best (calculatePhraseRelevance aspect sentence))
                           sentences 0%R in
               (totalRelevance + ((tokenMatchRatio * 0.6) + (maxSentenceSimilarity * 0.4)))%R)
          aspects 0%R in
      Rmin 1 (totalRelevance / Rmax 1 (INR (List.length aspects)))
  end.

Definition domainKeywords : list (string * list string) :=
  [("programming", ["code"; "programming"; "software"; "development"; "algorithm"; "function"]);
   ("math", ["math"; "calculation"; "formula"; "equation"; "numerical"]);
   ("science", ["science"; "scientific"; "experiment"; "hypothesis"; "theory"]);
   ("business", ["business"; "market"; "strategy"; "company"; "product"; "service"]);
   ("writing", ["write"; "essay"; "article"; "blog"; "content"; "story"]);
   ("design", ["design"; "layout"; "visual"; "UI"; "UX"; "interface"]);
   ("data", ["data"; "analysis"; "statistics"; "dataset"; "visualization"])].

Definition identifyAlternativeDomains (text : string) (m : PromptMetadata) : list string :=
  let textLower := toLowerCase text in
  map fst
      (filter (fun d => negb (mem (fst d) (domains m)) && existsb (includes textLower) (snd d))
              domainKeywords).

Record TopicDrift := {
  td_hasDrift : bool;
  driftScore : option R;
  driftReason : option string;
  driftDirection : option string
}.

Definition detectTopicDrift (t : ThoughtData) (m : PromptMetadata) : TopicDrift :=
  let thoughtText := thought t in
  let promptGoals := goals m in
  let promptKeywords := keywords m in
  let promptDomains := domains m in
  let goalRelevance := calculateContextualAspectRelevance thoughtText promptGoals in
  let keywordRelevance := calculateContextualAspectRelevance thoughtText promptKeywords in
  let domainRelevance := calculateContextualAspectRelevance thoughtText promptDomains in
  let thoughtKeywords := extractKeywords thoughtText in
  let overlapCount := List.length (filter (fun kw => mem kw promptKeywords) thoughtKeywords) in
  let keywordOverlapRatio : option R :=
    if 0 <? List.length promptKeywords then
      let least := Nat.min (List.length thoughtKeywords) (List.length promptKeywords) in
      if least =? 0 then None
      else Some (INR overlapCount / INR least)%R
    else Some 1%R in
  let score : option R :=
    match keywordOverlapRatio with
    | Some ratio =>
        Some (1 - ((goalRelevance * 0.4) + (keywordRelevance * 0.3)
                   + (domainRelevance * 0.1) + (ratio * 0.2)))%R
    | None => None
    end in
  let direction :=
    if RNum.nan_gtb score 0.4 then
      match identifyAlternativeDomains thoughtText m with
      | [] => None
      | alternativeDomains => Some ("Drifting toward: " ++ join ", " alternativeDomains)
      end
    else None in
  let driftThreshold := 0.55%R in
  let drifting := RNum.nan_gtb score driftThreshold in
  let reason :=
    if drifting then
      if RNum.ltb goalRelevance 0.4
      then Some "Thought has low relevance to the prompt's main goals"
      else if RNum.ltb keywordRelevance 0.4
      then Some "Thought uses terminology unrelated to the prompt's key concepts"
      else if RNum.ltb (RNum.or_zero keywordOverlapRatio) 0.3
      then Some "Few overlapping keywords with the prompt"
      else if RNum.ltb domainRelevance 0.3
      then Some "Thought appears to address a different knowledge domain"
      else Some "Thought is diverging from the prompt's intended direction"
    else None in
  {| td_hasDrift := drifting;
     driftScore := score;
     driftReason := reason;
     driftDirection := direction |}.

End SemanticAnalyzer.

(* ------------------------------------------------------------------------- *)
(** ** analytics/semanticAnalyzer.ts, over doubles                            *)
(* ------------------------------------------------------------------------- *)

(** The functions behind [analyzeSemanticSimilarity] once more, with the
    numbers of the implementation: binary64 values, every operation rounded
    to nearest, in the order in which the source evaluates them.
    [Math.sqrt] is the correctly rounded square root.  Tokens, keywords and
    dictionaries are those of [SemanticAnalyzer]. *)
Module Doubles.

Import Floats.Floats JS Natural.
Local Open Scope string_scope.
Local Open Scope bool_scope.
Local Open Scope float_scope.
#[local] Set Warnings "-inexact-float".

(** An integer as a number; exact below [2^53]. *)
Definition of_Z (z : Z) : float :=
  if (z <? 0)%Z then - PrimFloat.of_uint63 (Uint63.of_Z (- z))
  else PrimFloat.of_uint63 (Uint63.of_Z z).

Definition of_nat (n : nat) : float := of_Z (Z.of_nat n).

(** [Math.log(x)], by the algorithm of the mathematics library of the
    runtime (fdlibm's [log], which V8 carries as [ieee754::log]): [x] is
    reduced to [2^k * (1 + f)] with [sqrt(2)/2 < 1 + f < sqrt(2)], and
    [log(1 + f)] is computed from a polynomial in [s = f / (2 + f)].  [hx]
    stands for the upper 20 bits of the fraction of [x].  The functions
    below read the logarithm at 2, 1, 2/3 and 1/2 only, where the result is
    the correctly rounded one. *)
Definition ln2_hi : float := 6.93147180369123816490e-01.
Definition ln2_lo : float := 1.90821492927058770002e-10.
Definition Lg1 : float := 6.666666666666735130e-01.
Definition Lg2 : float := 3.999999999940941908e-01.
Definition Lg3 : float := 2.857142874366239149e-01.
Definition Lg4 : float := 2.222219843214978396e-01.
Definition Lg5 : float := 1.818357216161805012e-01.
Definition Lg6 : float := 1.531383769920937332e-01.
Definition Lg7 : float := 1.479819860511658591e-01.

Definition log_reduced (f : float) (hx k : Z) : float :=
  let dk := of_Z k in
  if (Z.land (2 + hx) 0xfffff <? 3)%Z then
    if f =? 0 then
      if (k =? 0)%Z then 0 else dk * ln2_hi + dk * ln2_lo
    else
      let R := f * f * (0.5 - 0.33333333333333333 * f) in
      if (k =? 0)%Z then f - R else dk * ln2_hi - ((R - dk * ln2_lo) - f)
  else
    let s := f / (2 + f) in
    let z := s * s in
    let w := z * z in
    let t1 := w * (Lg2 + w * (Lg4 + w * Lg6)) in
    let t2 := z * (Lg1 + w * (Lg3 + w * (Lg5 + w * Lg7))) in
    let R := t2 + t1 in
    if (0x6147a <=? hx)%Z && (hx <=? 0x6b851)%Z then
      let hfsq := 0.5 * f * f in
      if (k =? 0)%Z then f - (hfsq - s * (hfsq + R))
      else dk * ln2_hi - ((hfsq - (s * (hfsq + R) + dk * ln2_lo)) - f)
    else
      if (k =? 0)%Z then f - s * (f - R)
      else dk * ln2_hi - ((s * (f - R) - dk * ln2_lo) - f).

Definition Math_log (x : float) : float :=
  match PrimFloat.classify x with
  | NaN => x + x
  | PInf => x + x
  | PZero | NZero => neg_infinity
  | NInf | NNormal | NSubn => nan
  | PNormal | PSubn =>
      let (m, e) := Z.frexp x in
      let hx := Z.shiftr (Uint63.to_Z (PrimFloat.normfr_mantissa m) - 2 ^ 52) 32 in
      let k := (e - 1)%Z in
      if (0x6a09c <=? hx)%Z then log_reduced (m - 1) hx (k + 1)
      else log_reduced (2 * m - 1) hx k
  end.

(** [x || 0] on a number *)
Definition or_zero (x : float) : float :=
  if PrimFloat.is_nan x || (x =? 0) then 0 else x.

(** [tfidf(term, documentIndex)] *)
Definition tfidf (t : TfIdf) (term : string) (documentIndex : nat) : float :=
  match nth_error t documentIndex with
  | None => 0
  | Some doc =>
      let tf := of_nat (count_term term doc) / of_nat (List.length doc) in
      let idf := Math_log (of_nat (List.length t)
                           / (1 + of_nat (document_frequency t term))) in
      tf * idf
  end.

(** The comparator [(a, b) => b.tfidf - a.tfidf] is not positive. *)
Definition by_score_desc {K} (a b : K * float) : bool :=
  negb (0 <? snd b - snd a).

Definition listTerms (t : TfIdf) (documentIndex : nat) : list (string * float) :=
  match nth_error t documentIndex with
  | None => []
  | Some doc =>
      sort by_score_desc (map (fun term => (term, tfidf t term documentIndex)) (dedup doc))
  end.

(** [vector[index] += x] *)
Fixpoint add_at (index : nat) (x : float) (v : list float) : list float :=
  match v, index with
  | [], _ => []
  | y :: v', O => (y + x) :: v'
  | y :: v', S n => y :: add_at n x v'
  end.

Definition zero_vector : list float := repeat 0 SemanticAnalyzer.vectorDimension.

Definition hash_char (v : list float) (i : nat) (c : ascii) : list float :=
  fst (fold_left
         (fun (st : list float * nat) prime =>
            let (v, j) := st in
            (add_at ((nat_of_ascii c * prime + i + j) mod SemanticAnalyzer.vectorDimension)
                    (1 / of_nat (i + 1)) v, S j))
         SemanticAnalyzer.seedPrimes (v, 0%nat)).

Definition hash_word (word : string) : list float :=
  fst (fold_left
         (fun (st : list float * nat) c => let (v, i) := st in (hash_char v i c, S i))
         (chars word) (zero_vector, 0%nat)).

(** [Math.sqrt(vector.reduce((sum, val) => sum + val * val, 0))] *)
Definition magnitude (v : list float) : float :=
  PrimFloat.sqrt (fold_left (fun sum val => sum + val * val) v 0).

(** [vector.map(val => magnitude === 0 ? 0 : val / magnitude)] *)
Definition normalize (v : list float) : list float :=
  let m := magnitude v in
  map (fun val => if m =? 0 then 0 else val / m) v.

Definition getWordVector (word : string) : list float := normalize (hash_word word).

Definition getIdfWeight (word : string) : float := 1.

Definition buildThoughtVectors (text : string) : list float :=
  let tokens := SemanticAnalyzer.tokenizeAndNormalize text in
  let acc :=
    fold_left
      (fun (st : list float * nat) token =>
         let (vector, wordCount) := st in
         let wordVector := getWordVector token in
         let idfWeight := getIdfWeight token in
         (map (fun p => fst p + snd p * idfWeight) (combine vector wordVector),
          S wordCount))
      tokens (zero_vector, 0%nat) in
  let vector :=
    if (0 <? snd acc)%nat then map (fun val => val / of_nat (snd acc)) (fst acc)
    else fst acc in
  normalize vector.

Definition cosineSimilarity (vec1 vec2 : list float) : float :=
  if negb (List.length vec1 =? List.length vec2)%nat then 0
  else
    let dotProduct :=
      fold_left (fun sum p => sum + fst p * snd p) (combine vec1 vec2) 0 in
    let magnitude1 := magnitude vec1 in
    let magnitude2 := magnitude vec2 in
    if (magnitude1 =? 0) || (magnitude2 =? 0) then 0
    else dotProduct / (magnitude1 * magnitude2).

Definition jaccardSimilarity (set1 set2 : list string) : float :=
  let intersection := dedup (filter (fun x => mem x set2) set1) in
  let union := dedup (set1 ++ set2) in
  if (List.length union =? 0)%nat then 0
  else of_nat (List.length intersection) / of_nat (List.length union).

Definition extractKeywords (text : string) : list string :=
  let tokens := SemanticAnalyzer.tokenizeAndNormalize text in
  match tokens with
  | [] => []
  | _ =>
      let tempTfidf := addDocument_tokens [] tokens in
      let terms := listTerms tempTfidf 0 in
      map fst (take 10 (sort by_score_desc terms))
  end.

(** [vec[term] || 0] *)
Definition entry_or_zero (vec : dict float) (term : string) : float :=
  match get vec term with
  | Some v => or_zero v
  | None => 0
  end.

Definition cosineSimilarityObjects (vec1 vec2 : dict float) : float :=
  let acc :=
    fold_left
      (fun (st : float * float * float) term =>
         let '(dotProduct, magnitude1, magnitude2) := st in
         let val1 := entry_or_zero vec1 term in
         let val2 := entry_or_zero vec2 term in
         (dotProduct + val1 * val2, magnitude1 + val1 * val1,
          magnitude2 + val2 * val2))
      (keys (SemanticAnalyzer.spread vec1 vec2)) (0, 0, 0) in
  let '(dotProduct, magnitude1, magnitude2) := acc in
  let magnitude1 := PrimFloat.sqrt magnitude1 in
  let magnitude2 := PrimFloat.sqrt magnitude2 in
  if (magnitude1 =? 0) || (magnitude2 =? 0) then 0
  else dotProduct / (magnitude1 * magnitude2).

Definition calculateTfidfSimilarity (text1 text2 : string) : float :=
  let tempTfidf :=
    addDocument_string
      (addDocument_string [] (join " " (SemanticAnalyzer.tokenizeAndNormalize text1)))
      (join " " (SemanticAnalyzer.tokenizeAndNormalize text2)) in
  let terms := dedup (SemanticAnalyzer.tokenizeAndNormalize text1
                      ++ SemanticAnalyzer.tokenizeAndNormalize text2) in
  let vector1 := fold_left (fun o term => assign o term (tfidf tempTfidf term 0)) terms [] in
  let vector2 := fold_left (fun o term => assign o term (tfidf tempTfidf term 1)) terms [] in
  cosineSimilarityObjects vector1 vector2.

(** The members of a thought that the similarity reads: its text and the
    vector stored with it, if any. *)
Record Thought := { thought : string; vector : option (list float) }.

Definition thought_vector (t : Thought) : list float :=
  match vector t with
  | Some v => v
  | None => buildThoughtVectors (thought t)
  end.

Definition analyzeSemanticSimilarity (thought1 thought2 : Thought) : float :=
  let vector1 := thought_vector thought1 in
  let vector2 := thought_vector thought2 in
  let cosineSim := cosineSimilarity vector1 vector2 in
  let keywords1 := dedup (extractKeywords (thought thought1)) in
  let keywords2 := dedup (extractKeywords (thought thought2)) in
  let jaccardSim := jaccardSimilarity keywords1 keywords2 in
  let tfidfSim := calculateTfidfSimilarity (thought thought1) (thought thought2) in
  (cosineSim * 0.5) + (jaccardSim * 0.2) + (tfidfSim * 0.3).



End Doubles.

(* ------------------------------------------------------------------------- *)
(** ** analytics/contradictionDetector.ts                                     *)
(* ------------------------------------------------------------------------- *)

Record ContradictionReport := {
  hasContradictions : bool;
  details : list Contradiction
}.

Module ContradictionDetector.

Import JS.
Local Open Scope string_scope.
Local Open Scope nat_scope.
Local Open Scope bool_scope.

Definition opposingPairs : list string :=
  ["hypothesis:conclusion"; "question:solution"; "observation:conclusion"].

(** [pair.split(':').reverse().join(':')] *)
Definition reverse_pair (pair : string) : string :=
  join ":" (rev (split_class (fun c => nat_of_ascii c =? 58) false [] false (chars pair))).

Definition hasOpposingClassifications (thought1 thought2 : ThoughtData) : bool :=
  match classification thought1, classification thought2 with
  | Some c1, Some c2 =>
      let pair := classification_name c1 ++ ":" ++ classification_name c2 in
      mem pair opposingPairs || mem (reverse_pair pair) opposingPairs
  | _, _ => false
  end.

Definition is_conclusion (c : option Classification) : bool :=
  match c with Some conclusion => true | _ => false end.

Definition negationWords : list string :=
  ["not"; "never"; "no"; "cannot"; "don't"; "doesn't"].

Definition containsNegation (text : string) (negations : list string) : bool :=
  existsb (fun word => mem word negations) (split_space (toLowerCase text)).

Definition hasConflictingConclusions (thought1 thought2 : ThoughtData) : bool :=
  if negb (is_conclusion (classification thought1))
     || negb (is_conclusion (classification thought2))
  then false
  else
    let hasNegation1 := containsNegation (thought thought1) negationWords in
    let hasNegation2 := containsNegation (thought thought2) negationWords in
    negb (Bool.eqb hasNegation1 hasNegation2).

Definition areAssumptionsConflicting (assumption1 assumption2 : string) : bool :=
  let negated1 := startsWith (toLowerCase assumption1) "not " in
  let negated2 := startsWith (toLowerCase assumption2) "not " in
  let base1 := if negated1 then substring_from 4 assumption1 else assumption1 in
  let base2 := if negated2 then substring_from 4 assumption2 else assumption2 in
  String.eqb (toLowerCase base1) (toLowerCase base2) && negb (Bool.eqb negated1 negated2).

Definition checkAssumptionConflicts (thought1 thought2 : ThoughtData) : option string :=
  match assumptions thought1, assumptions thought2 with
  | Some assumptions1, Some assumptions2 =>
      let conflicts :=
        filter (fun assumption1 =>
                  existsb (areAssumptionsConflicting assumption1) assumptions2)
               assumptions1 in
      if 0 <? List.length conflicts then Some (join ", " conflicts) else None
  | _, _ => None
  end.

Definition detectContradiction (thought1 thought2 : ThoughtData) : option string :=
  let similarity := SemanticAnalyzer.analyzeSemanticSimilarity thought1 thought2 in
  if RNum.gtb similarity 0.5 then
    if hasOpposingClassifications thought1 thought2 then
      Some ("Opposing classifications: "
            ++ match classification thought1 with
               | Some c => classification_name c | None => "undefined" end
            ++ " vs "
            ++ match classification thought2 with
               | Some c => classification_name c | None => "undefined" end)
    else if hasConflictingConclusions thought1 thought2 then
      Some "Conflicting conclusions detected"
    else
      let assumptionConflicts := checkAssumptionConflicts thought1 thought2 in
      if truthy_str assumptionConflicts then
        Some ("Conflicting assumptions: "
              ++ match assumptionConflicts with Some s => s | None => "" end)
      else None
  else None.

(** The body of the [forEach] over the existing thoughts: the entry that
    one existing thought adds, if any. *)
Definition check_existing (newThought existingThought : ThoughtData)
  : option Contradiction :=
  if truthy_bool (isRevision existingThought)
     || Qeq_bool (thoughtNumber existingThought) (thoughtNumber newThought)
  then None
  else
    match detectContradiction newThought existingThought with
    | Some contradiction =>
        if truthy_str (Some contradiction)
        then Some {| c_thoughtNumber := thoughtNumber existingThought;
                     explanation := contradiction |}
        else None
    | None => None
    end.

Fixpoint collect {A B} (f : A -> option B) (l : list A) : list B :=
  match l with
  | [] => []
  | x :: l' => match f x with
               | Some y => y :: collect f l'
               | None => collect f l'
               end
  end.

Definition checkContradictions (newThought : ThoughtData)
           (existingThoughts : list ThoughtData) : ContradictionReport :=
  if truthy_bool (isRevision newThought) then
    {| hasContradictions := false; details := [] |}
  else
    let contradictions := collect (check_existing newThought) existingThoughts in
    {| hasContradictions := 0 <? List.length contradictions;
       details := contradictions |}.

End ContradictionDetector.

(* ------------------------------------------------------------------------- *)
(** ** analytics/reflectionEngine.js                                          *)
(* ------------------------------------------------------------------------- *)

Module ReflectionEngine.

Import JS.
Local Open Scope string_scope.
Local Open Scope nat_scope.
Local Open Scope bool_scope.

Definition generateContextAwarePrompts (currentThought : ThoughtData)
           (allThoughts : list ThoughtData) : list string :=
  let first :=
    match dependencies currentThought with
    | Some (_ :: _) => "How do the dependencies influence this thought?"
    | _ => "How does this thought connect to previous thinking?"
    end in
  let similarThoughts :=
    filter (fun t =>
              negb (Qeq_bool (thoughtNumber t) (thoughtNumber currentThought)) &&
              RNum.gtb (SemanticAnalyzer.analyzeSemanticSimilarity t currentThought) 0.5)
           allThoughts in
  if 0 <? List.length similarThoughts
  then [first; "How does this thought align with or differ from similar previous thoughts?"]
  else [first].

Definition generatePhaseSpecificPrompts (p : Phase) : list string :=
  match p with
  | Planning =>
      ["What potential obstacles have been considered?";
       "Are there any missing steps in the plan?";
       "How flexible is this plan to changes?"]
  | Analysis =>
      ["What other angles of analysis could be explored?";
       "Are there any hidden patterns or relationships?";
       "What methods of analysis might yield different insights?"]
  | Execution =>
      ["What risks or challenges might arise during execution?";
       "Are there alternative approaches to implementation?";
       "How can the execution be optimized?"]
  | Verification =>
      ["What criteria are being used for verification?";
       "How comprehensive is the verification process?";
       "What edge cases should be considered?"]
  end.

Definition generateClassificationPrompts (c : Classification) : list string :=
  match c with
  | hypothesis =>
      ["What evidence would support or refute this hypothesis?";
       "What alternative hypotheses should be considered?"]
  | observation =>
      ["What factors might influence this observation?";
       "How reliable is this observation?"]
  | conclusion =>
      ["What assumptions led to this conclusion?";
       "How strong is the evidence supporting this conclusion?"]
  | question =>
      ["What assumptions underlie this question?";
       "Are there related questions to consider?"]
  | solution =>
      ["What are the limitations of this solution?";
       "How might this solution be improved?"]
  end.

Definition generateQualityBasedPrompts (q : Quality) : list string :=
  ((if Num.lt (coherence q) 7
    then ["How could this thought be better connected to the overall context?"] else [])
   ++ (if Num.lt (depth q) 7
       then ["What deeper aspects of this thought could be explored?"] else [])
   ++ (if Num.lt (relevance q) 7
       then ["How could this thought be made more relevant to the main goal?"] else []))%list.

(** [[...new Set(prompts)].sort((a, b) => b.length - a.length).slice(0, 5)] *)
Definition prioritizePrompts (prompts : list string) : list string :=
  take 5 (sort (fun a b => String.length b <=? String.length a) (dedup prompts)).

(** [generateReflectionPrompts(thoughts)]; on an empty array the latest
    thought is [undefined] and reading its members throws ([None]). *)
Definition generateReflectionPrompts (thoughts : list ThoughtData) : option (list string) :=
  match rev thoughts with
  | [] => None
  | latestThought :: _ =>
      Some (prioritizePrompts
              (generateContextAwarePrompts latestThought thoughts
               ++ match phase latestThought with
                  | Some p => generatePhaseSpecificPrompts p | None => [] end
               ++ match classification latestThought with
                  | Some c => generateClassificationPrompts c | None => [] end
               ++ match quality latestThought with
                  | Some q => generateQualityBasedPrompts q | None => [] end)%list)
  end.

Definition assumptionIndicators : list string :=
  ["assume"; "assuming"; "must be"; "should be"; "probably";
   "likely"; "always"; "never"; "everyone"; "nobody"; "clearly";
   "obviously"; "naturally"; "of course"].

Definition assumptionPrefixes : list string :=
  ["assuming"; "we assume"; "it is assumed"; "clearly"; "obviously";
   "naturally"; "of course"; "must be"; "should be"].

(** [text.replace(/^(assuming|we assume|...)/i, '')]: the first alternative
    that matches at the start is removed. *)
Fixpoint strip_prefix (alternatives : list string) (text : string) : string :=
  match alternatives with
  | [] => text
  | alternative :: rest =>
      if startsWith (toLowerCase text) alternative
      then substring_from (String.length alternative) text
      else strip_prefix rest text
  end.

Definition cleanAssumption (text : string) : string :=
  trim (strip_prefix assumptionPrefixes (trim text)).

Definition getImplicitAssumptions (c : Classification) : list string :=
  match c with
  | hypothesis => ["The variables being considered are the most relevant ones"]
  | observation => ["The observation is representative of the general case"]
  | conclusion => ["The available evidence is sufficient for this conclusion"]
  | question => ["This question addresses a significant aspect of the problem"]
  | solution => ["The solution is feasible to implement"]
  end.

Definition identifyAssumptions (t : ThoughtData) : list string :=
  let text := toLowerCase (thought t) in
  let sentences := split_sentences text in
  let found :=
    map cleanAssumption
        (filter (fun sentence => existsb (includes sentence) assumptionIndicators)
                sentences) in
  dedup (found ++ match classification t with
                  | Some c => getImplicitAssumptions c
                  | None => []
                  end)%list.

End ReflectionEngine.

(** Assignments to the members of a thought record. *)
Definition set_totalThoughts (t : ThoughtData) (v : Q) : ThoughtData :=
  {| thought := t.(thought); thoughtNumber := t.(thoughtNumber); totalThoughts := v;
     isRevision := t.(isRevision); revisesThought := t.(revisesThought);
     branchFromThought := t.(branchFromThought); branchId := t.(branchId);
     needsMoreThoughts := t.(needsMoreThoughts);
     nextThoughtNeeded := t.(nextThoughtNeeded); phase := t.(phase);
     dependencies := t.(dependencies); toolsUsed := t.(toolsUsed);
     td_complexity := t.(td_complexity); status := t.(status); quality := t.(quality);
     td_keywords := t.(td_keywords); insightValue := t.(insightValue);
     classification := t.(classification); confidenceScore := t.(confidenceScore);
     evidenceStrength := t.(evidenceStrength); assumptions := t.(assumptions);
     vector := t.(vector); conceptsExtracted := t.(conceptsExtracted);
     contradictions := t.(contradictions); reflectionPrompts := t.(reflectionPrompts);
     promptAlignment := t.(promptAlignment); promptRelevance := t.(promptRelevance);
     driftWarning := t.(driftWarning); suggestedCorrections := t.(suggestedCorrections);
     intelligenceRecommendations := t.(intelligenceRecommendations) |}.

Definition set_phase (t : ThoughtData) (v : option Phase) : ThoughtData :=
  {| thought := t.(thought); thoughtNumber := t.(thoughtNumber);
     totalThoughts := t.(totalThoughts); isRevision := t.(isRevision);
     revisesThought := t.(revisesThought); branchFromThought := t.(branchFromThought);
     branchId := t.(branchId); needsMoreThoughts := t.(needsMoreThoughts);
     nextThoughtNeeded := t.(nextThoughtNeeded); phase := v;
     dependencies := t.(dependencies); toolsUsed := t.(toolsUsed);
     td_complexity := t.(td_complexity); status := t.(status); quality := t.(quality);
     td_keywords := t.(td_keywords); insightValue := t.(insightValue);
     classification := t.(classification); confidenceScore := t.(confidenceScore);
     evidenceStrength := t.(evidenceStrength); assumptions := t.(assumptions);
     vector := t.(vector); conceptsExtracted := t.(conceptsExtracted);
     contradictions := t.(contradictions); reflectionPrompts := t.(reflectionPrompts);
     promptAlignment := t.(promptAlignment); promptRelevance := t.(promptRelevance);
     driftWarning := t.(driftWarning); suggestedCorrections := t.(suggestedCorrections);
     intelligenceRecommendations := t.(intelligenceRecommendations) |}.

Definition set_vector (t : ThoughtData) (v : option (list R)) : ThoughtData :=
  {| thought := t.(thought); thoughtNumber := t.(thoughtNumber);
     totalThoughts := t.(totalThoughts); isRevision := t.(isRevision);
     revisesThought := t.(revisesThought); branchFromThought := t.(branchFromThought);
     branchId := t.(branchId); needsMoreThoughts := t.(needsMoreThoughts);
     nextThoughtNeeded := t.(nextThoughtNeeded); phase := t.(phase);
     dependencies := t.(dependencies); toolsUsed := t.(toolsUsed);
     td_complexity := t.(td_complexity); status := t.(status); quality := t.(quality);
     td_keywords := t.(td_keywords); insightValue := t.(insightValue);
     classification := t.(classification); confidenceScore := t.(confidenceScore);
     evidenceStrength := t.(evidenceStrength); assumptions := t.(assumptions);
     vector := v; conceptsExtracted := t.(conceptsExtracted);
     contradictions := t.(contradictions); reflectionPrompts := t.(reflectionPrompts);
     promptAlignment := t.(promptAlignment); promptRelevance := t.(promptRelevance);
     driftWarning := t.(driftWarning); suggestedCorrections := t.(suggestedCorrections);
     intelligenceRecommendations := t.(intelligenceRecommendations) |}.

Definition set_conceptsExtracted (t : ThoughtData) (v : option (list string)) : ThoughtData :=
  {| thought := t.(thought); thoughtNumber := t.(thoughtNumber);
     totalThoughts := t.(totalThoughts); isRevision := t.(isRevision);
     revisesThought := t.(revisesThought); branchFromThought := t.(branchFromThought);
     branchId := t.(branchId); needsMoreThoughts := t.(needsMoreThoughts);
     nextThoughtNeeded := t.(nextThoughtNeeded); phase := t.(phase);
     dependencies := t.(dependencies); toolsUsed := t.(toolsUsed);
     td_complexity := t.(td_complexity); status := t.(status); quality := t.(quality);
     td_keywords := t.(td_keywords); insightValue := t.(insightValue);
     classification := t.(classification); confidenceScore := t.(confidenceScore);
     evidenceStrength := t.(evidenceStrength); assumptions := t.(assumptions);
     vector := t.(vector); conceptsExtracted := v; contradictions := t.(contradictions);
     reflectionPrompts := t.(reflectionPrompts); promptAlignment := t.(promptAlignment);
     promptRelevance := t.(promptRelevance); driftWarning := t.(driftWarning);
     suggestedCorrections := t.(suggestedCorrections);
     intelligenceRecommendations := t.(intelligenceRecommendations) |}.

Definition set_contradictions (t : ThoughtData) (v : option (list Contradiction)) : ThoughtData :=
  {| thought := t.(thought); thoughtNumber := t.(thoughtNumber);
     totalThoughts := t.(totalThoughts); isRevision := t.(isRevision);
     revisesThought := t.(revisesThought); branchFromThought := t.(branchFromThought);
     branchId := t.(branchId); needsMoreThoughts := t.(needsMoreThoughts);
     nextThoughtNeeded := t.(nextThoughtNeeded); phase := t.(phase);
     dependencies := t.(dependencies); toolsUsed := t.(toolsUsed);
     td_complexity := t.(td_complexity); status := t.(status); quality := t.(quality);
     td_keywords := t.(td_keywords); insightValue := t.(insightValue);
     classification := t.(classification); confidenceScore := t.(confidenceScore);
     evidenceStrength := t.(evidenceStrength); assumptions := t.(assumptions);
     vector := t.(vector); conceptsExtracted := t.(conceptsExtracted);
     contradictions := v; reflectionPrompts := t.(reflectionPrompts);
     promptAlignment := t.(promptAlignment); promptRelevance := t.(promptRelevance);
     driftWarning := t.(driftWarning); suggestedCorrections := t.(suggestedCorrections);
     intelligenceRecommendations := t.(intelligenceRecommendations) |}.

Definition set_reflectionPrompts (t : ThoughtData) (v : option (list string)) : ThoughtData :=
  {| thought := t.(thought); thoughtNumber := t.(thoughtNumber);
     totalThoughts := t.(totalThoughts); isRevision := t.(isRevision);
     revisesThought := t.(revisesThought); branchFromThought := t.(branchFromThought);
     branchId := t.(branchId); needsMoreThoughts := t.(needsMoreThoughts);
     nextThoughtNeeded := t.(nextThoughtNeeded); phase := t.(phase);
     dependencies := t.(dependencies); toolsUsed := t.(toolsUsed);
     td_complexity := t.(td_complexity); status := t.(status); quality := t.(quality);
     td_keywords := t.(td_keywords); insightValue := t.(insightValue);
     classification := t.(classification); confidenceScore := t.(confidenceScore);
     evidenceStrength := t.(evidenceStrength); assumptions := t.(assumptions);
     vector := t.(vector); conceptsExtracted := t.(conceptsExtracted);
     contradictions := t.(contradictions); reflectionPrompts := v;
     promptAlignment := t.(promptAlignment); promptRelevance := t.(promptRelevance);
     driftWarning := t.(driftWarning); suggestedCorrections := t.(suggestedCorrections);
     intelligenceRecommendations := t.(intelligenceRecommendations) |}.

Definition set_assumptions (t : ThoughtData) (v : option (list string)) : ThoughtData :=
  {| thought := t.(thought); thoughtNumber := t.(thoughtNumber);
     totalThoughts := t.(totalThoughts); isRevision := t.(isRevision);
     revisesThought := t.(revisesThought); branchFromThought := t.(branchFromThought);
     branchId := t.(branchId); needsMoreThoughts := t.(needsMoreThoughts);
     nextThoughtNeeded := t.(nextThoughtNeeded); phase := t.(phase);
     dependencies := t.(dependencies); toolsUsed := t.(toolsUsed);
     td_complexity := t.(td_complexity); status := t.(status); quality := t.(quality);
     td_keywords := t.(td_keywords); insightValue := t.(insightValue);
     classification := t.(classification); confidenceScore := t.(confidenceScore);
     evidenceStrength := t.(evidenceStrength); assumptions := v; vector := t.(vector);
     conceptsExtracted := t.(conceptsExtracted); contradictions := t.(contradictions);
     reflectionPrompts := t.(reflectionPrompts); promptAlignment := t.(promptAlignment);
     promptRelevance := t.(promptRelevance); driftWarning := t.(driftWarning);
     suggestedCorrections := t.(suggestedCorrections);
     intelligenceRecommendations := t.(intelligenceRecommendations) |}.

Definition set_promptAlignment (t : ThoughtData) (v : option Q) : ThoughtData :=
  {| thought := t.(thought); thoughtNumber := t.(thoughtNumber);
     totalThoughts := t.(totalThoughts); isRevision := t.(isRevision);
     revisesThought := t.(revisesThought); branchFromThought := t.(branchFromThought);
     branchId := t.(branchId); needsMoreThoughts := t.(needsMoreThoughts);
     nextThoughtNeeded := t.(nextThoughtNeeded); phase := t.(phase);
     dependencies := t.(dependencies); toolsUsed := t.(toolsUsed);
     td_complexity := t.(td_complexity); status := t.(status); quality := t.(quality);
     td_keywords := t.(td_keywords); insightValue := t.(insightValue);
     classification := t.(classification); confidenceScore := t.(confidenceScore);
     evidenceStrength := t.(evidenceStrength); assumptions := t.(assumptions);
     vector := t.(vector); conceptsExtracted := t.(conceptsExtracted);
     contradictions := t.(contradictions); reflectionPrompts := t.(reflectionPrompts);
     promptAlignment := v; promptRelevance := t.(promptRelevance);
     driftWarning := t.(driftWarning); suggestedCorrections := t.(suggestedCorrections);
     intelligenceRecommendations := t.(intelligenceRecommendations) |}.

Definition set_promptRelevance (t : ThoughtData) (v : option (JS.dict Q)) : ThoughtData :=
  {| thought := t.(thought); thoughtNumber := t.(thoughtNumber);
     totalThoughts := t.(totalThoughts); isRevision := t.(isRevision);
     revisesThought := t.(revisesThought); branchFromThought := t.(branchFromThought);
     branchId := t.(branchId); needsMoreThoughts := t.(needsMoreThoughts);
     nextThoughtNeeded := t.(nextThoughtNeeded); phase := t.(phase);
     dependencies := t.(dependencies); toolsUsed := t.(toolsUsed);
     td_complexity := t.(td_complexity); status := t.(status); quality := t.(quality);
     td_keywords := t.(td_keywords); insightValue := t.(insightValue);
     classification := t.(classification); confidenceScore := t.(confidenceScore);
     evidenceStrength := t.(evidenceStrength); assumptions := t.(assumptions);
     vector := t.(vector); conceptsExtracted := t.(conceptsExtracted);
     contradictions := t.(contradictions); reflectionPrompts := t.(reflectionPrompts);
     promptAlignment := t.(promptAlignment); promptRelevance := v;
     driftWarning := t.(driftWarning); suggestedCorrections := t.(suggestedCorrections);
     intelligenceRecommendations := t.(intelligenceRecommendations) |}.

Definition set_driftWarning (t : ThoughtData) (v : option string) : ThoughtData :=
  {| thought := t.(thought); thoughtNumber := t.(thoughtNumber);
     totalThoughts := t.(totalThoughts); isRevision := t.(isRevision);
     revisesThought := t.(revisesThought); branchFromThought := t.(branchFromThought);
     branchId := t.(branchId); needsMoreThoughts := t.(needsMoreThoughts);
     nextThoughtNeeded := t.(nextThoughtNeeded); phase := t.(phase);
     dependencies := t.(dependencies); toolsUsed := t.(toolsUsed);
     td_complexity := t.(td_complexity); status := t.(status); quality := t.(quality);
     td_keywords := t.(td_keywords); insightValue := t.(insightValue);
     classification := t.(classification); confidenceScore := t.(confidenceScore);
     evidenceStrength := t.(evidenceStrength); assumptions := t.(assumptions);
     vector := t.(vector); conceptsExtracted := t.(conceptsExtracted);
     contradictions := t.(contradictions); reflectionPrompts := t.(reflectionPrompts);
     promptAlignment := t.(promptAlignment); promptRelevance := t.(promptRelevance);
     driftWarning := v; suggestedCorrections := t.(suggestedCorrections);
     intelligenceRecommendations := t.(intelligenceRecommendations) |}.

Definition set_suggestedCorrections (t : ThoughtData) (v : option (list string)) : ThoughtData :=
  {| thought := t.(thought); thoughtNumber := t.(thoughtNumber);
     totalThoughts := t.(totalThoughts); isRevision := t.(isRevision);
     revisesThought := t.(revisesThought); branchFromThought := t.(branchFromThought);
     branchId := t.(branchId); needsMoreThoughts := t.(needsMoreThoughts);
     nextThoughtNeeded := t.(nextThoughtNeeded); phase := t.(phase);
     dependencies := t.(dependencies); toolsUsed := t.(toolsUsed);
     td_complexity := t.(td_complexity); status := t.(status); quality := t.(quality);
     td_keywords := t.(td_keywords); insightValue := t.(insightValue);
     classification := t.(classification); confidenceScore := t.(confidenceScore);
     evidenceStrength := t.(evidenceStrength); assumptions := t.(assumptions);
     vector := t.(vector); conceptsExtracted := t.(conceptsExtracted);
     contradictions := t.(contradictions); reflectionPrompts := t.(reflectionPrompts);
     promptAlignment := t.(promptAlignment); promptRelevance := t.(promptRelevance);
     driftWarning := t.(driftWarning); suggestedCorrections := v;
     intelligenceRecommendations := t.(intelligenceRecommendations) |}.

Definition set_intelligenceRecommendations (t : ThoughtData) (v : option IntelligenceMaximizationRecommendations) : ThoughtData :=
  {| thought := t.(thought); thoughtNumber := t.(thoughtNumber);
     totalThoughts := t.(totalThoughts); isRevision := t.(isRevision);
     revisesThought := t.(revisesThought); branchFromThought := t.(branchFromThought);
     branchId := t.(branchId); needsMoreThoughts := t.(needsMoreThoughts);
     nextThoughtNeeded := t.(nextThoughtNeeded); phase := t.(phase);
     dependencies := t.(dependencies); toolsUsed := t.(toolsUsed);
     td_complexity := t.(td_complexity); status := t.(status); quality := t.(quality);
     td_keywords := t.(td_keywords); insightValue := t.(insightValue);
     classification := t.(classification); confidenceScore := t.(confidenceScore);
     evidenceStrength := t.(evidenceStrength); assumptions := t.(assumptions);
     vector := t.(vector); conceptsExtracted := t.(conceptsExtracted);
     contradictions := t.(contradictions); reflectionPrompts := t.(reflectionPrompts);
     promptAlignment := t.(promptAlignment); promptRelevance := t.(promptRelevance);
     driftWarning := t.(driftWarning); suggestedCorrections := t.(suggestedCorrections);
     intelligenceRecommendations := v |}.

(* ------------------------------------------------------------------------- *)
(** ** visualization/graphRenderer.js                                         *)
(* ------------------------------------------------------------------------- *)

(** The views are texts written to the console.  They read the thoughts
    and change nothing; what matters of them is whether rendering throws,
    which only the progress bars made with [repeat] can do. *)
Module GraphRenderer.

Import JS.
Local Open Scope string_scope.
Local Open Scope Q_scope.

(** [thoughts.reduce((latest, current) =>
       current.thoughtNumber > latest.thoughtNumber ? current : latest, thoughts[0])] *)
Definition latest_thought (first : ThoughtData) (thoughts : list ThoughtData)
  : ThoughtData :=
  fold_left (fun latest current =>
               if Num.gt (thoughtNumber current) (thoughtNumber latest)
               then current else latest)
            thoughts first.

Definition phaseWeight (p : Phase) : Q :=
  match p with
  | Planning => 1 # 10
  | Analysis => 3 # 10
  | Execution => 5 # 10
  | Verification => 9 # 10
  end.

(** [t.promptRelevance && t.promptRelevance[`goal_${index}`] !== undefined
     && t.promptRelevance[`goal_${index}`] > 0.5] *)
Definition relevant_to_goal (index : nat) (t : ThoughtData) : bool :=
  match promptRelevance t with
  | Some scores =>
      match get scores ("goal_" ++ string_of_Z (Z.of_nat index)) with
      | Some score => Num.gt score (1 # 2)
      | None => false
      end
  | None => false
  end.

Fixpoint collect_alignment (thoughts : list ThoughtData) : list Q :=
  match thoughts with
  | [] => []
  | t :: rest => match promptAlignment t with
                 | Some a => a :: collect_alignment rest
                 | None => collect_alignment rest
                 end
  end.

Definition average_alignment (thoughts : list ThoughtData) : Q :=
  let alignmentScores := collect_alignment thoughts in
  match alignmentScores with
  | [] => 5
  | _ => fold_left Qplus alignmentScores 0 / Num.of_nat (List.length alignmentScores)
  end.

(** The share of the goals that some thought is relevant to, in percent;
    [0 / 0] without goals. *)
Definition goal_coverage (thoughts : list ThoughtData) (m : PromptMetadata) : Num.xnum :=
  let covered :=
    List.length
      (filter (fun index => existsb (relevant_to_goal index) thoughts)
              (seq 0 (List.length (goals m)))) in
  Num.xmap (fun x => x * 100)
           (Num.xdiv (Num.of_nat covered) (Num.of_nat (List.length (goals m)))).

(** [calculateOverallProgress(thoughts, promptMetadata)] for a history
    that starts with [first]. *)
Definition calculateOverallProgress (first : ThoughtData) (thoughts : list ThoughtData)
           (m : PromptMetadata) : Num.xnum :=
  let latestThought := latest_thought first thoughts in
  let thoughtProgress :=
    Num.xmin 100
      (Num.xmap (fun x => x * 100)
                (Num.xdiv (thoughtNumber latestThought) (totalThoughts latestThought))) in
  let avgAlignment := average_alignment thoughts in
  let goalCoverage := goal_coverage thoughts m in
  let latestPhase := match phase latestThought with Some p => p | None => Execution end in
  let phaseProgress := phaseWeight latestPhase * 100 in
  let weightedProgress :=
    Num.xadd
      (Num.xmap (fun x => x + avgAlignment * 10 * (3 # 10) + phaseProgress * (1 # 10))
                (Num.xmap (fun x => x * (3 # 10)) thoughtProgress))
      (Num.xmap (fun x => x * (3 # 10)) goalCoverage) in
  Num.xround weightedProgress.

(** The error that [groupThoughtsByBranch(thoughts)] throws for
    [generateDependencyGraph], if any: the group of a branch named like an
    inherited member is that member, which has no [push]. *)
Definition groupThoughtsByBranch_error (thoughts : list ThoughtData) : option string :=
  if existsb (fun t => match branchId t with
                       | Some id => truthy_str (Some id) && is_inherited id
                       | None => false
                       end) thoughts
  then Some "branches[thought.branchId].push is not a function"
  else None.

(** The error that [generatePromptProgressView(thoughts, promptMetadata)]
    throws, if any: the bar of the overall progress is
    ['█'.repeat(filledWidth) + '░'.repeat(barWidth - filledWidth)]. *)
Definition generatePromptProgressView_error (thoughts : list ThoughtData)
           (m : PromptMetadata) : option string :=
  match thoughts with
  | [] => Some "Cannot read properties of undefined (reading 'thoughtNumber')"
  | first :: _ =>
      let overallProgress := calculateOverallProgress first thoughts m in
      let barWidth := 30 in
      let filledWidth :=
        Num.xfloor (Num.xmap (fun x => barWidth * (x / 100)) overallProgress) in
      if Num.repeat_throws filledWidth
         || Num.repeat_throws (Num.xsub_from barWidth filledWidth)
      then Some "Invalid count value"
      else None
  end.

End GraphRenderer.

(* ------------------------------------------------------------------------- *)
(** ** index.ts: the server                                                   *)
(* ------------------------------------------------------------------------- *)

(** A value as it arrives in a request.  [JObject] is any array or object;
    of such a value the validation only asks for its type and truthiness. *)
Inductive JSValue :=
| JUndefined
| JNull
| JBool (b : bool)
| JNum (q : Q)
| JStr (s : string)
| JObject.

(** The members of the argument of a tool call.  The required members are
    unchecked values.  The optional members are cast by the validation
    without any check: they have the types that the interface declares. *)
Record RawThought := {
  in_thought : JSValue;
  in_thoughtNumber : JSValue;
  in_totalThoughts : JSValue;
  in_nextThoughtNeeded : JSValue;
  in_isRevision : option bool;
  in_revisesThought : option Q;
  in_branchFromThought : option Q;
  in_branchId : option string;
  in_needsMoreThoughts : option bool;
  in_phase : option Phase;
  in_dependencies : option (list Q);
  in_toolsUsed : option (list string);
  in_complexity : option Complexity;
  in_status : option Status;
  in_quality : option Quality;
  in_keywords : option (list string);
  in_insightValue : option Q;
  in_classification : option Classification;
  in_confidenceScore : option Q;
  in_evidenceStrength : option Q
}.

(** The argument itself: [undefined], [null], or a value with members (a
    primitive value is one whose members are all [undefined]). *)
Inductive Input :=
| InUndefined
| InNull
| InMembers (data : RawThought).

Record ToolUsageStats := {
  usageCount : nat;
  thoughtsUsedIn : list Q;
  phaseUsage : JS.dict nat
}.

Record PromptContext := {
  metadata : option PromptMetadata;
  pc_originalPrompt : JSValue
}.

Record ServerState := {
  thoughtHistory : list ThoughtData;
  branches : JS.dict (list ThoughtData);
  availableTools : list string;
  toolUsageStats : JS.dict ToolUsageStats;
  promptContext : PromptContext
}.

Record SemanticAnalysis := {
  sa_concepts : option (list string);
  sa_contradictions : option (list Contradiction);
  sa_assumptions : option (list string);
  sa_reflectionPrompts : option (list string)
}.

(** The members of the response text that are read back from the thought
    and the store; the texts rendered for display (recent thoughts,
    strategic guidance, progress views) are left out. *)
Record ThoughtResponse := {
  r_thoughtNumber : Q;
  r_totalThoughts : Q;
  r_nextThoughtNeeded : bool;
  r_branches : list string;
  r_thoughtHistoryLength : nat;
  r_availableTools : list string;
  r_phase : option Phase;
  r_complexity : Complexity;
  r_progress : string;
  r_suggestedNextPhase : Phase;
  r_thoughtQuality : option Quality;
  r_toolUsageStats : JS.dict ToolUsageStats;
  r_keywords : option (list string);
  r_insightValue : option Q;
  r_semanticAnalysis : SemanticAnalysis;
  r_promptAlignment : option Q;
  r_promptRelevance : option (JS.dict Q);
  r_driftWarning : option string;
  r_suggestedCorrections : option (list string);
  r_intelligenceRecommendations : option IntelligenceMaximizationRecommendations
}.

Record ErrorBody := {
  error : string;
  error_status : string
}.

(** [{content: [{type: "text", text: JSON.stringify(body)}], isError?}] *)
Inductive Response :=
| Success (body : ThoughtResponse)
| Failure (body : ErrorBody).

Definition isError (r : Response) : bool :=
  match r with Failure _ => true | Success _ => false end.

Module SequentialThinkingServer.

Import JS.
Local Open Scope string_scope.
Local Open Scope nat_scope.
Local Open Scope bool_scope.

(** The state after the constructor. *)
Definition initial : ServerState :=
  {| thoughtHistory := [];
     branches := [];
     availableTools := ["sequentialthinking"];
     toolUsageStats := [];
     promptContext := {| metadata := None; pc_originalPrompt := JStr "" |} |}.

Definition setAvailableTools (st : ServerState) (tools : list string) : ServerState :=
  {| thoughtHistory := thoughtHistory st;
     branches := branches st;
     availableTools := dedup (availableTools st ++ tools);
     toolUsageStats := toolUsageStats st;
     promptContext := promptContext st |}.

(** [!v] *)
Definition falsy (v : JSValue) : bool :=
  match v with
  | JUndefined | JNull => true
  | JBool b => negb b
  | JNum q => Qeq_bool q 0
  | JStr s => String.length s =? 0
  | JObject => false
  end.

(** [typeof v] *)
Definition typeof (v : JSValue) : string :=
  match v with
  | JUndefined => "undefined"
  | JNull | JObject => "object"
  | JBool _ => "boolean"
  | JNum _ => "number"
  | JStr _ => "string"
  end.

Definition as_string (v : JSValue) : string := match v with JStr s => s | _ => "" end.
Definition as_number (v : JSValue) : Q := match v with JNum q => q | _ => 0%Q end.
Definition as_boolean (v : JSValue) : bool := match v with JBool b => b | _ => false end.

(** [validateThoughtData(input)]: [inl] is the message of the error thrown. *)
Definition validateThoughtData (input : Input) : string + ThoughtData :=
  match input with
  | InUndefined => inl "Cannot read properties of undefined (reading 'thought')"
  | InNull => inl "Cannot read properties of null (reading 'thought')"
  | InMembers data =>
      if falsy (in_thought data) || negb (typeof (in_thought data) =? "string")%string
      then inl "Invalid thought: must be a string"
      else if falsy (in_thoughtNumber data)
              || negb (typeof (in_thoughtNumber data) =? "number")%string
      then inl "Invalid thoughtNumber: must be a number"
      else if falsy (in_totalThoughts data)
              || negb (typeof (in_totalThoughts data) =? "number")%string
      then inl "Invalid totalThoughts: must be a number"
      else if negb (typeof (in_nextThoughtNeeded data) =? "boolean")%string
      then inl "Invalid nextThoughtNeeded: must be a boolean"
      else inr
        {| thought := as_string (in_thought data);
           thoughtNumber := as_number (in_thoughtNumber data);
           totalThoughts := as_number (in_totalThoughts data);
           nextThoughtNeeded := as_boolean (in_nextThoughtNeeded data);
           isRevision := in_isRevision data;
           revisesThought := in_revisesThought data;
           branchFromThought := in_branchFromThought data;
           branchId := in_branchId data;
           needsMoreThoughts := in_needsMoreThoughts data;
           phase := in_phase data;
           dependencies := in_dependencies data;
           toolsUsed := in_toolsUsed data;
           td_complexity := in_complexity data;
           status := in_status data;
           quality := in_quality data;
           td_keywords := in_keywords data;
           insightValue := in_insightValue data;
           classification := in_classification data;
           confidenceScore := in_confidenceScore data;
           evidenceStrength := in_evidenceStrength data;
           assumptions := None;
           vector := None;
           conceptsExtracted := None;
           contradictions := None;
           reflectionPrompts := None;
           promptAlignment := None;
           promptRelevance := None;
           driftWarning := None;
           suggestedCorrections := None;
           intelligenceRecommendations := None |}
  end.

Definition phase_name (p : Phase) : string :=
  match p with
  | Planning => "Planning"
  | Analysis => "Analysis"
  | Execution => "Execution"
  | Verification => "Verification"
  end.

(** One round of the loop of [trackToolUsage]. *)
Definition track_tool (t : ThoughtData) (stats : dict ToolUsageStats) (tool : string)
  : dict ToolUsageStats :=
  let current :=
    match get stats tool with
    | Some s => s
    | None => {| usageCount := 0; thoughtsUsedIn := [];
                 phaseUsage := [("Planning", 0); ("Analysis", 0);
                                ("Execution", 0); ("Verification", 0)] |}
    end in
  set stats tool
      {| usageCount := usageCount current + 1;
         thoughtsUsedIn := (thoughtsUsedIn current ++ [thoughtNumber t])%list;
         phaseUsage :=
           match phase t with
           | Some p =>
               set (phaseUsage current) (phase_name p)
                   (match get (phaseUsage current) (phase_name p) with
                    | Some n => n + 1 | None => 1 end)
           | None => phaseUsage current
           end |}.

(** The loop of [trackToolUsage].  For a tool named like an inherited
    member the statistics read are that member, which has no
    [thoughtsUsedIn]: the loop ends with a [TypeError]. *)
Fixpoint track_tools (t : ThoughtData) (stats : dict ToolUsageStats) (tools : list string)
  : dict ToolUsageStats * option string :=
  match tools with
  | [] => (stats, None)
  | tool :: rest =>
      if reads_inherited stats tool
      then (stats, Some "Cannot read properties of undefined (reading 'push')")
      else track_tools t (track_tool t stats tool) rest
  end.

Definition trackToolUsage (stats : dict ToolUsageStats) (t : ThoughtData)
  : dict ToolUsageStats * option string :=
  match toolsUsed t with
  | None | Some [] => (stats, None)
  | Some tools => track_tools t stats tools
  end.

Definition estimateComplexity (st : ServerState) : Complexity :=
  let thoughtCount := List.length (thoughtHistory st) in
  let revisionCount :=
    List.length (filter (fun t => truthy_bool (isRevision t)) (thoughtHistory st)) in
  let branchCount := List.length (keys (branches st)) in
  if (10 <? thoughtCount) || (2 <? branchCount) then complex
  else if (5 <? thoughtCount) || (1 <? revisionCount) || (0 <? branchCount) then medium
  else simple.

Definition suggestNextPhase (t : ThoughtData) : Phase :=
  let progress := (thoughtNumber t / totalThoughts t)%Q in
  match phase t with
  | Some Planning => if Num.gt progress (2 # 10) then Analysis else Planning
  | Some Analysis => if Num.gt progress (4 # 10) then Execution else Analysis
  | Some Execution => if Num.gt progress (8 # 10) then Verification else Execution
  | Some Verification => Verification
  | None => Execution
  end.

Definition error_response (message : string) : Response :=
  Failure {| error := message; error_status := "failed" |}.

(** The statements of [processThought] up to the storing of the thought,
    block by block in the order of the source. *)

(** Auto-adjust totalThoughts if needed. *)
Definition step_adjust_total (v : ThoughtData) : ThoughtData :=
  if Num.gt (thoughtNumber v) (totalThoughts v)
  then set_totalThoughts v (thoughtNumber v) else v.

(** Set a default phase if not provided:
    [phaseMap[thoughtNumber] || 'Execution'] with [phaseMap = {1: 'Planning'}]. *)
Definition step_default_phase (v : ThoughtData) : ThoughtData :=
  match phase v with
  | None => set_phase v (Some (if Qeq_bool (thoughtNumber v) 1
                               then Planning else Execution))
  | Some _ => v
  end.

(** Enhance thought with semantic analysis. *)
Definition step_semantic_analysis (v : ThoughtData) : ThoughtData :=
  let v := set_vector v (Some (SemanticAnalyzer.buildThoughtVectors v)) in
  set_conceptsExtracted v (Some (SemanticAnalyzer.extractConcepts v)).

(** Check for contradictions. *)
Definition step_contradictions (st : ServerState) (v : ThoughtData) : ThoughtData :=
  let found := ContradictionDetector.checkContradictions v (thoughtHistory st) in
  if hasContradictions found then set_contradictions v (Some (details found)) else v.

(** Generate reflection prompts. *)
Definition step_reflection (st : ServerState) (v : ThoughtData) : option ThoughtData :=
  match ReflectionEngine.generateReflectionPrompts (thoughtHistory st ++ [v]) with
  | None => None
  | Some prompts => Some (set_reflectionPrompts v (Some prompts))
  end.

(** Identify assumptions. *)
Definition step_assumptions (v : ThoughtData) : ThoughtData :=
  set_assumptions v (Some (ReflectionEngine.identifyAssumptions v)).

(** Analyze prompt alignment if prompt context is initialized; generate
    the recommendations; adjust totalThoughts based on the complexity
    estimation if needed. *)
Definition step_alignment (promptMetadata : PromptMetadata) (v : ThoughtData)
  : ThoughtData :=
  let alignmentData :=
    PromptAnalyzer.analyzeThoughtAlignment (thought v) promptMetadata in
  let v := set_promptAlignment v (Some (pa_promptAlignment alignmentData)) in
  let v := set_promptRelevance v (Some (pa_promptRelevance alignmentData)) in
  let v := set_driftWarning v (pa_driftWarning alignmentData) in
  let v := set_suggestedCorrections v (pa_suggestedCorrections alignmentData) in
  let recommendations :=
    IntelligenceMaximizationModule.generateRecommendations
      promptMetadata (thoughtNumber v) (totalThoughts v)
      (match phase v with Some p => p | None => Execution end) in
  let v := set_intelligenceRecommendations v (Some recommendations) in
  let estimation := complexityEstimation recommendations in
  if Num.gt (recommendedThoughtCount estimation) (totalThoughts v)
  then set_totalThoughts v (recommendedThoughtCount estimation)
  else v.

Definition enrich (st : ServerState) (validatedInput : ThoughtData)
  : option ThoughtData :=
  let v := step_adjust_total validatedInput in
  let v := step_default_phase v in
  let v := step_semantic_analysis v in
  let v := step_contradictions st v in
  match step_reflection st v with
  | None => None
  | Some v =>
      let v := step_assumptions v in
      match metadata (promptContext st) with
      | None => Some v
      | Some promptMetadata => Some (step_alignment promptMetadata v)
      end
  end.

(** Add to thought history. *)
Definition push_history (st : ServerState) (v : ThoughtData) : ServerState :=
  {| thoughtHistory := (thoughtHistory st ++ [v])%list;
     branches := branches st;
     availableTools := availableTools st;
     toolUsageStats := toolUsageStats st;
     promptContext := promptContext st |}.

(** The branch of a thought, when it is handled as one. *)
Definition branch_of (v : ThoughtData) : option string :=
  if truthy_num (branchFromThought v) && truthy_str (branchId v)
  then branchId v else None.

(** Handle branching: the error thrown, if any.  A branch named like an
    inherited member is not created, and that member has no [push]. *)
Definition branch_error (st : ServerState) (v : ThoughtData) : option string :=
  match branch_of v with
  | Some id =>
      if reads_inherited (branches st) id
      then Some "this.branches[validatedInput.branchId].push is not a function"
      else None
  | None => None
  end.

(** Add to thought history; handle branching. *)
Definition append (st : ServerState) (v : ThoughtData) : ServerState :=
  let history := (thoughtHistory st ++ [v])%list in
  let table :=
    match branch_of v with
    | Some id =>
        let existing := match get (branches st) id with
                        | Some l => l | None => [] end in
        set (branches st) id (existing ++ [v])%list
    | None => branches st
    end in
  {| thoughtHistory := history;
     branches := table;
     availableTools := availableTools st;
     toolUsageStats := toolUsageStats st;
     promptContext := promptContext st |}.

(** The error that [createProgressBar(percentage)] throws, if any: the bar
    is ['█'.repeat(completed) + '░'.repeat(remaining)], and [repeat] throws
    a RangeError for a negative or an infinite count.  The message stands
    for that error: the runtime appends the count to it.  The counts are
    those of the exact percentage; the doubles round each step, which
    matters at the ends of the range only (below -2 and from 102 on the
    bar is not drawn either way, from 0 to 100 it is). *)
Definition createProgressBar_error (percentage : Num.xnum) : option string :=
  let width := 50%Q in
  let completed := Num.xfloor (Num.xmap (fun x => width * (x / 100))%Q percentage) in
  let remaining := Num.xsub_from width completed in
  if Num.repeat_throws completed || Num.repeat_throws remaining
  then Some "Invalid count value"
  else None.

(** Generate visualizations; calculate progress.  The message of the
    error thrown while the views and the progress bar are rendered, if
    any. *)
Definition render_error (st : ServerState) (v : ThoughtData) : option string :=
  let progress :=
    Num.xmap (fun x => x * 100)%Q (Num.xdiv (thoughtNumber v) (totalThoughts v)) in
  match GraphRenderer.groupThoughtsByBranch_error (thoughtHistory st) with
  | Some message => Some message
  | None =>
      match metadata (promptContext st) with
      | Some promptMetadata =>
          match GraphRenderer.generatePromptProgressView_error (thoughtHistory st)
                                                               promptMetadata with
          | Some message => Some message
          | None => createProgressBar_error progress
          end
      | None => createProgressBar_error progress
      end
  end.

(** Track tool usage: the store with the statistics as far as they were
    written. *)
Definition track (st : ServerState) (v : ThoughtData) : ServerState :=
  {| thoughtHistory := thoughtHistory st;
     branches := branches st;
     availableTools := availableTools st;
     toolUsageStats := fst (trackToolUsage (toolUsageStats st) v);
     promptContext := promptContext st |}.

Definition track_error (st : ServerState) (v : ThoughtData) : option string :=
  snd (trackToolUsage (toolUsageStats st) v).

(** The response of a successful call.  [progress] is the rounded exact
    percentage; a percentage next to a half can be rounded to the other
    side by the doubles. *)
Definition respond (st : ServerState) (v : ThoughtData) : ThoughtResponse :=
  let progress := ((thoughtNumber v / totalThoughts v) * 100)%Q in
  {| r_thoughtNumber := thoughtNumber v;
     r_totalThoughts := totalThoughts v;
     r_nextThoughtNeeded := nextThoughtNeeded v;
     r_branches := keys (branches st);
     r_thoughtHistoryLength := List.length (thoughtHistory st);
     r_availableTools := availableTools st;
     r_phase := phase v;
     r_complexity := match td_complexity v with
                     | Some c => c | None => estimateComplexity st end;
     r_progress := string_of_Z (Num.round progress) ++ "%";
     r_suggestedNextPhase := suggestNextPhase v;
     r_thoughtQuality := quality v;
     r_toolUsageStats := toolUsageStats st;
     r_keywords := td_keywords v;
     r_insightValue := insightValue v;
     r_semanticAnalysis :=
       {| sa_concepts := conceptsExtracted v;
          sa_contradictions := contradictions v;
          sa_assumptions := assumptions v;
          sa_reflectionPrompts := reflectionPrompts v |};
     r_promptAlignment := promptAlignment v;
     r_promptRelevance := promptRelevance v;
     r_driftWarning := driftWarning v;
     r_suggestedCorrections := suggestedCorrections v;
     r_intelligenceRecommendations := intelligenceRecommendations v |}.

(** [processThought(input)]: the response and the state of the server
    afterwards.  An error thrown inside is caught and reported; the store
    then keeps what was written before the error. *)
Definition processThought (st : ServerState) (input : Input) : Response * ServerState :=
  match validateThoughtData input with
  | inl message => (error_response message, st)
  | inr validatedInput =>
      match enrich st validatedInput with
      | None =>
          (error_response "Cannot read properties of undefined (reading 'dependencies')", st)
      | Some v =>
          match branch_error st v with
          | Some message => (error_response message, push_history st v)
          | None =>
              let st := append st v in
              match render_error st v with
              | Some message => (error_response message, st)
              | None =>
                  match track_error st v with
                  | Some message => (error_response message, track st v)
                  | None =>
                      let st := track st v in
                      (Success (respond st v), st)
                  end
              end
          end
      end
  end.

(** [PromptContext.initializeWithPrompt]: the original prompt is stored
    before the analysis, which throws when the prompt has no [split]. *)
Definition initializePromptContext (st : ServerState) (prompt : JSValue)
  : option string * ServerState :=
  let with_context c :=
    {| thoughtHistory := thoughtHistory st;
       branches := branches st;
       availableTools := availableTools st;
       toolUsageStats := toolUsageStats st;
       promptContext := c |} in
  match prompt with
  | JStr s =>
      (None, with_context {| metadata := Some (PromptAnalyzer.analyzePrompt s);
                             pc_originalPrompt := prompt |})
  | _ =>
      (Some (match prompt with
             | JUndefined => "Cannot read properties of undefined (reading 'split')"
             | JNull => "Cannot read properties of null (reading 'split')"
             | _ => "prompt.split is not a function"
             end),
       with_context {| metadata := metadata (promptContext st);
                       pc_originalPrompt := prompt |})
  end.

(** The outcome of a tool call: a response, or the rejection of the
    handler by an error thrown outside [processThought]. *)
Inductive CallResult :=
| Returned (r : Response)
| UnknownTool (name : string)
| Rejected (message : string).

(** [thoughtData && thoughtData.thoughtNumber === 1] *)
Definition numbered_one (arguments : Input) : bool :=
  match arguments with
  | InMembers data =>
      match in_thoughtNumber data with
      | JNum q => Qeq_bool q 1
      | _ => false
      end
  | _ => false
  end.

(** [thoughtData.thought] *)
Definition thought_member (arguments : Input) : JSValue :=
  match arguments with
  | InMembers data => in_thought data
  | _ => JUndefined
  end.

(** The handler of [CallToolRequestSchema]. *)
Definition callTool (st : ServerState) (name : string) (arguments : Input)
  : CallResult * ServerState :=
  if (name =? "sequentialthinking")%string then
    if numbered_one arguments then
      match initializePromptContext st (thought_member arguments) with
      | (Some message, st') => (Rejected message, st')
      | (None, st') =>
          let (r, st'') := processThought st' arguments in (Returned r, st'')
      end
    else let (r, st') := processThought st arguments in (Returned r, st')
  else (UnknownTool name, st).

End SequentialThinkingServer.

(* ------------------------------------------------------------------------- *)
(** ** index.ts: the reports of the response                                  *)
(* ------------------------------------------------------------------------- *)

Module ServerReports.

Import JS.
Local Open Scope string_scope.
Local Open Scope Q_scope.

(** [getRecentThoughts(count)]: [slice(-count)] is the whole history for a
    count of zero. *)
Definition getRecentThoughts (st : ServerState) (count : nat) : list (Q * string) :=
  map (fun t =>
         (thoughtNumber t,
          if (50 <? String.length (thought t))%nat
          then substring_to 50 (thought t) ++ "..."
          else thought t))
      (match count with
       | O => thoughtHistory st
       | _ => last_n count (thoughtHistory st)
       end).

(** [calculateGoalCoverage()] *)
Definition calculateGoalCoverage (st : ServerState) : dict Q :=
  match metadata (promptContext st) with
  | None => []
  | Some promptMetadata =>
      fold_left
        (fun coverage index =>
           let relevantThoughts :=
             filter (GraphRenderer.relevant_to_goal index) (thoughtHistory st) in
           let coveragePercentage :=
             Num.min 100
               (inject_Z
                  (Num.round
                     (Num.of_nat (List.length relevantThoughts)
                      / Num.max 2 (match complexity promptMetadata with
                                   | simple => 3
                                   | medium => 5
                                   | complex => 8
                                   end) * 100))) in
           set coverage ("goal_" ++ string_of_Z (Z.of_nat index)) coveragePercentage)
        (seq 0 (List.length (goals promptMetadata))) []
  end.

(** [.sort((a, b) => a.thoughtNumber - b.thoughtNumber)] *)
Definition by_number (a b : ThoughtData) : bool :=
  Qle_bool (thoughtNumber a) (thoughtNumber b).

(** [calculateAlignmentTrend()] *)
Definition calculateAlignmentTrend (st : ServerState) : string :=
  let alignedThoughts :=
    sort by_number (filter (fun t => is_some (promptAlignment t)) (thoughtHistory st)) in
  if (List.length alignedThoughts <? 3)%nat then "Insufficient data"
  else
    let recentThoughts := last_n 5 alignedThoughts in
    let score (t : option ThoughtData) :=
      match t with
      | Some t => match promptAlignment t with Some a => a | None => 0 end
      | None => 0
      end in
    let firstScore := score (nth_error recentThoughts 0) in
    let lastScore :=
      score (nth_error recentThoughts (List.length recentThoughts - 1)) in
    let difference := lastScore - firstScore in
    if Num.gt difference 1 then "Improving"
    else if Num.lt difference (-1) then "Declining"
    else "Stable".

End ServerReports.

(* ------------------------------------------------------------------------- *)
(** ** Vocabulary of the properties                                           *)
(* ------------------------------------------------------------------------- *)

Module Properties.

Import JS SequentialThinkingServer.
Local Open Scope string_scope.
Local Open Scope bool_scope.

(** An argument object with the four required members only. *)
Definition required_only (text number total next : JSValue) : RawThought :=
  {| in_thought := text; in_thoughtNumber := number; in_totalThoughts := total;
     in_nextThoughtNeeded := next;
     in_isRevision := None; in_revisesThought := None; in_branchFromThought := None;
     in_branchId := None; in_needsMoreThoughts := None; in_phase := None;
     in_dependencies := None; in_toolsUsed := None; in_complexity := None;
     in_status := None; in_quality := None; in_keywords := None;
     in_insightValue := None; in_classification := None;
     in_confidenceScore := None; in_evidenceStrength := None |}.

(** A well-formed submission of a text with its two counters. *)
Definition submission (text : string) (number total : Q) : Input :=
  InMembers (required_only (JStr text) (JNum number) (JNum total) (JBool true)).

(** The same argument object with the member [phase] given. *)
Definition with_phase (data : RawThought) (p : option Phase) : RawThought :=
  {| in_thought := in_thought data; in_thoughtNumber := in_thoughtNumber data;
     in_totalThoughts := in_totalThoughts data;
     in_nextThoughtNeeded := in_nextThoughtNeeded data;
     in_isRevision := in_isRevision data; in_revisesThought := in_revisesThought data;
     in_branchFromThought := in_branchFromThought data; in_branchId := in_branchId data;
     in_needsMoreThoughts := in_needsMoreThoughts data; in_phase := p;
     in_dependencies := in_dependencies data; in_toolsUsed := in_toolsUsed data;
     in_complexity := in_complexity data; in_status := in_status data;
     in_quality := in_quality data; in_keywords := in_keywords data;
     in_insightValue := in_insightValue data;
     in_classification := in_classification data;
     in_confidenceScore := in_confidenceScore data;
     in_evidenceStrength := in_evidenceStrength data |}.

Definition is_nonempty_string (v : JSValue) : bool :=
  match v with JStr s => negb (s =? "") | _ => false end.

Definition is_number (v : JSValue) : bool :=
  match v with JNum _ => true | _ => false end.

Definition is_boolean (v : JSValue) : bool :=
  match v with JBool _ => true | _ => false end.

(** A required member is missing or mistyped: [thought] is not a non-empty
    string, [thoughtNumber] or [totalThoughts] is not a number, or
    [nextThoughtNeeded] is not a boolean. *)
Definition malformed (input : Input) : bool :=
  match input with
  | InUndefined | InNull => true
  | InMembers data =>
      negb (is_nonempty_string (in_thought data))
      || negb (is_number (in_thoughtNumber data))
      || negb (is_number (in_totalThoughts data))
      || negb (is_boolean (in_nextThoughtNeeded data))
  end.

(** The phase that stands in for an omitted one. *)
Definition phase_for (data : RawThought) : Phase :=
  match in_thoughtNumber data with
  | JNum q => if Qeq_bool q 1 then Planning else Execution
  | _ => Execution
  end.

(** The total after the first adjustment of a submission: the submitted
    total, raised to the thought number when that is larger. *)
Definition raised_total (v : ThoughtData) : Q :=
  if Num.gt (thoughtNumber v) (totalThoughts v) then thoughtNumber v else totalThoughts v.

Definition recommended_count (m : PromptMetadata) : Q :=
  recommendedThoughtCount (IntelligenceMaximizationModule.estimateDetailedComplexity m).

(** The total after the second adjustment: raised again to the recommended
    thought count when a prompt profile exists and recommends more. *)
Definition reported_total (profile : option PromptMetadata) (v : ThoughtData) : Q :=
  match profile with
  | None => raised_total v
  | Some m =>
      if Num.gt (recommended_count m) (raised_total v)
      then recommended_count m else raised_total v
  end.

(** The record that the validation makes of [submission text number total]. *)
Definition bare (text : string) (number total : Q) : ThoughtData :=
  {| thought := text; thoughtNumber := number; totalThoughts := total;
     isRevision := None; revisesThought := None; branchFromThought := None;
     branchId := None; needsMoreThoughts := None; nextThoughtNeeded := true;
     phase := None; dependencies := None; toolsUsed := None; td_complexity := None;
     status := None; quality := None; td_keywords := None; insightValue := None;
     classification := None; confidenceScore := None; evidenceStrength := None;
     assumptions := None; vector := None; conceptsExtracted := None;
     contradictions := None; reflectionPrompts := None; promptAlignment := None;
     promptRelevance := None; driftWarning := None; suggestedCorrections := None;
     intelligenceRecommendations := None |}.

(** The name under which the tool is called. *)
Definition tool : string := "sequentialthinking".

Definition phase_or_default (v : ThoughtData) : Phase :=
  match phase v with
  | Some p => p
  | None => if Qeq_bool (thoughtNumber v) 1 then Planning else Execution
  end.

(** What a submission leaves of the validated record and what it sets. *)
Record enriched (profile : option PromptMetadata) (v v' : ThoughtData) : Prop := {
  en_thought : thought v' = thought v;
  en_number : thoughtNumber v' = thoughtNumber v;
  en_total : totalThoughts v' = reported_total profile v;
  en_phase : phase v' = Some (phase_or_default v);
  en_revision : isRevision v' = isRevision v;
  en_branch_from : branchFromThought v' = branchFromThought v;
  en_branch_id : branchId v' = branchId v;
  en_tools : toolsUsed v' = toolsUsed v;
  en_vector : vector v' <> None;
  en_concepts : conceptsExtracted v' <> None;
  en_assumptions : assumptions v' <> None;
  en_reflection : reflectionPrompts v' <> None;
  en_alignment :
    promptAlignment v'
    = match profile with
      | Some m => Some (PromptAnalyzer.calculateAlignmentScore (thought v) m)
      | None => promptAlignment v
      end;
  en_relevance :
    promptRelevance v'
    = match profile with
      | Some m => Some (PromptAnalyzer.calculateRelevanceScores (thought v) m)
      | None => promptRelevance v
      end;
  en_drift :
    driftWarning v'
    = match profile with
      | Some m => pa_driftWarning (PromptAnalyzer.analyzeThoughtAlignment (thought v) m)
      | None => driftWarning v
      end;
  en_recommendations : profile <> None -> intelligenceRecommendations v' <> None
}.

(** A stored thought whose progress bars can be drawn: its number is
    positive and not above its total, and its alignment score, if any,
    is between 0 and 10. *)
Definition drawable (t : ThoughtData) : Prop :=
  (0 < thoughtNumber t)%Q
  /\ (thoughtNumber t <= totalThoughts t)%Q
  /\ forall a, promptAlignment t = Some a -> (0 <= a <= 10)%Q.

(** The drift score of the formula is above the threshold. *)
Definition drift_score_exceeds (t : ThoughtData) (m : PromptMetadata) : Prop :=
  exists score, SemanticAnalyzer.driftScore (SemanticAnalyzer.detectTopicDrift t m) = Some score
                /\ (score > 0.55)%R.

(** The text of the first thought of scenario A. *)
Definition scenario_A : string :=
  "I must write a Python script that parses CSV files. Urgent.".

(** The same thought marked as a revision. *)
Definition as_revision (t : ThoughtData) : ThoughtData :=
  {| thought := thought t; thoughtNumber := thoughtNumber t;
     totalThoughts := totalThoughts t; isRevision := Some true;
     revisesThought := revisesThought t; branchFromThought := branchFromThought t;
     branchId := branchId t; needsMoreThoughts := needsMoreThoughts t;
     nextThoughtNeeded := nextThoughtNeeded t; phase := phase t;
     dependencies := dependencies t; toolsUsed := toolsUsed t;
     td_complexity := td_complexity t; status := status t; quality := quality t;
     td_keywords := td_keywords t; insightValue := insightValue t;
     classification := classification t; confidenceScore := confidenceScore t;
     evidenceStrength := evidenceStrength t; assumptions := assumptions t;
     vector := vector t; conceptsExtracted := conceptsExtracted t;
     contradictions := contradictions t; reflectionPrompts := reflectionPrompts t;
     promptAlignment := promptAlignment t; promptRelevance := promptRelevance t;
     driftWarning := driftWarning t; suggestedCorrections := suggestedCorrections t;
     intelligenceRecommendations := intelligenceRecommendations t |}.

Definition is_revision (t : ThoughtData) : bool := truthy_bool (isRevision t).

(** Neither the branch nor a tool of the thought is named like a member
    that objects inherit. *)
Definition plain_names (v : ThoughtData) : bool :=
  negb (is_inherited (match branchId v with Some id => id | None => "" end))
  && forallb (fun tool => negb (is_inherited tool))
             (match toolsUsed v with Some tools => tools | None => [] end).

(** A stored thought that the views can render: its progress bars can be
    drawn and its names are plain. *)
Definition well_stored (t : ThoughtData) : Prop :=
  drawable t /\ plain_names t = true.

(** No two thoughts of the list have the same thought number. *)
Fixpoint distinct_numbers (thoughts : list ThoughtData) : bool :=
  match thoughts with
  | [] => true
  | t :: rest =>
      negb (SemanticAnalyzer.has_number (map thoughtNumber rest) (thoughtNumber t))
      && distinct_numbers rest
  end.

(** The label and the members that the round of [clusterThoughtsByTopic]
    for the thought at [index] assigns, if it assigns any. *)
Definition assignment (thoughts : list ThoughtData) (st : SemanticAnalyzer.ClusterState)
           (it : nat * ThoughtData) : option (string * list ThoughtData) :=
  let (index, th) := it in
  if SemanticAnalyzer.has_number (SemanticAnalyzer.processedThoughts st) (thoughtNumber th)
  then None
  else
    let cluster :=
      map snd
          (filter (fun jt =>
                     negb (SemanticAnalyzer.has_number
                             (SemanticAnalyzer.processedThoughts st)
                             (thoughtNumber (snd jt)))
                     && RNum.gtb (SemanticAnalyzer.similarity_entry thoughts index (fst jt))
                                 0.6%R)
                  (SemanticAnalyzer.indexed thoughts)) in
    if (0 <? List.length cluster)%nat then
      let topicKeywords := SemanticAnalyzer.extractTopicKeywords cluster in
      let topicName :=
        if (0 <? List.length topicKeywords)%nat
        then join "_" (take 2 topicKeywords)
        else "topic_" ++ string_of_Z (Z.of_nat (SemanticAnalyzer.clusterCount st + 1)%nat) in
      Some (topicName, cluster)
    else None.





(** The sum of [f] over a list. *)
Definition total_over {A} (f : A -> R) (l : list A) : R :=
  fold_right (fun x acc => f x + acc)%R 0%R l.

End Properties.

(* ------------------------------------------------------------------------- *)
(** ** Vocabulary of the further properties                                    *)
(* ------------------------------------------------------------------------- *)

Module Extras.
Import JS SequentialThinkingServer Properties.
Local Open Scope string_scope.

(** The required members are a non-empty string, two numbers other than
    zero and a boolean. *)
Definition accepted (input : Input) : bool :=
  match input with
  | InMembers data =>
      match in_thought data, in_thoughtNumber data, in_totalThoughts data,
            in_nextThoughtNeeded data with
      | JStr s, JNum n, JNum t, JBool _ =>
          negb (s =? "") && negb (Qeq_bool n 0) && negb (Qeq_bool t 0)
      | _, _, _, _ => false
      end
  | _ => false
  end.

(** The phase after [p]; the last phase is its own successor. *)
Definition next_phase (p : Phase) : Phase :=
  match p with
  | Planning => Analysis
  | Analysis => Execution
  | Execution | Verification => Verification
  end.

(** The number of uses recorded for a tool. *)
Definition usage_of (stats : dict ToolUsageStats) (tool : string) : nat :=
  match get stats tool with Some s => usageCount s | None => 0 end.

Definition uses_in (stats : dict ToolUsageStats) (tool : string) : list Q :=
  match get stats tool with Some s => thoughtsUsedIn s | None => [] end.


(** The argument object with the two members of a branch given. *)
Definition with_branch (data : RawThought) (from : Q) (id : string) : RawThought :=
  {| in_thought := in_thought data; in_thoughtNumber := in_thoughtNumber data;
     in_totalThoughts := in_totalThoughts data;
     in_nextThoughtNeeded := in_nextThoughtNeeded data;
     in_isRevision := in_isRevision data; in_revisesThought := in_revisesThought data;
     in_branchFromThought := Some from; in_branchId := Some id;
     in_needsMoreThoughts := in_needsMoreThoughts data; in_phase := in_phase data;
     in_dependencies := in_dependencies data; in_toolsUsed := in_toolsUsed data;
     in_complexity := in_complexity data; in_status := in_status data;
     in_quality := in_quality data; in_keywords := in_keywords data;
     in_insightValue := in_insightValue data;
     in_classification := in_classification data;
     in_confidenceScore := in_confidenceScore data;
     in_evidenceStrength := in_evidenceStrength data |}.

(** The argument object with the member [toolsUsed] given. *)
Definition with_tools (data : RawThought) (tools : list string) : RawThought :=
  {| in_thought := in_thought data; in_thoughtNumber := in_thoughtNumber data;
     in_totalThoughts := in_totalThoughts data;
     in_nextThoughtNeeded := in_nextThoughtNeeded data;
     in_isRevision := in_isRevision data; in_revisesThought := in_revisesThought data;
     in_branchFromThought := in_branchFromThought data; in_branchId := in_branchId data;
     in_needsMoreThoughts := in_needsMoreThoughts data; in_phase := in_phase data;
     in_dependencies := in_dependencies data; in_toolsUsed := Some tools;
     in_complexity := in_complexity data; in_status := in_status data;
     in_quality := in_quality data; in_keywords := in_keywords data;
     in_insightValue := in_insightValue data;
     in_classification := in_classification data;
     in_confidenceScore := in_confidenceScore data;
     in_evidenceStrength := in_evidenceStrength data |}.

(** The stores that the server can be in: the store after the constructor
    and every store left by a request to one of its two handlers. *)
Inductive reachable : ServerState -> Prop :=
| reach_initial : reachable initial
| reach_list st :
    reachable st -> reachable (setAvailableTools st ["sequentialthinking"])
| reach_call st name arguments :
    reachable st -> reachable (snd (callTool st name arguments)).

(** The sum of the four counters of the phases. *)
Definition phase_uses (s : ToolUsageStats) : nat :=
  fold_right (fun p total =>
                (match get (phaseUsage s) (phase_name p) with
                 | Some n => n | None => 0 end + total)%nat)
             0%nat [Planning; Analysis; Execution; Verification].

(** The counters of a tool agree. *)
Definition consistent (s : ToolUsageStats) : Prop :=
  (0 < usageCount s)%nat
  /\ usageCount s = List.length (thoughtsUsedIn s)
  /\ phase_uses s = usageCount s.

(** The number of indicators of a task type that a prompt contains. *)
Definition type_count (prompt : string) (t : TaskType) : nat :=
  match t with
  | creative =>
      PromptAnalyzer.count_matches (toLowerCase prompt) PromptAnalyzer.creativeIndicators
  | analytical =>
      PromptAnalyzer.count_matches (toLowerCase prompt) PromptAnalyzer.analyticalIndicators
  | informational =>
      PromptAnalyzer.count_matches (toLowerCase prompt)
                                   PromptAnalyzer.informationalIndicators
  | technical =>
      PromptAnalyzer.count_matches (toLowerCase prompt) PromptAnalyzer.technicalIndicators
  | mixed => 0
  end.

(** The phase distribution that a complexity starts from. *)
Definition base_shares (c : Complexity) : PhaseDistribution :=
  match c with
  | simple => {| pd_Planning := 1; pd_Analysis := 1; pd_Execution := 2;
                 pd_Verification := 1 |}
  | medium => {| pd_Planning := 2; pd_Analysis := 2; pd_Execution := 3;
                 pd_Verification := 1 |}
  | complex => {| pd_Planning := 3; pd_Analysis := 3; pd_Execution := 4;
                  pd_Verification := 2 |}
  end.

(** Every element of the list is before all the later ones. *)
Fixpoint ordered {A} (before : A -> A -> bool) (l : list A) : Prop :=
  match l with
  | [] => True
  | x :: l' => (forall y, In y l' -> before x y = true) /\ ordered before l'
  end.

End Extras.

(* ------------------------------------------------------------------------- *)
(** ** Proof steps                                                            *)
(* ------------------------------------------------------------------------- *)

(** Reduction of the members of thought records and of the assignments to
    them, and of nothing else. *)
Ltac thought_fields :=
  cbn [thought thoughtNumber totalThoughts isRevision revisesThought branchFromThought
       branchId needsMoreThoughts nextThoughtNeeded phase dependencies toolsUsed
       td_complexity status quality td_keywords insightValue classification
       confidenceScore evidenceStrength assumptions vector conceptsExtracted
       contradictions reflectionPrompts promptAlignment promptRelevance driftWarning
       suggestedCorrections intelligenceRecommendations complexityEstimation
       set_totalThoughts set_phase set_vector set_conceptsExtracted set_contradictions
       set_reflectionPrompts set_assumptions set_promptAlignment set_promptRelevance
       set_driftWarning set_suggestedCorrections set_intelligenceRecommendations
       IntelligenceMaximizationModule.generateRecommendations] in *.

(** Quotients by numerals become products. *)
Ltac qconst := unfold Qdiv in *; cbn [Qinv Qnum Qden] in *.

(* The cases of [Math.min], [Math.max] and the conditions around them. *)
Ltac bounds :=
  unfold IntelligenceMaximizationModule.clamp, Num.min, Num.max;
  repeat match goal with
         | |- context [match ?p with high => _ | _ => _ end] => destruct p
         | |- context [if ?c then _ else _] =>
             lazymatch c with context [Qle_bool _ _] => fail | _ => destruct c end
         | |- context [Qle_bool ?x ?y] =>
             lazymatch x with context [Qle_bool _ _] => fail | _ => idtac end;
             lazymatch y with context [Qle_bool _ _] => fail | _ => idtac end;
             let E := fresh "E" in
             destruct (Qle_bool x y) eqn:E;
             [ apply Qle_bool_iff in E
             | let H := fresh "H" in
               assert (H : (y < x)%Q)
                 by (apply Qnot_le_lt; intros Hle; apply Qle_bool_iff in Hle;
                     congruence);
               clear E ]
         end;
  try lra.

(* ------------------------------------------------------------------------- *)
(** ** Sets, sorting and dictionaries                                         *)
(* ------------------------------------------------------------------------- *)

Section Collections.

Import JS Properties.
Local Open Scope string_scope.

Lemma mem_In x l : mem x l = true <-> In x l.
Proof.
  unfold mem. rewrite existsb_exists. split.
  - intros [y [Hin E]]. apply String.eqb_eq in E. subst. exact Hin.
  - intros Hin. exists x. split; [exact Hin | apply String.eqb_refl].
Qed.

Lemma mem_false x l : mem x l = false <-> ~ In x l.
Proof.
  rewrite <- mem_In. destruct (mem x l); split; intros H; congruence.
Qed.

Lemma dedup_aux_In seen l x :
  In x (dedup_aux seen l) <-> In x l /\ ~ In x seen.
Proof.
  revert seen. induction l as [| y l IH]; intros seen; cbn [dedup_aux].
  - cbn. tauto.
  - destruct (mem y seen) eqn:E.
    + apply mem_In in E. rewrite IH. cbn [In]. split.
      * intros [H1 H2]. tauto.
      * intros [[-> | H1] H2]; [contradiction | tauto].
    + apply mem_false in E. cbn [In]. rewrite IH. cbn [In]. split.
      * intros [<- | [H1 H2]]; [tauto |]. split; [tauto |]. intros H. apply H2. tauto.
      * intros [[<- | H1] H2]; [tauto |].
        destruct (string_dec y x) as [-> | Hne]; [tauto |].
        right. split; [exact H1 |]. intros [H | H]; [congruence | contradiction].
Qed.

Lemma dedup_aux_NoDup seen l : NoDup (dedup_aux seen l).
Proof.
  revert seen. induction l as [| y l IH]; intros seen; cbn [dedup_aux].
  - constructor.
  - destruct (mem y seen); [apply IH |].
    constructor; [| apply IH].
    rewrite dedup_aux_In. cbn [In]. tauto.
Qed.

Lemma dedup_In l x : In x (dedup l) <-> In x l.
Proof. unfold dedup. rewrite dedup_aux_In. cbn. tauto. Qed.

Lemma dedup_NoDup l : NoDup (dedup l).
Proof. apply dedup_aux_NoDup. Qed.

Lemma dedup_aux_fresh seen l :
  NoDup l -> (forall x, In x l -> ~ In x seen) -> dedup_aux seen l = l.
Proof.
  intros Hnd. revert seen. induction Hnd as [| y l Hy Hnd IH]; intros seen Hfresh;
    cbn [dedup_aux]; [reflexivity |].
  assert (E : mem y seen = false).
  { apply mem_false. apply Hfresh. left. reflexivity. }
  rewrite E. f_equal. apply IH.
  intros x Hx [<- | Hs]; [contradiction |].
  apply (Hfresh x); [right; exact Hx | exact Hs].
Qed.

Lemma dedup_fixed l : NoDup l -> dedup l = l.
Proof. intros H. apply dedup_aux_fresh; [exact H | intros x _ []]. Qed.

Lemma same_members_same_length (l l' : list string) :
  NoDup l -> NoDup l' -> (forall x, In x l <-> In x l') ->
  List.length l = List.length l'.
Proof.
  intros H1 H2 H. apply Permutation_length. apply NoDup_Permutation; assumption.
Qed.

Lemma insert_sorted_perm {A} (before : A -> A -> bool) x l :
  Permutation (insert_sorted before x l) (x :: l).
Proof.
  induction l as [| y l IH]; cbn [insert_sorted]; [reflexivity |].
  destruct (before x y); [reflexivity |].
  rewrite IH. apply perm_swap.
Qed.

Lemma sort_perm {A} (before : A -> A -> bool) l : Permutation (sort before l) l.
Proof.
  induction l as [| x l IH]; cbn [sort fold_right]; [reflexivity |].
  fold (sort before l). rewrite insert_sorted_perm, IH. reflexivity.
Qed.

Lemma filter_split_perm {A} (p : A -> bool) l :
  Permutation (filter p l ++ filter (fun x => negb (p x)) l) l.
Proof.
  induction l as [| x l IH]; cbn [filter]; [reflexivity |].
  destruct (p x); cbn [negb app].
  - constructor. exact IH.
  - rewrite <- Permutation_middle. constructor. exact IH.
Qed.

Lemma entries_perm {V} (o : dict V) : Permutation (entries o) o.
Proof.
  unfold entries. rewrite sort_perm. apply filter_split_perm.
Qed.

Lemma keys_perm {V} (o : dict V) : Permutation (keys o) (map fst o).
Proof. unfold keys. apply Permutation_map, entries_perm. Qed.

Lemma get_set_same {V} (o : dict V) k x : get (set o k x) k = Some x.
Proof.
  induction o as [| [k' v'] o IH]; cbn [set get].
  - rewrite String.eqb_refl. reflexivity.
  - destruct (String.eqb k k') eqn:E; cbn [get]; rewrite E; [reflexivity | exact IH].
Qed.

Lemma get_set_other {V} (o : dict V) k x k0 :
  k0 <> k -> get (set o k x) k0 = get o k0.
Proof.
  intros Hne. induction o as [| [k' v'] o IH]; cbn [set get].
  - apply String.eqb_neq in Hne. rewrite Hne. reflexivity.
  - destruct (String.eqb k k') eqn:E; cbn [get].
    + apply String.eqb_eq in E. subst k'.
      apply String.eqb_neq in Hne. rewrite Hne. reflexivity.
    + rewrite IH. reflexivity.
Qed.

Lemma set_keys_In {V} (o : dict V) k x k0 :
  In k0 (map fst (set o k x)) <-> k0 = k \/ In k0 (map fst o).
Proof.
  induction o as [| [k' v'] o IH]; cbn [set map fst In].
  - intuition congruence.
  - destruct (String.eqb k k') eqn:E; cbn [map fst In].
    + apply String.eqb_eq in E. subst. intuition congruence.
    + rewrite IH. tauto.
Qed.

Lemma set_keys_NoDup {V} (o : dict V) k x :
  NoDup (map fst o) -> NoDup (map fst (set o k x)).
Proof.
  induction o as [| [k' v'] o IH]; cbn [set map fst]; intros Hnd.
  - constructor; [intros [] | constructor].
  - inversion Hnd as [| ? ? Hk' Ho]; subst.
    destruct (String.eqb k k') eqn:E; cbn [map fst].
    + constructor; assumption.
    + constructor; [| apply IH; exact Ho].
      rewrite set_keys_In. intros [-> | H]; [| contradiction].
      rewrite String.eqb_refl in E. discriminate.
Qed.

(** The dictionary made by [o[k] = f(k)] for every [k] of a list. *)
Lemma fill_get {V} (f : string -> V) l (o : dict V) k :
  get (fold_left (fun o t => set o t (f t)) l o) k
  = if mem k l then Some (f k) else get o k.
Proof.
  revert o. induction l as [| t l IH]; intros o; cbn [fold_left]; [reflexivity |].
  rewrite IH. unfold mem. cbn [existsb]. fold (mem k l).
  destruct (mem k l); [rewrite orb_true_r; reflexivity |].
  rewrite orb_false_r. destruct (String.eqb k t) eqn:E.
  - apply String.eqb_eq in E. subst. apply get_set_same.
  - apply String.eqb_neq in E. apply get_set_other. exact E.
Qed.

Lemma fill_keys_In {V} (f : string -> V) l (o : dict V) k :
  In k (map fst (fold_left (fun o t => set o t (f t)) l o))
  <-> In k l \/ In k (map fst o).
Proof.
  revert o. induction l as [| t l IH]; intros o; cbn [fold_left In]; [tauto |].
  rewrite IH, set_keys_In. intuition congruence.
Qed.

Lemma fill_keys_NoDup {V} (f : string -> V) l (o : dict V) :
  NoDup (map fst o) -> NoDup (map fst (fold_left (fun o t => set o t (f t)) l o)).
Proof.
  revert o. induction l as [| t l IH]; intros o H; cbn [fold_left]; [exact H |].
  apply IH, set_keys_NoDup, H.
Qed.

Lemma assign_keys_In {V} (es : list (string * V)) (o : dict V) k :
  In k (map fst (fold_left (fun o e => set o (fst e) (snd e)) es o))
  <-> In k (map fst es) \/ In k (map fst o).
Proof.
  revert o. induction es as [| e es IH]; intros o; cbn [fold_left map In]; [tauto |].
  rewrite IH, set_keys_In. intuition congruence.
Qed.

Lemma assign_keys_NoDup {V} (es : list (string * V)) (o : dict V) :
  NoDup (map fst o) -> NoDup (map fst (fold_left (fun o e => set o (fst e) (snd e)) es o)).
Proof.
  revert o. induction es as [| e es IH]; intros o H; cbn [fold_left]; [exact H |].
  apply IH, set_keys_NoDup, H.
Qed.

Lemma spread_keys_In {V} (vec1 vec2 : dict V) k :
  In k (keys (SemanticAnalyzer.spread vec1 vec2))
  <-> In k (map fst vec1) \/ In k (map fst vec2).
Proof.
  rewrite (Permutation_in' (eq_refl k) (keys_perm _)).
  unfold SemanticAnalyzer.spread. rewrite !assign_keys_In. cbn [map In].
  rewrite (Permutation_in' (eq_refl k) (Permutation_map fst (entries_perm vec1))).
  rewrite (Permutation_in' (eq_refl k) (Permutation_map fst (entries_perm vec2))).
  tauto.
Qed.

Lemma spread_keys_NoDup {V} (vec1 vec2 : dict V) :
  NoDup (keys (SemanticAnalyzer.spread vec1 vec2)).
Proof.
  eapply Permutation_NoDup; [symmetry; apply keys_perm |].
  unfold SemanticAnalyzer.spread. apply assign_keys_NoDup, assign_keys_NoDup.
  constructor.
Qed.

End Collections.

(* ------------------------------------------------------------------------- *)
(** ** Alignment score and drift                                              *)
(* ------------------------------------------------------------------------- *)

Section Alignment.

Import JS Properties.
Local Open Scope string_scope.

Lemma of_nat_nonneg n : (0 <= Num.of_nat n)%Q.
Proof.
  unfold Num.of_nat, Qle. cbn. lia.
Qed.

Lemma of_nat_le n m : (n <= m)%nat -> (Num.of_nat n <= Num.of_nat m)%Q.
Proof.
  intros H. unfold Num.of_nat, Qle. cbn. lia.
Qed.

Lemma of_nat_pos n : (0 < n)%nat -> (0 < Num.of_nat n)%Q.
Proof.
  intros H. unfold Num.of_nat, Qlt. cbn. lia.
Qed.

Lemma min_cases c x : (Num.min c x == c /\ c <= x)%Q \/ (Num.min c x == x /\ x <= c)%Q.
Proof.
  unfold Num.min. destruct (Qle_bool c x) eqn:E.
  - left. apply Qle_bool_iff in E. split; [reflexivity | assumption].
  - right. split; [reflexivity |].
    destruct (Qlt_le_dec x c) as [H | H]; [apply Qlt_le_weak, H |].
    apply Qle_bool_iff in H. congruence.
Qed.

Lemma max_cases x y : (Num.max x y == y /\ x <= y)%Q \/ (Num.max x y == x /\ y <= x)%Q.
Proof.
  unfold Num.max. destruct (Qle_bool x y) eqn:E.
  - left. apply Qle_bool_iff in E. split; [reflexivity | assumption].
  - right. split; [reflexivity |].
    destruct (Qlt_le_dec y x) as [H | H]; [apply Qlt_le_weak, H |].
    apply Qle_bool_iff in H. congruence.
Qed.

Lemma count_matches_le text l :
  (PromptAnalyzer.count_matches text l <= List.length l)%nat.
Proof. unfold PromptAnalyzer.count_matches. apply filter_length_le. Qed.

Lemma ratio_range n d : (n <= d)%nat -> (0 < d)%nat ->
  (0 <= Num.of_nat n / Num.of_nat d <= 1)%Q.
Proof.
  intros Hle Hpos.
  pose proof (of_nat_nonneg n) as Hn.
  pose proof (of_nat_le Hle) as Hnd.
  pose proof (of_nat_pos Hpos) as Hd.
  split.
  - apply Qle_shift_div_l; [assumption | lra].
  - apply Qle_shift_div_r; [assumption | lra].
Qed.

Lemma goalMatchPercentage_range thoughtLower goal :
  (0 <= PromptAnalyzer.goalMatchPercentage thoughtLower goal <= 1)%Q.
Proof.
  unfold PromptAnalyzer.goalMatchPercentage.
  destruct (0 <? List.length (PromptAnalyzer.aspect_keywords goal))%nat eqn:E.
  - apply Nat.ltb_lt in E. apply ratio_range; [apply count_matches_le | assumption].
  - lra.
Qed.

Lemma goal_alignment_range thoughtLower gs start :
  (0 <= start <= 10)%Q ->
  (0 <= fold_left (fun best goal =>
                     Num.max best (PromptAnalyzer.goalMatchPercentage thoughtLower goal * 10))
                  gs start <= 10)%Q.
Proof.
  revert start. induction gs as [| g gs IH]; intros start Hs; cbn [fold_left].
  - assumption.
  - apply IH.
    pose proof (goalMatchPercentage_range thoughtLower g) as Hg.
    destruct (max_cases start (PromptAnalyzer.goalMatchPercentage thoughtLower g * 10))
      as [[He _] | [He _]]; rewrite He; lra.
Qed.

Lemma round_range lo hi x :
  (inject_Z lo - (1 # 2) <= x)%Q -> (x < inject_Z hi + (1 # 2))%Q ->
  (lo <= Num.round x <= hi)%Z.
Proof.
  intros Hlo Hhi. unfold Num.round. split.
  - rewrite <- (Qfloor_Z lo). apply Qfloor_resp_le. lra.
  - pose proof (Qfloor_le (x + (1 # 2))) as Hf.
    assert (H : (inject_Z (Qfloor (x + (1 # 2))) < inject_Z (hi + 1))%Q).
    { rewrite inject_Z_plus. change (inject_Z 1) with 1%Q. lra. }
    rewrite <- Zlt_Qlt in H. lia.
Qed.

(** The alignment score is an integer from 1 to 9. *)
Lemma alignment_score_range thoughtText m :
  exists z, PromptAnalyzer.calculateAlignmentScore thoughtText m = inject_Z z
            /\ (1 <= z <= 9)%Z.
Proof.
  unfold PromptAnalyzer.calculateAlignmentScore.
  eexists. split; [reflexivity |].
  set (k := Num.of_nat (PromptAnalyzer.count_matches (toLowerCase thoughtText) (keywords m))).
  set (g := fold_left _ (goals m) 0%Q).
  assert (Hk : (0 <= k)%Q) by apply of_nat_nonneg.
  assert (Hg : (0 <= g <= 10)%Q) by (apply goal_alignment_range; lra).
  apply round_range;
    change (inject_Z 1) with 1%Q; change (inject_Z 9) with 9%Q; qconst;
    destruct (min_cases 10 (k * 2)) as [[He _] | [He Hle]]; rewrite He; lra.
Qed.

Lemma alignment_score_bounds thoughtText m :
  (0 <= PromptAnalyzer.calculateAlignmentScore thoughtText m <= 10)%Q.
Proof.
  destruct (alignment_score_range thoughtText m) as [z [-> [H1 H2]]].
  split; unfold Qle; cbn; lia.
Qed.

Lemma drift_warning_iff thoughtText m :
  pa_driftWarning (PromptAnalyzer.analyzeThoughtAlignment thoughtText m) <> None
  <-> Num.lt (PromptAnalyzer.calculateAlignmentScore thoughtText m) 4 = true.
Proof.
  unfold PromptAnalyzer.analyzeThoughtAlignment, PromptAnalyzer.checkForTopicDrift.
  destruct (Num.lt (PromptAnalyzer.calculateAlignmentScore thoughtText m) 4);
    cbn [hasDrift warning pa_driftWarning]; split; intros H;
    try reflexivity; try discriminate; congruence.
Qed.

Lemma lt_true a b : Num.lt a b = true <-> (a < b)%Q.
Proof.
  unfold Num.lt. rewrite negb_true_iff. split; intros H.
  - apply Qnot_le_lt. intros Hle. apply Qle_bool_iff in Hle. congruence.
  - destruct (Qle_bool b a) eqn:E; [| reflexivity].
    apply Qle_bool_iff in E. lra.
Qed.

Lemma gtb_true x y : RNum.gtb x y = true <-> (x > y)%R.
Proof.
  unfold RNum.gtb. destruct (Rgt_dec x y); split; intros H;
    try reflexivity; try assumption; try discriminate; contradiction.
Qed.

Lemma hasDrift_iff t m :
  SemanticAnalyzer.td_hasDrift (SemanticAnalyzer.detectTopicDrift t m) = true
  <-> drift_score_exceeds t m.
Proof.
  unfold drift_score_exceeds, SemanticAnalyzer.detectTopicDrift.
  cbn [SemanticAnalyzer.td_hasDrift SemanticAnalyzer.driftScore].
  match goal with
  | |- RNum.nan_gtb ?s _ = true <-> _ => destruct s as [score |]
  end; cbn [RNum.nan_gtb].
  - rewrite gtb_true. split.
    + intros H. exists score. split; [reflexivity | assumption].
    + intros [score' [E H]]. injection E as <-. assumption.
  - split; [discriminate | intros [score' [E _]]; discriminate].
Qed.

Lemma analysis_alignment thoughtText m :
  pa_promptAlignment (PromptAnalyzer.analyzeThoughtAlignment thoughtText m)
  = PromptAnalyzer.calculateAlignmentScore thoughtText m.
Proof.
  unfold PromptAnalyzer.analyzeThoughtAlignment.
  destruct (hasDrift _); reflexivity.
Qed.

Lemma analysis_relevance thoughtText m :
  pa_promptRelevance (PromptAnalyzer.analyzeThoughtAlignment thoughtText m)
  = PromptAnalyzer.calculateRelevanceScores thoughtText m.
Proof.
  unfold PromptAnalyzer.analyzeThoughtAlignment.
  destruct (hasDrift _); reflexivity.
Qed.

Lemma profile_of_question_mark :
  PromptAnalyzer.analyzePrompt "?"
  = {| originalPrompt := "?"; goals := []; constraints := []; domains := [];
       expectedOutputFormat := None; priority := low; complexity := simple;
       keywords := []; entities := []; taskType := mixed |}.
Proof. vm_compute. reflexivity. Qed.

Lemma drift_score_without_aspects t :
  SemanticAnalyzer.driftScore
    (SemanticAnalyzer.detectTopicDrift t (PromptAnalyzer.analyzePrompt "?"))
  = Some (1 - ((1 * 0.4) + (1 * 0.3) + (1 * 0.1) + (1 * 0.2)))%R.
Proof.
  rewrite profile_of_question_mark.
  unfold SemanticAnalyzer.detectTopicDrift.
  cbn [SemanticAnalyzer.driftScore goals keywords domains
       SemanticAnalyzer.calculateContextualAspectRelevance List.length Nat.ltb Nat.leb].
  reflexivity.
Qed.

End Alignment.

(* ------------------------------------------------------------------------- *)
(** ** Validation and the failure path                                        *)
(* ------------------------------------------------------------------------- *)

Section Validation.

Import JS SequentialThinkingServer Properties.
Local Open Scope string_scope.

Lemma validate_malformed input :
  malformed input = true -> exists message, validateThoughtData input = inl message.
Proof.
  destruct input as [| | data]; simpl; eauto.
  unfold validateThoughtData, is_nonempty_string, is_number, is_boolean.
  destruct (in_thought data) as [| | [|] | ? | [| ? ?] |];
    simpl; rewrite ?orb_true_r; try solve [eauto].
  destruct (in_thoughtNumber data) as [| | [|] | n | ? |];
    simpl; rewrite ?orb_true_r; try solve [eauto].
  destruct (Qeq_bool n 0); simpl; try solve [eauto].
  destruct (in_totalThoughts data) as [| | [|] | m | ? |];
    simpl; rewrite ?orb_true_r; try solve [eauto].
  destruct (Qeq_bool m 0); simpl; try solve [eauto].
  destruct (in_nextThoughtNeeded data) as [| | [|] | ? | ? |];
    simpl; try solve [eauto]; discriminate.
Qed.

(** C1. Whatever is submitted to [processThought], if a required member is
    missing or mistyped (the thought is not a non-empty string, the thought
    number or the total is not a number, the continuation flag is not a
    boolean), the call returns the error object, an error message with
    status "failed", and the state of the store, history, branch table and
    tool statistics included, is the state before the call. *)
Theorem malformed_input_fails_without_change (st : ServerState) (input : Input) :
  malformed input = true ->
  exists message,
    processThought st input
    = (Failure {| error := message; error_status := "failed" |}, st).
Proof.
  intros H. destruct (validate_malformed input H) as [message E].
  exists message. unfold processThought. rewrite E. reflexivity.
Qed.

Lemma malformed_input_fails_without_change_witness :
  malformed (InMembers (required_only (JStr "") (JNum 1) (JNum 3) (JBool true))) = true /\
  exists message,
    processThought initial
      (InMembers (required_only (JStr "") (JNum 1) (JNum 3) (JBool true)))
    = (Failure {| error := message; error_status := "failed" |}, initial).
Proof.
  split; [reflexivity |].
  apply (malformed_input_fails_without_change initial
           (InMembers (required_only (JStr "") (JNum 1) (JNum 3) (JBool true)))).
  reflexivity.
Defined.

End Validation.

(* ------------------------------------------------------------------------- *)
(** ** One submission                                                         *)
(* ------------------------------------------------------------------------- *)

Section Submission.

Import JS SequentialThinkingServer Properties.
Local Open Scope string_scope.

Lemma reflection_prompts_snoc l v :
  exists prompts, ReflectionEngine.generateReflectionPrompts (l ++ [v]) = Some prompts.
Proof.
  unfold ReflectionEngine.generateReflectionPrompts.
  rewrite rev_app_distr. cbn [rev app]. eauto.
Qed.

Lemma step_reflection_some st v :
  exists prompts, step_reflection st v = Some (set_reflectionPrompts v (Some prompts)).
Proof.
  unfold step_reflection.
  destruct (reflection_prompts_snoc (thoughtHistory st) v) as [p Hp].
  rewrite Hp. eauto.
Qed.

Lemma enrich_fields st v :
  exists v', enrich st v = Some v' /\ enriched (metadata (promptContext st)) v v'.
Proof.
  unfold enrich.
  destruct (step_reflection_some st
              (step_contradictions st
                 (step_semantic_analysis (step_default_phase (step_adjust_total v)))))
    as [prompts Hp].
  rewrite Hp. clear Hp.
  unfold step_contradictions.
  destruct (hasContradictions _);
    unfold step_alignment, step_assumptions, step_semantic_analysis, step_default_phase,
      step_adjust_total;
    destruct (Num.gt (thoughtNumber v) (totalThoughts v)) eqn:E1;
    destruct (phase v) eqn:E2;
    destruct (metadata (promptContext st)) as [m |];
    thought_fields; rewrite ?E2; thought_fields;
    try match goal with
        | |- context [Num.gt ?a ?b] => destruct (Num.gt a b) eqn:E3
        end;
    eexists; (split; [reflexivity |]);
    constructor; thought_fields;
    unfold reported_total, raised_total, recommended_count, phase_or_default;
    rewrite ?E1, ?E2, ?E3, ?analysis_alignment, ?analysis_relevance;
    try reflexivity; intros; try discriminate; try congruence.
Qed.

Lemma append_history st v : thoughtHistory (append st v) = (thoughtHistory st ++ [v])%list.
Proof. reflexivity. Qed.

Lemma latest_thought_in first thoughts :
  In (GraphRenderer.latest_thought first thoughts) (first :: thoughts).
Proof.
  unfold GraphRenderer.latest_thought. revert first.
  induction thoughts as [| t thoughts IH]; intros first; cbn [fold_left].
  - left. reflexivity.
  - destruct (Num.gt (thoughtNumber t) (thoughtNumber first)).
    + right. apply IH.
    + destruct (IH first) as [H | H]; [left; exact H | right; right; exact H].
Qed.

Lemma repeat_never_throws_nonneg q : (0 <= q)%Q -> Num.repeat_throws (Num.Fin q) = false.
Proof.
  intros H. cbn [Num.repeat_throws]. unfold Num.lt. apply negb_false_iff.
  apply Qle_bool_iff. assumption.
Qed.

(** A bar of [width] cells for a percentage between 0 and 100. *)
Lemma bar_is_drawn width x :
  (0 <= width)%Q -> (0 <= x <= 100)%Q ->
  Num.repeat_throws (Num.Fin (inject_Z (Qfloor (width * (x / 100)))))
  || Num.repeat_throws (Num.Fin (width - inject_Z (Qfloor (width * (x / 100)))))
  = false.
Proof.
  intros Hw Hx.
  set (cells := (width * (x / 100))%Q).
  assert (Hc : (0 <= cells <= width)%Q).
  { unfold cells. qconst. split; nra. }
  assert (H0 : (0 <= Qfloor cells)%Z).
  { change 0%Z with (Qfloor 0). apply Qfloor_resp_le. apply Hc. }
  pose proof (Qfloor_le cells) as Hf.
  rewrite !repeat_never_throws_nonneg; [reflexivity | |].
  - lra.
  - rewrite Zle_Qle in H0. exact H0.
Qed.

Lemma xdiv_positive n d : (0 < d)%Q -> Num.xdiv n d = Num.Fin (n / d).
Proof.
  intros H. unfold Num.xdiv.
  destruct (Qeq_bool d 0) eqn:E; [| reflexivity].
  apply Qeq_bool_eq in E. lra.
Qed.

Lemma percentage_range n d :
  (0 < n)%Q -> (n <= d)%Q -> (0 <= n / d * 100 <= 100)%Q.
Proof.
  intros Hn Hd.
  assert (Hr : (0 <= n / d <= 1)%Q).
  { split.
    - apply Qle_shift_div_l; lra.
    - apply Qle_shift_div_r; lra. }
  lra.
Qed.

Lemma progress_bar_is_drawn n d :
  (0 < n)%Q -> (n <= d)%Q ->
  createProgressBar_error (Num.xmap (fun x => x * 100)%Q (Num.xdiv n d)) = None.
Proof.
  intros Hn Hd. unfold createProgressBar_error.
  rewrite xdiv_positive by lra. cbn [Num.xmap Num.xfloor Num.xsub_from].
  rewrite (@bar_is_drawn 50 (n / d * 100)); [reflexivity | lra |].
  apply percentage_range; assumption.
Qed.

Lemma sum_range (l : list Q) acc :
  Forall (fun a => 0 <= a <= 10)%Q l ->
  (acc <= fold_left Qplus l acc <= acc + 10 * Num.of_nat (List.length l))%Q.
Proof.
  intros H. revert acc. induction H as [| a l Ha Hl IH]; intros acc; cbn [fold_left].
  - change (Num.of_nat (List.length [])) with 0%Q. lra.
  - specialize (IH (acc + a)%Q).
    assert (E : (Num.of_nat (List.length (a :: l)) == Num.of_nat (List.length l) + 1)%Q).
    { unfold Num.of_nat. cbn [List.length]. rewrite Nat2Z.inj_succ, <- Z.add_1_r.
      rewrite inject_Z_plus. reflexivity. }
    rewrite E. lra.
Qed.

Lemma collect_alignment_range thoughts :
  Forall drawable thoughts ->
  Forall (fun a => 0 <= a <= 10)%Q (GraphRenderer.collect_alignment thoughts).
Proof.
  induction 1 as [| t thoughts Ht Hl IH]; cbn [GraphRenderer.collect_alignment].
  - constructor.
  - destruct (promptAlignment t) as [a |] eqn:E; [| exact IH].
    constructor; [| exact IH]. destruct Ht as [_ [_ Ha]]. apply Ha, E.
Qed.

Lemma average_alignment_range thoughts :
  Forall drawable thoughts ->
  (0 <= GraphRenderer.average_alignment thoughts <= 10)%Q.
Proof.
  intros H. apply collect_alignment_range in H.
  unfold GraphRenderer.average_alignment.
  destruct (GraphRenderer.collect_alignment thoughts) as [| a l]; [lra |].
  pose proof (sum_range 0 H) as Hs.
  assert (Hlen : (0 < Num.of_nat (List.length (a :: l)))%Q).
  { apply of_nat_pos. cbn [List.length]. lia. }
  split.
  - apply Qle_shift_div_l; [assumption | lra].
  - apply Qle_shift_div_r; [assumption | lra].
Qed.

Lemma goal_coverage_cases thoughts m :
  GraphRenderer.goal_coverage thoughts m = Num.NaN
  \/ exists q, GraphRenderer.goal_coverage thoughts m = Num.Fin q /\ (0 <= q <= 100)%Q.
Proof.
  unfold GraphRenderer.goal_coverage.
  set (covered := List.length (filter _ (seq 0 (List.length (goals m))))).
  assert (Hc : (covered <= List.length (goals m))%nat).
  { unfold covered. etransitivity; [apply filter_length_le |]. rewrite length_seq.
    apply Nat.le_refl. }
  destruct (List.length (goals m)) as [| n] eqn:E.
  - left. assert (covered = 0%nat) as -> by lia. reflexivity.
  - right. rewrite xdiv_positive by (apply of_nat_pos; lia).
    eexists. split; [reflexivity |].
    pose proof (@ratio_range covered (S n) Hc ltac:(lia)). lra.
Qed.

Lemma phaseWeight_range p :
  (1 # 10 <= GraphRenderer.phaseWeight p <= 9 # 10)%Q.
Proof. destruct p; cbn [GraphRenderer.phaseWeight]; lra. Qed.

Lemma overall_progress_cases first thoughts m :
  Forall drawable (first :: thoughts) ->
  GraphRenderer.calculateOverallProgress first thoughts m = Num.NaN
  \/ exists z, GraphRenderer.calculateOverallProgress first thoughts m
               = Num.Fin (inject_Z z) /\ (0 <= z <= 99)%Z.
Proof.
  intros Hall. unfold GraphRenderer.calculateOverallProgress.
  pose proof (latest_thought_in first thoughts) as Hin.
  rewrite Forall_forall in Hall.
  destruct (Hall _ Hin) as [Hn [Ht _]].
  set (latest := GraphRenderer.latest_thought first thoughts) in *.
  rewrite xdiv_positive by lra. cbn [Num.xmap Num.xmin].
  assert (Havg : (0 <= GraphRenderer.average_alignment thoughts <= 10)%Q).
  { apply average_alignment_range. apply Forall_forall. intros t Hin'.
    apply Hall. right. exact Hin'. }
  pose proof (phaseWeight_range
                match phase latest with Some p => p | None => Execution end) as Hp.
  pose proof (percentage_range Hn Ht) as Hpc.
  destruct (goal_coverage_cases thoughts m) as [-> | [q [-> Hq]]].
  - left. reflexivity.
  - right. cbn [Num.xmap Num.xadd Num.xround]. eexists. split; [reflexivity |].
    apply round_range; change (inject_Z 0) with 0%Q; change (inject_Z 99) with 99%Q;
      destruct (min_cases 100 (thoughtNumber latest / totalThoughts latest * 100))
        as [[He _] | [He Hle]]; rewrite He; lra.
Qed.

Lemma progress_view_is_drawn first thoughts m :
  Forall drawable (first :: thoughts) ->
  GraphRenderer.generatePromptProgressView_error (first :: thoughts) m = None.
Proof.
  intros Hall. unfold GraphRenderer.generatePromptProgressView_error.
  assert (Hall' : Forall drawable (first :: first :: thoughts)).
  { constructor; [| exact Hall]. inversion Hall; assumption. }
  destruct (overall_progress_cases m Hall') as [-> | [z [-> Hz]]].
  - reflexivity.
  - cbn [Num.xmap Num.xfloor Num.xsub_from].
    rewrite (@bar_is_drawn 30 (inject_Z z)); [reflexivity | lra |].
    destruct Hz as [H0 H99]. rewrite Zle_Qle in H0, H99.
    change (inject_Z 0) with 0%Q in H0. change (inject_Z 99) with 99%Q in H99. lra.
Qed.

Lemma branches_are_grouped thoughts :
  Forall well_stored thoughts ->
  GraphRenderer.groupThoughtsByBranch_error thoughts = None.
Proof.
  intros Hall. unfold GraphRenderer.groupThoughtsByBranch_error.
  replace (existsb _ thoughts) with false; [reflexivity |].
  symmetry. induction Hall as [| t thoughts [_ Ht] _ IH]; [reflexivity |].
  cbn [existsb]. rewrite IH, orb_false_r.
  unfold plain_names in Ht. apply andb_true_iff in Ht. destruct Ht as [Ht _].
  apply negb_true_iff in Ht.
  destruct (branchId t) as [id |]; [| reflexivity].
  rewrite Ht. apply andb_false_r.
Qed.

Lemma render_without_error st v :
  thoughtHistory st <> [] ->
  Forall well_stored (thoughtHistory st) ->
  well_stored v ->
  render_error st v = None.
Proof.
  intros Hne Hall [[Hn [Ht _]] _]. unfold render_error.
  rewrite (branches_are_grouped Hall).
  rewrite (progress_bar_is_drawn Hn Ht).
  destruct (metadata (promptContext st)) as [m |]; [| reflexivity].
  destruct (thoughtHistory st) as [| first thoughts]; [contradiction |].
  rewrite (@progress_view_is_drawn first thoughts m); [reflexivity |].
  eapply Forall_impl; [| exact Hall]. intros t [H _]. exact H.
Qed.

(** A validated submission is enriched and appended; then the response
    follows, unless the branch table, the drawing of a progress bar or the
    tool statistics throw.  The store then keeps the thought, and of the
    branch and the statistics what was written before. *)
Lemma processThought_valid st input v :
  validateThoughtData input = inr v ->
  exists v',
    enrich st v = Some v'
    /\ enriched (metadata (promptContext st)) v v'
    /\ (processThought st input
        = (Success (respond (track (append st v') v') v'), track (append st v') v')
        \/ exists message st',
             processThought st input = (error_response message, st')
             /\ (st' = push_history st v' \/ st' = append st v'
                 \/ st' = track (append st v') v')).
Proof.
  intros Hv. destruct (enrich_fields st v) as [v' [He Hf]].
  exists v'. split; [exact He | split; [exact Hf |]].
  unfold processThought. rewrite Hv, He.
  destruct (branch_error st v') as [thrown |].
  { right. exists thrown, (push_history st v'). auto. }
  destruct (render_error (append st v') v') as [thrown |].
  { right. exists thrown, (append st v'). auto. }
  destruct (track_error (append st v') v') as [thrown |].
  { right. exists thrown, (track (append st v') v'). auto. }
  left. reflexivity.
Qed.

Lemma plain_branch st v : plain_names v = true -> branch_error st v = None.
Proof.
  unfold plain_names, branch_error, branch_of, reads_inherited.
  intros H. apply andb_true_iff in H. destruct H as [H _].
  apply negb_true_iff in H.
  destruct (truthy_num (branchFromThought v) && truthy_str (branchId v));
    [| reflexivity].
  destruct (branchId v) as [id |]; [| reflexivity].
  rewrite H. reflexivity.
Qed.

Lemma plain_tools t tools stats :
  forallb (fun tool => negb (is_inherited tool)) tools = true ->
  snd (track_tools t stats tools) = None.
Proof.
  revert stats. induction tools as [| tool rest IH]; intros stats H; [reflexivity |].
  cbn [forallb] in H. apply andb_true_iff in H. destruct H as [H1 H2].
  apply negb_true_iff in H1.
  cbn [track_tools]. unfold reads_inherited. rewrite H1. cbn [andb].
  apply IH, H2.
Qed.

Lemma plain_track st v : plain_names v = true -> track_error st v = None.
Proof.
  unfold plain_names, track_error, trackToolUsage.
  intros H. apply andb_true_iff in H. destruct H as [_ H].
  destruct (toolsUsed v) as [[| tool rest] |]; try reflexivity.
  apply plain_tools, H.
Qed.

Lemma enriched_plain m v v' :
  enriched m v v' -> plain_names v = true -> plain_names v' = true.
Proof.
  intros Hf. unfold plain_names. rewrite (en_branch_id Hf), (en_tools Hf). auto.
Qed.

Lemma processThought_invalid st input message :
  validateThoughtData input = inl message ->
  processThought st input = (error_response message, st).
Proof. intros Hv. unfold processThought. rewrite Hv. reflexivity. Qed.

Lemma gt_true a b : Num.gt a b = true -> (b < a)%Q.
Proof.
  unfold Num.gt. intros H. apply negb_true_iff in H.
  apply Qnot_le_lt. intros Hle. apply Qle_bool_iff in Hle. congruence.
Qed.

Lemma gt_false a b : Num.gt a b = false -> (a <= b)%Q.
Proof.
  unfold Num.gt. intros H. apply negb_false_iff in H.
  now apply Qle_bool_iff.
Qed.

Lemma raised_total_bounds v :
  (totalThoughts v <= raised_total v)%Q /\ (thoughtNumber v <= raised_total v)%Q.
Proof.
  unfold raised_total.
  destruct (Num.gt (thoughtNumber v) (totalThoughts v)) eqn:E.
  - apply gt_true in E. split; [apply Qlt_le_weak; assumption | apply Qle_refl].
  - apply gt_false in E. split; [apply Qle_refl | assumption].
Qed.

Lemma reported_total_bounds profile v :
  (raised_total v <= reported_total profile v)%Q
  /\ forall m, profile = Some m -> (recommended_count m <= reported_total profile v)%Q.
Proof.
  unfold reported_total. destruct profile as [m |].
  - destruct (Num.gt (recommended_count m) (raised_total v)) eqn:E.
    + apply gt_true in E. split; [apply Qlt_le_weak; assumption |].
      intros m' Hm. injection Hm as <-. apply Qle_refl.
    + apply gt_false in E. split; [apply Qle_refl |].
      intros m' Hm. injection Hm as <-. assumption.
  - split; [apply Qle_refl | discriminate].
Qed.

Lemma enriched_well_stored profile v v' :
  enriched profile v v' ->
  (0 < thoughtNumber v)%Q ->
  (forall a, promptAlignment v = Some a -> (0 <= a <= 10)%Q) ->
  plain_names v = true ->
  well_stored v'.
Proof.
  intros Hf Hpos Hfresh Hplain. split; [| apply (enriched_plain Hf Hplain)].
  unfold drawable.
  rewrite (en_number Hf), (en_total Hf), (en_alignment Hf).
  split; [exact Hpos |]. split.
  - destruct (raised_total_bounds v) as [_ H2].
    destruct (reported_total_bounds profile v) as [H3 _]. lra.
  - destruct profile as [m |]; [| exact Hfresh].
    intros a Ha. injection Ha as <-. apply alignment_score_bounds.
Qed.

Lemma validated_fresh input v :
  validateThoughtData input = inr v ->
  promptAlignment v = None /\ promptRelevance v = None /\ driftWarning v = None.
Proof.
  destruct input as [| | data]; try discriminate.
  unfold validateThoughtData.
  repeat match goal with
         | |- context [if ?c then inl _ else _] => destruct c
         end; try discriminate.
  intros H. injection H as <-. repeat split.
Qed.

(** On a store whose thoughts are well stored, a validated submission
    with a positive thought number and plain names succeeds and leaves such
    a store. *)
Lemma processThought_succeeds st input v :
  Forall well_stored (thoughtHistory st) ->
  validateThoughtData input = inr v ->
  (0 < thoughtNumber v)%Q ->
  plain_names v = true ->
  exists v',
    enriched (metadata (promptContext st)) v v'
    /\ processThought st input
       = (Success (respond (track (append st v') v') v'), track (append st v') v')
    /\ Forall well_stored (thoughtHistory (track (append st v') v')).
Proof.
  intros Hall Hv Hpos Hplain. destruct (enrich_fields st v) as [v' [He Hf]].
  destruct (validated_fresh input Hv) as [Hfresh _].
  assert (Hw : well_stored v').
  { apply (enriched_well_stored Hf Hpos); [| exact Hplain]. intros a Ha. congruence. }
  assert (Hall' : Forall well_stored (thoughtHistory (append st v'))).
  { rewrite append_history. apply Forall_app. split; [exact Hall |].
    constructor; [exact Hw | constructor]. }
  exists v'. split; [exact Hf |]. split; [| exact Hall'].
  unfold processThought. rewrite Hv, He.
  rewrite (plain_branch st _ (enriched_plain Hf Hplain)).
  rewrite render_without_error; [| | exact Hall' | exact Hw].
  { rewrite (plain_track _ _ (enriched_plain Hf Hplain)). reflexivity. }
  rewrite append_history. intros E. apply app_eq_nil in E. destruct E; discriminate.
Qed.

Lemma processThought_promptContext st input :
  promptContext (snd (processThought st input)) = promptContext st.
Proof.
  destruct (validateThoughtData input) as [message | v] eqn:Hv.
  - rewrite (processThought_invalid st input Hv). reflexivity.
  - destruct (processThought_valid st input Hv)
      as [v' [_ [_ [Hp | [message [st' [Hp [-> | [-> | ->]]]]]]]]];
      rewrite Hp; reflexivity.
Qed.

(** C2. The total that the response to a validated submission reports is
    the submitted total, raised to the submitted thought number when that
    is larger, then raised to the recommended thought count when a prompt
    profile exists and recommends more.  So it is never below the submitted
    total, the thought number or the recommendation: within one submission
    the total is only raised.  It is a function of the submission and the
    profile alone; and a submission with a positive thought number, whose
    branch and tools are not named like inherited members, to a store of
    well-stored thoughts does get such a response. *)
Theorem total_is_raised_within_a_submission (st : ServerState) (input : Input)
        (v : ThoughtData) :
  validateThoughtData input = inr v ->
  (forall body st',
      processThought st input = (Success body, st') ->
      r_totalThoughts body = reported_total (metadata (promptContext st)) v)
  /\ (totalThoughts v <= raised_total v)%Q
  /\ (thoughtNumber v <= raised_total v)%Q
  /\ (raised_total v <= reported_total (metadata (promptContext st)) v)%Q
  /\ (forall m, metadata (promptContext st) = Some m ->
                (recommended_count m <= reported_total (metadata (promptContext st)) v)%Q)
  /\ (Forall well_stored (thoughtHistory st) -> (0 < thoughtNumber v)%Q ->
      plain_names v = true ->
      exists body st', processThought st input = (Success body, st')).
Proof.
  intros Hv.
  destruct (raised_total_bounds v) as [H1 H2].
  destruct (reported_total_bounds (metadata (promptContext st)) v) as [H3 H4].
  repeat split; try assumption.
  - intros body st' Hrun.
    destruct (processThought_valid st input Hv)
      as [v' [_ [Hf [Hp | [message [st0 [Hp _]]]]]]];
      rewrite Hp in Hrun; [| discriminate].
    injection Hrun as <- _. cbn [respond r_totalThoughts]. apply (en_total Hf).
  - intros Hall Hpos Hplain.
    destruct (processThought_succeeds st input Hall Hv Hpos Hplain) as [v' [_ [Hp _]]].
    eauto.
Qed.

Lemma total_is_raised_within_a_submission_witness :
  validateThoughtData (submission "Sort the list" 4 2) = inr (bare "Sort the list" 4 2)
  /\ exists body st',
       processThought initial (submission "Sort the list" 4 2) = (Success body, st')
       /\ r_totalThoughts body = 4%Q.
Proof.
  split; [reflexivity |].
  destruct (@total_is_raised_within_a_submission initial
              (submission "Sort the list" 4 2) (bare "Sort the list" 4 2) eq_refl)
    as [Hbody [_ [_ [_ [_ Hrun]]]]].
  destruct (Hrun (Forall_nil _) eq_refl eq_refl) as [body [st' E]].
  exists body, st'. split; [exact E |].
  rewrite (Hbody body st' E). reflexivity.
Defined.

(** C5, as stated, fails: the thought "?" of a session whose profile was
    made from "?" gets a drift warning (its alignment score is 1), while
    the drift score of the formula is 0 and not above 0.55. *)
Lemma drift_warning_with_drift_score_zero :
  exists v',
    enrich (snd (initializePromptContext initial (JStr "?"))) (bare "?" 1 1) = Some v'
    /\ driftWarning v' <> None
    /\ ~ drift_score_exceeds v' (PromptAnalyzer.analyzePrompt "?").
Proof.
  destruct (enrich_fields (snd (initializePromptContext initial (JStr "?")))
                          (bare "?" 1 1)) as [v' [He Hf]].
  exists v'. split; [exact He |]. split.
  - rewrite (en_drift Hf).
    change (metadata (promptContext (snd (initializePromptContext initial (JStr "?")))))
      with (Some (PromptAnalyzer.analyzePrompt "?")).
    vm_compute. discriminate.
  - intros [score [E H]]. rewrite drift_score_without_aspects in E.
    injection E as <-. lra.
Qed.

(** C5, amended.  The alignment score attached to a thought lies between 0
    and 10, and the drift warning is attached if and only if that score is
    below 4.  A drift score above 0.55 is what sets the drift flag of the
    topic-drift detection of the semantic analyzer, which [processThought]
    does not consult. *)
Theorem alignment_in_range_and_warning_below_four (st : ServerState) (v : ThoughtData) :
  exists v',
    enrich st v = Some v'
    /\ (forall m, metadata (promptContext st) = Some m ->
          promptAlignment v' = Some (PromptAnalyzer.calculateAlignmentScore (thought v) m)
          /\ (0 <= PromptAnalyzer.calculateAlignmentScore (thought v) m <= 10)%Q
          /\ (driftWarning v' <> None
              <-> (PromptAnalyzer.calculateAlignmentScore (thought v) m < 4)%Q))
    /\ (forall t m,
          SemanticAnalyzer.td_hasDrift (SemanticAnalyzer.detectTopicDrift t m) = true
          <-> drift_score_exceeds t m).
Proof.
  destruct (enrich_fields st v) as [v' [He Hf]].
  exists v'. split; [exact He |]. split; [| apply hasDrift_iff].
  intros m Hm. rewrite (en_alignment Hf), (en_drift Hf), Hm.
  split; [reflexivity |]. split; [apply alignment_score_bounds |].
  rewrite drift_warning_iff. apply lt_true.
Qed.

Lemma alignment_in_range_and_warning_below_four_witness :
  exists v',
    enrich (snd (initializePromptContext initial (JStr "Plan the trip")))
           (bare "Book a train to the coast" 2 5) = Some v'
    /\ promptAlignment v' = Some 1%Q
    /\ driftWarning v' <> None.
Proof.
  destruct (alignment_in_range_and_warning_below_four
              (snd (initializePromptContext initial (JStr "Plan the trip")))
              (bare "Book a train to the coast" 2 5)) as [v' [He [H _]]].
  exists v'. split; [exact He |].
  destruct (H (PromptAnalyzer.analyzePrompt "Plan the trip") eq_refl) as [Ha [_ Hd]].
  split.
  - rewrite Ha. vm_compute. reflexivity.
  - apply Hd. vm_compute. reflexivity.
Defined.

End Submission.

(* ------------------------------------------------------------------------- *)
(** ** The tool-call handler and the prompt profile                           *)
(* ------------------------------------------------------------------------- *)

Section Handler.

Import JS SequentialThinkingServer Properties.
Local Open Scope string_scope.

Lemma callTool_other_number st input :
  numbered_one input = false ->
  callTool st tool input
  = (Returned (fst (processThought st input)), snd (processThought st input)).
Proof.
  intros H. unfold callTool, tool. cbn [String.eqb Ascii.eqb Bool.eqb].
  rewrite H. destruct (processThought st input). reflexivity.
Qed.

Lemma callTool_numbered_one st input s :
  numbered_one input = true ->
  thought_member input = JStr s ->
  callTool st tool input
  = (Returned (fst (processThought (snd (initializePromptContext st (JStr s))) input)),
     snd (processThought (snd (initializePromptContext st (JStr s))) input)).
Proof.
  intros H Hs. unfold callTool, tool. cbn [String.eqb Ascii.eqb Bool.eqb].
  rewrite H, Hs. cbn [initializePromptContext snd].
  match goal with |- context [processThought ?a ?b] => destruct (processThought a b) end.
  reflexivity.
Qed.

Lemma initialize_metadata st s :
  metadata (promptContext (snd (initializePromptContext st (JStr s))))
  = Some (PromptAnalyzer.analyzePrompt s).
Proof. reflexivity. Qed.

Lemma callTool_promptContext_other st input :
  numbered_one input = false ->
  promptContext (snd (callTool st tool input)) = promptContext st.
Proof.
  intros H. rewrite (callTool_other_number st input H).
  cbn [snd]. apply processThought_promptContext.
Qed.

Lemma callTool_metadata_one st input s :
  numbered_one input = true ->
  thought_member input = JStr s ->
  metadata (promptContext (snd (callTool st tool input)))
  = Some (PromptAnalyzer.analyzePrompt s).
Proof.
  intros H Hs. rewrite (callTool_numbered_one st input H Hs).
  cbn [snd]. rewrite processThought_promptContext. reflexivity.
Qed.

(** C2, as stated, fails: a store answers a first thought submitted with a
    total of 20 by the total 20, and the second thought, submitted with a
    total of 3, by the total 5 (the recommended count). *)
Lemma reported_total_decreases_across_submissions :
  exists b1 st1 b2 st2,
    callTool initial tool (submission "Plan the trip" 1 20) = (Returned (Success b1), st1)
    /\ callTool st1 tool (submission "Book the hotel" 2 3) = (Returned (Success b2), st2)
    /\ (r_totalThoughts b2 < r_totalThoughts b1)%Q.
Proof.
  pose (s0 := snd (initializePromptContext initial (JStr "Plan the trip"))).
  destruct (@processThought_succeeds s0 (submission "Plan the trip" 1 20)
              (bare "Plan the trip" 1 20) (Forall_nil _) eq_refl eq_refl eq_refl)
    as [v1 [F1 [P1 W1]]].
  pose (s1 := track (append s0 v1) v1).
  destruct (@processThought_succeeds s1 (submission "Book the hotel" 2 3)
              (bare "Book the hotel" 2 3) W1 eq_refl eq_refl eq_refl)
    as [v2 [F2 [P2 _]]].
  exists (respond s1 v1), s1, (respond (track (append s1 v2) v2) v2),
         (track (append s1 v2) v2).
  split; [| split].
  - rewrite (@callTool_numbered_one initial (submission "Plan the trip" 1 20)
               "Plan the trip" eq_refl eq_refl).
    fold s0. rewrite P1. reflexivity.
  - rewrite (@callTool_other_number s1 (submission "Book the hotel" 2 3) eq_refl).
    rewrite P2. reflexivity.
  - cbn [respond r_totalThoughts].
    rewrite (en_total F1), (en_total F2).
    change (metadata (promptContext s1))
      with (Some (PromptAnalyzer.analyzePrompt "Plan the trip")).
    change (metadata (promptContext s0))
      with (Some (PromptAnalyzer.analyzePrompt "Plan the trip")).
    vm_compute. reflexivity.
Qed.

(** C7, as stated, fails: a later submission numbered 1 replaces the
    profile; the one made from the first text has priority [high] and task
    type [creative], the one that replaces it [low] and [informational]. *)
Lemma later_submission_numbered_one_replaces_profile :
  exists r1 st1 r2 st2 m1 m2,
    callTool initial tool
      (submission "I must write a Python script that parses CSV files. Urgent." 1 5)
    = (r1, st1)
    /\ callTool st1 tool (submission "Explain how tides work" 1 5) = (r2, st2)
    /\ metadata (promptContext st1) = Some m1
    /\ metadata (promptContext st2) = Some m2
    /\ goals m1 <> goals m2
    /\ keywords m1 <> keywords m2
    /\ priority m1 <> priority m2
    /\ taskType m1 <> taskType m2.
Proof.
  pose (a := submission "I must write a Python script that parses CSV files. Urgent." 1 5).
  pose (b := submission "Explain how tides work" 1 5).
  exists (fst (callTool initial tool a)), (snd (callTool initial tool a)).
  exists (fst (callTool (snd (callTool initial tool a)) tool b)),
         (snd (callTool (snd (callTool initial tool a)) tool b)).
  exists (PromptAnalyzer.analyzePrompt
            "I must write a Python script that parses CSV files. Urgent.").
  exists (PromptAnalyzer.analyzePrompt "Explain how tides work").
  split; [apply surjective_pairing |].
  split; [apply surjective_pairing |].
  split; [apply (@callTool_metadata_one initial a _ eq_refl eq_refl) |].
  split; [apply (@callTool_metadata_one (snd (callTool initial tool a)) b _
                   eq_refl eq_refl) |].
  repeat split; vm_compute; discriminate.
Qed.

(** C7, amended.  The stored profile changes only in tool calls whose
    thought number is 1: [processThought] never changes it, a call with
    another thought number leaves it as it is, and a call numbered 1 whose
    thought is a string replaces it by the analysis of that text, whatever
    profile was stored before. *)
Theorem profile_changes_only_in_calls_numbered_one (st : ServerState) (input : Input) :
  promptContext (snd (processThought st input)) = promptContext st
  /\ (numbered_one input = false ->
      promptContext (snd (callTool st tool input)) = promptContext st)
  /\ (forall s, numbered_one input = true -> thought_member input = JStr s ->
      metadata (promptContext (snd (callTool st tool input)))
      = Some (PromptAnalyzer.analyzePrompt s)).
Proof.
  split; [apply processThought_promptContext |].
  split; [apply callTool_promptContext_other |].
  intros s. apply callTool_metadata_one.
Qed.

Lemma profile_changes_only_in_calls_numbered_one_witness :
  (numbered_one (submission "Book the hotel" 2 3) = false
   /\ promptContext (snd (callTool initial tool (submission "Book the hotel" 2 3)))
      = promptContext initial)
  /\ (numbered_one (submission "Plan the trip" 1 20) = true
      /\ thought_member (submission "Plan the trip" 1 20) = JStr "Plan the trip"
      /\ metadata (promptContext (snd (callTool initial tool
                                         (submission "Plan the trip" 1 20))))
         = Some (PromptAnalyzer.analyzePrompt "Plan the trip")).
Proof.
  split.
  - split; [reflexivity |].
    apply (proj1 (proj2 (profile_changes_only_in_calls_numbered_one
                           initial (submission "Book the hotel" 2 3)))).
    reflexivity.
  - split; [reflexivity | split; [reflexivity |]].
    apply (proj2 (proj2 (profile_changes_only_in_calls_numbered_one
                           initial (submission "Plan the trip" 1 20)))).
    + reflexivity.
    + reflexivity.
Defined.

End Handler.

(* ------------------------------------------------------------------------- *)
(** ** The default phase                                                      *)
(* ------------------------------------------------------------------------- *)

Section DefaultPhase.

Import JS SequentialThinkingServer Properties.
Local Open Scope string_scope.

Lemma validate_with_phase data p :
  validateThoughtData (InMembers (with_phase data p))
  = match validateThoughtData (InMembers data) with
    | inl message => inl message
    | inr v => inr (set_phase v p)
    end.
Proof.
  unfold validateThoughtData. cbn [with_phase in_thought in_thoughtNumber
    in_totalThoughts in_nextThoughtNeeded in_isRevision in_revisesThought
    in_branchFromThought in_branchId in_needsMoreThoughts in_phase in_dependencies
    in_toolsUsed in_complexity in_status in_quality in_keywords in_insightValue
    in_classification in_confidenceScore in_evidenceStrength].
  repeat match goal with
         | |- context [if ?c then inl _ else _] => destruct c
         end; reflexivity.
Qed.

Lemma validated_phase data v :
  validateThoughtData (InMembers data) = inr v ->
  phase v = in_phase data /\ in_thoughtNumber data = JNum (thoughtNumber v).
Proof.
  unfold validateThoughtData.
  destruct (in_thought data) as [| | [|] | ? | [| ? ?] |];
    simpl; rewrite ?orb_true_r; try discriminate.
  destruct (in_thoughtNumber data) as [| | [|] | n | ? |];
    simpl; rewrite ?orb_true_r; try discriminate.
  repeat match goal with
         | |- context [if ?c then inl _ else _] => destruct c
         end; try discriminate.
  intros H. injection H as <-. split; reflexivity.
Qed.

Lemma default_phase_given v p :
  step_default_phase (step_adjust_total (set_phase v (Some p)))
  = step_adjust_total (set_phase v (Some p)).
Proof.
  unfold step_default_phase, step_adjust_total. thought_fields.
  destruct (Num.gt (thoughtNumber v) (totalThoughts v)); reflexivity.
Qed.

Lemma default_phase_omitted v :
  phase v = None ->
  step_default_phase (step_adjust_total v)
  = step_adjust_total (set_phase v (Some (phase_or_default v))).
Proof.
  intros H. unfold step_default_phase, step_adjust_total, phase_or_default.
  rewrite H.
  destruct v. cbn in H. subst. thought_fields.
  destruct (Num.gt thoughtNumber0 totalThoughts0); reflexivity.
Qed.

Lemma enrich_omitted_phase st v :
  phase v = None ->
  enrich st v = enrich st (set_phase v (Some (phase_or_default v))).
Proof.
  intros H. unfold enrich. cbv zeta.
  rewrite default_phase_given, (default_phase_omitted v H). reflexivity.
Qed.

(** C10. A submission without the member [phase] is processed exactly as
    the same submission with the phase given: [Planning] when its thought
    number is 1 and [Execution] for every other thought number.  When the
    submission passes the validation the phase is assigned before the
    analyses run: the analysed thought is computed from the record with that
    phase, it carries the phase, and the call appends it to the history
    whether or not a later step throws.  On a well-stored history, with a
    positive thought number and plain names, the call succeeds and the
    response reports the same phase. *)
Theorem omitted_phase_is_defaulted_first (st : ServerState) (data : RawThought) :
  in_phase data = None ->
  processThought st (InMembers data)
  = processThought st (InMembers (with_phase data (Some (phase_for data))))
  /\ (forall body st',
        processThought st (InMembers data) = (Success body, st') ->
        r_phase body = Some (phase_for data)
        /\ exists v', thoughtHistory st' = (thoughtHistory st ++ [v'])%list
                      /\ phase v' = Some (phase_for data))
  /\ (forall q, in_thoughtNumber data = JNum q ->
        phase_for data = if Qeq_bool q 1 then Planning else Execution)
  /\ (forall v, validateThoughtData (InMembers data) = inr v ->
        let assigned := if Qeq_bool (thoughtNumber v) 1 then Planning else Execution in
        exists v',
          enrich st (set_phase v (Some assigned)) = Some v'
          /\ phase v' = Some assigned
          /\ thoughtHistory (snd (processThought st (InMembers data)))
             = (thoughtHistory st ++ [v'])%list
          /\ (Forall well_stored (thoughtHistory st) ->
              (0 < thoughtNumber v)%Q -> plain_names v = true ->
              exists body,
                fst (processThought st (InMembers data)) = Success body
                /\ r_phase body = Some assigned)).
Proof.
  intros Hnone. split; [| split; [| split]].
  - unfold processThought. rewrite validate_with_phase.
    destruct (validateThoughtData (InMembers data)) as [message | v] eqn:Hv.
    + reflexivity.
    + destruct (validated_phase data Hv) as [Hp Hn].
      assert (Hd : phase_for data = phase_or_default v).
      { unfold phase_for, phase_or_default. rewrite Hn, Hp, Hnone. reflexivity. }
      rewrite Hd, (enrich_omitted_phase st v) by congruence. reflexivity.
  - intros body st' Hrun.
    destruct (validateThoughtData (InMembers data)) as [message | v] eqn:Hv.
    + rewrite (processThought_invalid st _ Hv) in Hrun. discriminate.
    + destruct (processThought_valid st _ Hv)
        as [v' [_ [Hf [Hp | [message [st0 [Hp _]]]]]]];
        rewrite Hp in Hrun; [| discriminate].
      injection Hrun as <- <-.
      destruct (validated_phase data Hv) as [Hph Hn].
      assert (Hd : phase_for data = phase_or_default v).
      { unfold phase_for, phase_or_default. rewrite Hn, Hph, Hnone. reflexivity. }
      rewrite Hd. cbn [respond r_phase]. split; [apply (en_phase Hf) |].
      exists v'. split; [reflexivity | apply (en_phase Hf)].
  - intros q Hq. unfold phase_for. rewrite Hq. reflexivity.
  - intros v Hv. cbv zeta.
    destruct (validated_phase data Hv) as [Hph Hn].
    assert (Homitted : phase v = None) by congruence.
    assert (Hd : (if Qeq_bool (thoughtNumber v) 1 then Planning else Execution)
                 = phase_or_default v).
    { unfold phase_or_default. rewrite Homitted. reflexivity. }
    destruct (processThought_valid st _ Hv) as [v' [He [Hf Hrun]]].
    exists v'. rewrite Hd. split; [| split; [| split]].
    + rewrite <- (enrich_omitted_phase st v Homitted). exact He.
    + apply (en_phase Hf).
    + destruct Hrun as [Hp | [message [st' [Hp [-> | [-> | ->]]]]]];
        rewrite Hp; reflexivity.
    + intros Hall Hpos Hplain.
      destruct (@processThought_succeeds st _ v Hall Hv Hpos Hplain)
        as [v'' [Hf' [Hp _]]].
      rewrite Hp. eexists. split; [reflexivity |].
      cbn [respond r_phase]. apply (en_phase Hf').
Qed.

Lemma omitted_phase_is_defaulted_first_witness :
  in_phase (required_only (JStr "Sort the list") (JNum 1) (JNum 3) (JBool true)) = None
  /\ processThought initial (submission "Sort the list" 1 3)
     = processThought initial
         (InMembers (with_phase
                       (required_only (JStr "Sort the list") (JNum 1) (JNum 3) (JBool true))
                       (Some Planning)))
  /\ exists v',
       phase v' = Some Planning
       /\ thoughtHistory (snd (processThought initial (submission "Sort the list" 1 3)))
          = [v']
       /\ exists body,
            fst (processThought initial (submission "Sort the list" 1 3)) = Success body
            /\ r_phase body = Some Planning.
Proof.
  destruct (@omitted_phase_is_defaulted_first initial
              (required_only (JStr "Sort the list") (JNum 1) (JNum 3) (JBool true))
              eq_refl) as [Hsame [_ [_ Hstored]]].
  destruct (Hstored (bare "Sort the list" 1 3) eq_refl)
    as [v' [_ [Hphase [Hhistory Hsuccess]]]].
  split; [reflexivity |]. split; [exact Hsame |].
  exists v'. split; [exact Hphase |]. split; [exact Hhistory |].
  apply Hsuccess; [constructor | reflexivity | reflexivity].
Defined.

End DefaultPhase.

(* ------------------------------------------------------------------------- *)
(** ** The store only grows                                                   *)
(* ------------------------------------------------------------------------- *)

Section Frame.

Import JS SequentialThinkingServer Properties.
Local Open Scope string_scope.





End Frame.

(* ------------------------------------------------------------------------- *)
(** ** Scenario A                                                             *)
(* ------------------------------------------------------------------------- *)

Section ScenarioA.

Import JS SequentialThinkingServer Properties.
Local Open Scope string_scope.

Lemma scenario_A_session_profile :
  metadata (promptContext (snd (callTool initial tool (submission scenario_A 1 5))))
  = Some (PromptAnalyzer.analyzePrompt scenario_A).
Proof.
  apply (@callTool_metadata_one initial (submission scenario_A 1 5) scenario_A);
    reflexivity.
Qed.

(** C6, as stated, fails: the profile derived from the text of scenario A
    does not have the task type [technical]. *)
Lemma scenario_A_is_not_technical :
  exists m,
    metadata (promptContext (snd (callTool initial tool (submission scenario_A 1 5))))
    = Some m
    /\ taskType m <> technical.
Proof.
  exists (PromptAnalyzer.analyzePrompt scenario_A).
  split; [apply scenario_A_session_profile |].
  vm_compute. discriminate.
Qed.

(** C6, amended.  The profile derived from the first thought of scenario A
    has the task type [creative]: the text contains one creative indicator
    ("write") and no technical indicator.  Its priority is [high] and its
    constraints are the one sentence with "must". *)
Theorem scenario_A_profile :
  exists m,
    metadata (promptContext (snd (callTool initial tool (submission scenario_A 1 5))))
    = Some m
    /\ taskType m = creative
    /\ PromptAnalyzer.count_matches (toLowerCase scenario_A)
         PromptAnalyzer.creativeIndicators = 1%nat
    /\ PromptAnalyzer.count_matches (toLowerCase scenario_A)
         PromptAnalyzer.technicalIndicators = 0%nat
    /\ priority m = high
    /\ constraints m = ["I must write a Python script that parses CSV files"]
    /\ constraints m <> [].
Proof.
  exists (PromptAnalyzer.analyzePrompt scenario_A).
  split; [apply scenario_A_session_profile |].
  repeat split; try (vm_compute; reflexivity).
  vm_compute. discriminate.
Qed.

End ScenarioA.

(* ------------------------------------------------------------------------- *)
(** ** Revisions and contradictions                                           *)
(* ------------------------------------------------------------------------- *)

Section Revisions.

Import JS Properties ContradictionDetector.
Local Open Scope string_scope.

Lemma check_existing_revision newThought e :
  is_revision e = true -> check_existing newThought e = None.
Proof.
  unfold is_revision, check_existing. intros ->. reflexivity.
Qed.

Lemma check_existing_source newThought e d :
  check_existing newThought e = Some d ->
  is_revision e = false /\ c_thoughtNumber d = thoughtNumber e.
Proof.
  unfold check_existing, is_revision.
  destruct (truthy_bool (isRevision e)); cbn [orb]; [discriminate |].
  destruct (Qeq_bool (thoughtNumber e) (thoughtNumber newThought)); [discriminate |].
  destruct (detectContradiction newThought e) as [text |]; [| discriminate].
  destruct (truthy_str (Some text)); [| discriminate].
  intros H. injection H as <-. split; reflexivity.
Qed.

Lemma collect_in {A B} (f : A -> option B) l y :
  In y (collect f l) -> exists x, In x l /\ f x = Some y.
Proof.
  induction l as [| x l IH]; cbn [collect]; [intros [] |].
  destruct (f x) as [y' |] eqn:E.
  - intros [<- | H].
    + exists x. split; [left; reflexivity | exact E].
    + destruct (IH H) as [x' [Hin Hx']]. exists x'. split; [right; exact Hin | exact Hx'].
  - intros H. destruct (IH H) as [x' [Hin Hx']].
    exists x'. split; [right; exact Hin | exact Hx'].
Qed.

Lemma collect_skips {A B} (f : A -> option B) (keep : A -> bool) l :
  (forall x, keep x = false -> f x = None) ->
  collect f l = collect f (filter keep l).
Proof.
  intros Hskip. induction l as [| x l IH]; cbn [collect filter]; [reflexivity |].
  destruct (keep x) eqn:E.
  - cbn [collect]. rewrite IH. reflexivity.
  - rewrite (Hskip x E). exact IH.
Qed.

(** C3. A new thought that is a revision yields no contradiction at all.
    Every contradiction that is reported comes from an existing thought
    that is not a revision and carries the number of that thought; and the
    existing revisions have no influence on the report: the check returns
    what it returns once they are removed from the existing thoughts. *)
Theorem revisions_take_no_part_in_contradictions
        (newThought : ThoughtData) (existingThoughts : list ThoughtData) :
  (is_revision newThought = true ->
   checkContradictions newThought existingThoughts
   = {| hasContradictions := false; details := [] |})
  /\ (forall d, In d (details (checkContradictions newThought existingThoughts)) ->
        exists e, In e existingThoughts
                  /\ is_revision e = false
                  /\ check_existing newThought e = Some d
                  /\ c_thoughtNumber d = thoughtNumber e)
  /\ checkContradictions newThought existingThoughts
     = checkContradictions newThought
         (filter (fun e => negb (is_revision e)) existingThoughts).
Proof.
  unfold checkContradictions, is_revision. split; [| split].
  - intros ->. reflexivity.
  - destruct (truthy_bool (isRevision newThought)); cbn [details]; [intros d [] |].
    intros d Hd. destruct (collect_in _ _ _ Hd) as [e [Hin He]].
    destruct (check_existing_source _ _ He) as [Hr Hn].
    exists e. repeat split; assumption.
  - destruct (truthy_bool (isRevision newThought)); [reflexivity |].
    rewrite <- (collect_skips (check_existing newThought)
                              (fun e => negb (truthy_bool (isRevision e)))).
    + reflexivity.
    + intros e He. apply negb_false_iff in He.
      apply check_existing_revision. exact He.
Qed.

Lemma revisions_take_no_part_in_contradictions_witness :
  is_revision (as_revision (bare "It never rains" 2 3)) = true
  /\ checkContradictions (as_revision (bare "It never rains" 2 3))
                         [bare "It rains" 1 3]
     = {| hasContradictions := false; details := [] |}.
Proof.
  split; [reflexivity |].
  apply (proj1 (revisions_take_no_part_in_contradictions
                  (as_revision (bare "It never rains" 2 3)) [bare "It rains" 1 3])).
  reflexivity.
Defined.

End Revisions.

(* ------------------------------------------------------------------------- *)
(** ** The similarity of two thoughts, in exact arithmetic                     *)
(* ------------------------------------------------------------------------- *)

Section Similarity.

Import JS Natural SemanticAnalyzer Properties.
Local Open Scope string_scope.
Local Open Scope R_scope.

Lemma RNum_eqb_true x y : RNum.eqb x y = true <-> x = y.
Proof. unfold RNum.eqb. destruct (Req_dec_T x y); split; intros; congruence. Qed.

Lemma RNum_eqb_false x y : RNum.eqb x y = false <-> x <> y.
Proof. unfold RNum.eqb. destruct (Req_dec_T x y); split; intros; congruence. Qed.

Lemma total_over_fold {A} (f : A -> R) l a :
  fold_left (fun acc x => acc + f x) l a = a + total_over f l.
Proof.
  revert a. induction l as [| x l IH]; intros a; cbn [fold_left total_over fold_right].
  - lra.
  - rewrite IH. fold (total_over f l). lra.
Qed.

Lemma total_over_perm {A} (f : A -> R) l l' :
  Permutation l l' -> total_over f l = total_over f l'.
Proof.
  unfold total_over.
  induction 1 as [| x l l' _ IH | x y l | l l' l'' _ IH1 _ IH2]; cbn [fold_right].
  - reflexivity.
  - rewrite IH. reflexivity.
  - lra.
  - congruence.
Qed.

Lemma total_over_ext {A} (f g : A -> R) l :
  (forall x, In x l -> f x = g x) -> total_over f l = total_over g l.
Proof.
  induction l as [| x l IH]; intros H; cbn [total_over fold_right]; [reflexivity |].
  fold (total_over f l) (total_over g l).
  rewrite (H x (or_introl eq_refl)), IH; [reflexivity |].
  intros y Hy. apply H. right. exact Hy.
Qed.

Lemma total_over_nonneg {A} (f : A -> R) l :
  (forall x, In x l -> 0 <= f x) -> 0 <= total_over f l.
Proof.
  induction l as [| x l IH]; intros H; cbn [total_over fold_right]; [lra |].
  fold (total_over f l).
  assert (0 <= f x) by (apply H; left; reflexivity).
  assert (0 <= total_over f l) by (apply IH; intros y Hy; apply H; right; exact Hy).
  lra.
Qed.

Lemma total_over_pos {A} (f : A -> R) l x :
  (forall y, In y l -> 0 <= f y) -> In x l -> 0 < f x -> 0 < total_over f l.
Proof.
  induction l as [| y l IH]; intros H Hin Hx; [destruct Hin |].
  cbn [total_over fold_right]. fold (total_over f l).
  assert (0 <= f y) by (apply H; left; reflexivity).
  assert (0 <= total_over f l).
  { apply total_over_nonneg. intros z Hz. apply H. right. exact Hz. }
  destruct Hin as [-> | Hin]; [lra |].
  assert (0 < total_over f l); [| lra].
  apply IH; [| exact Hin | exact Hx]. intros z Hz. apply H. right. exact Hz.
Qed.

(** The dot product of two vectors, entry by entry. *)
Lemma dot_fold (v w : list R) a :
  fold_left (fun sum p => sum + fst p * snd p) (combine v w) a
  = fold_left (fun sum p => sum + fst p * snd p) (combine w v) a.
Proof.
  revert w a. induction v as [| x v IH]; intros [| y w] a; cbn [combine fold_left fst snd];
    try reflexivity.
  rewrite IH. f_equal. lra.
Qed.

Lemma cosineSimilarity_sym v w : cosineSimilarity v w = cosineSimilarity w v.
Proof.
  unfold cosineSimilarity. rewrite (Nat.eqb_sym (List.length v)).
  destruct (negb (List.length w =? List.length v)%nat); [reflexivity |].
  rewrite (orb_comm (RNum.eqb (magnitude v) 0)).
  destruct (RNum.eqb (magnitude w) 0 || RNum.eqb (magnitude v) 0); [reflexivity |].
  rewrite dot_fold, (Rmult_comm (magnitude v)). reflexivity.
Qed.

Lemma jaccardSimilarity_sym s t : jaccardSimilarity s t = jaccardSimilarity t s.
Proof.
  unfold jaccardSimilarity.
  assert (Hu : List.length (dedup (s ++ t)) = List.length (dedup (t ++ s))).
  { apply same_members_same_length; try apply dedup_NoDup.
    intros x. rewrite !dedup_In, !in_app_iff. tauto. }
  assert (Hi : List.length (dedup (filter (fun x => mem x t) s))
               = List.length (dedup (filter (fun x => mem x s) t))).
  { apply same_members_same_length; try apply dedup_NoDup.
    intros x. rewrite !dedup_In, !filter_In, !mem_In. tauto. }
  rewrite Hu, Hi. reflexivity.
Qed.


(** *** The similarity of the TF-IDF vectors *)

Lemma assign_fold {V} (f : string -> V) l (o : dict V) :
  fold_left (fun o t => assign o t (f t)) l o
  = fold_left (fun o t => set o t (f t))
              (filter (fun t => negb (t =? "__proto__")) l) o.
Proof.
  revert o. induction l as [| t l IH]; intros o; cbn [fold_left filter]; [reflexivity |].
  unfold assign at 2. destruct (t =? "__proto__"); cbn [negb fold_left]; apply IH.
Qed.

Lemma triple_fold (f g h : string -> R) l a b c :
  fold_left (fun (st : R * R * R) term =>
               let '(x, y, z) := st in (x + f term, y + g term, z + h term)) l (a, b, c)
  = (a + total_over f l, b + total_over g l, c + total_over h l).
Proof.
  revert a b c. induction l as [| t l IH]; intros a b c;
    cbn [fold_left total_over fold_right].
  - f_equal; [f_equal |]; lra.
  - rewrite IH. fold (total_over f l) (total_over g l) (total_over h l).
    f_equal; [f_equal |]; lra.
Qed.

Lemma cosineSimilarityObjects_sums vec1 vec2 :
  cosineSimilarityObjects vec1 vec2
  = let K := keys (spread vec1 vec2) in
    let dot := total_over (fun k => entry_or_zero vec1 k * entry_or_zero vec2 k) K in
    let m1 := sqrt (total_over (fun k => entry_or_zero vec1 k * entry_or_zero vec1 k) K) in
    let m2 := sqrt (total_over (fun k => entry_or_zero vec2 k * entry_or_zero vec2 k) K) in
    if RNum.eqb m1 0 || RNum.eqb m2 0 then 0 else dot / (m1 * m2).
Proof.
  unfold cosineSimilarityObjects.
  rewrite (triple_fold (fun k => entry_or_zero vec1 k * entry_or_zero vec2 k)
                       (fun k => entry_or_zero vec1 k * entry_or_zero vec1 k)
                       (fun k => entry_or_zero vec2 k * entry_or_zero vec2 k)).
  cbv zeta. rewrite !Rplus_0_l. reflexivity.
Qed.

(** The vector of the scores of the terms in document [i]. *)
Lemma scores_entry (T : TfIdf) i terms k :
  entry_or_zero (fold_left (fun o term => assign o term (tfidf T term i)) terms []) k
  = if mem k terms && negb (k =? "__proto__") then RNum.or_zero (tfidf T k i) else 0.
Proof.
  unfold entry_or_zero. rewrite assign_fold, fill_get.
  destruct (mem k (filter _ terms)) eqn:E.
  - apply mem_In, filter_In in E. destruct E as [E1 E2].
    apply mem_In in E1. rewrite E1, E2. reflexivity.
  - cbn [get]. destruct (mem k terms && negb (k =? "__proto__")) eqn:E'; [| reflexivity].
    apply andb_true_iff in E'. destruct E' as [E1 E2].
    apply mem_false in E. exfalso. apply E. apply filter_In.
    split; [apply mem_In, E1 | exact E2].
Qed.

Lemma scores_keys_In (T : TfIdf) i terms k :
  In k (map fst (fold_left (fun o term => assign o term (tfidf T term i)) terms []))
  <-> In k terms /\ k <> "__proto__".
Proof.
  rewrite assign_fold, fill_keys_In, filter_In, negb_true_iff, String.eqb_neq.
  cbn [map In]. tauto.
Qed.

Lemma calculateTfidfSimilarity_sums text1 text2 K :
  NoDup K ->
  (forall k, In k K <-> (In k (tokenizeAndNormalize text1)
                         \/ In k (tokenizeAndNormalize text2)) /\ k <> "__proto__") ->
  calculateTfidfSimilarity text1 text2
  = let T := [split_ws (join " " (tokenizeAndNormalize text1));
              split_ws (join " " (tokenizeAndNormalize text2))] in
    let dot := total_over (fun k => RNum.or_zero (tfidf T k 0) * RNum.or_zero (tfidf T k 1)) K in
    let m1 := sqrt (total_over (fun k => RNum.or_zero (tfidf T k 0) * RNum.or_zero (tfidf T k 0)) K) in
    let m2 := sqrt (total_over (fun k => RNum.or_zero (tfidf T k 1) * RNum.or_zero (tfidf T k 1)) K) in
    if RNum.eqb m1 0 || RNum.eqb m2 0 then 0 else dot / (m1 * m2).
Proof.
  intros Hnd HK. unfold calculateTfidfSimilarity, addDocument_string.
  cbn [app]. cbv zeta.
  set (T := [split_ws (join " " (tokenizeAndNormalize text1));
             split_ws (join " " (tokenizeAndNormalize text2))]).
  set (terms := dedup (tokenizeAndNormalize text1 ++ tokenizeAndNormalize text2)).
  rewrite cosineSimilarityObjects_sums. cbv zeta.
  set (vec1 := fold_left (fun o term => assign o term (tfidf T term 0)) terms []).
  set (vec2 := fold_left (fun o term => assign o term (tfidf T term 1)) terms []).
  assert (HP : Permutation (keys (spread vec1 vec2)) K).
  { apply NoDup_Permutation; [apply spread_keys_NoDup | exact Hnd |].
    intros k. rewrite spread_keys_In, HK. unfold vec1, vec2.
    rewrite !scores_keys_In. unfold terms. rewrite dedup_In, in_app_iff. tauto. }
  assert (Hentry : forall i k, In k K ->
            entry_or_zero (fold_left (fun o term => assign o term (tfidf T term i)) terms []) k
            = RNum.or_zero (tfidf T k i)).
  { intros i k Hk. rewrite scores_entry. apply HK in Hk. destruct Hk as [Hk Hp].
    assert (E1 : mem k terms = true).
    { apply mem_In. unfold terms. rewrite dedup_In, in_app_iff. exact Hk. }
    apply String.eqb_neq in Hp. rewrite E1, Hp. reflexivity. }
  rewrite !(total_over_perm _ HP).
  rewrite (total_over_ext (fun k => entry_or_zero vec1 k * entry_or_zero vec2 k)
             (fun k => RNum.or_zero (tfidf T k 0) * RNum.or_zero (tfidf T k 1))).
  2:{ intros k Hk. unfold vec1, vec2. rewrite !(Hentry _ _ Hk). reflexivity. }
  rewrite (total_over_ext (fun k => entry_or_zero vec1 k * entry_or_zero vec1 k)
             (fun k => RNum.or_zero (tfidf T k 0) * RNum.or_zero (tfidf T k 0))).
  2:{ intros k Hk. unfold vec1. rewrite !(Hentry _ _ Hk). reflexivity. }
  rewrite (total_over_ext (fun k => entry_or_zero vec2 k * entry_or_zero vec2 k)
             (fun k => RNum.or_zero (tfidf T k 1) * RNum.or_zero (tfidf T k 1))).
  2:{ intros k Hk. unfold vec2. rewrite !(Hentry _ _ Hk). reflexivity. }
  reflexivity.
Qed.

(** A list of the keys that the two texts give to the vectors. *)
Lemma shared_terms text1 text2 :
  exists K, NoDup K
    /\ forall k, In k K <-> (In k (tokenizeAndNormalize text1)
                             \/ In k (tokenizeAndNormalize text2)) /\ k <> "__proto__".
Proof.
  exists (filter (fun t => negb (t =? "__proto__"))
                 (dedup (tokenizeAndNormalize text1 ++ tokenizeAndNormalize text2))).
  split; [apply NoDup_filter, dedup_NoDup |].
  intros k. rewrite filter_In, dedup_In, in_app_iff, negb_true_iff, String.eqb_neq.
  tauto.
Qed.

Lemma tfidf_swap (d1 d2 : list string) k :
  tfidf [d2; d1] k 0 = tfidf [d1; d2] k 1 /\ tfidf [d2; d1] k 1 = tfidf [d1; d2] k 0.
Proof.
  assert (E : document_frequency [d2; d1] k = document_frequency [d1; d2] k).
  { unfold document_frequency. cbn [filter].
    destruct (mem k d1), (mem k d2); reflexivity. }
  unfold tfidf. cbn [nth_error]. rewrite E. cbn [List.length]. split; reflexivity.
Qed.

Lemma calculateTfidfSimilarity_sym text1 text2 :
  calculateTfidfSimilarity text1 text2 = calculateTfidfSimilarity text2 text1.
Proof.
  destruct (shared_terms text1 text2) as [K [Hnd HK]].
  rewrite (calculateTfidfSimilarity_sums text1 text2 Hnd HK).
  rewrite (@calculateTfidfSimilarity_sums text2 text1 K Hnd).
  2:{ intros k. rewrite HK. tauto. }
  cbv zeta.
  set (d1 := split_ws (join " " (tokenizeAndNormalize text1))).
  set (d2 := split_ws (join " " (tokenizeAndNormalize text2))).
  rewrite (total_over_ext
             (fun k => RNum.or_zero (tfidf [d2; d1] k 0) * RNum.or_zero (tfidf [d2; d1] k 1))
             (fun k => RNum.or_zero (tfidf [d1; d2] k 0) * RNum.or_zero (tfidf [d1; d2] k 1))).
  2:{ intros k _. destruct (tfidf_swap d1 d2 k) as [-> ->]. lra. }
  rewrite (total_over_ext
             (fun k => RNum.or_zero (tfidf [d2; d1] k 0) * RNum.or_zero (tfidf [d2; d1] k 0))
             (fun k => RNum.or_zero (tfidf [d1; d2] k 1) * RNum.or_zero (tfidf [d1; d2] k 1))).
  2:{ intros k _. destruct (tfidf_swap d1 d2 k) as [-> _]. reflexivity. }
  rewrite (total_over_ext
             (fun k => RNum.or_zero (tfidf [d2; d1] k 1) * RNum.or_zero (tfidf [d2; d1] k 1))
             (fun k => RNum.or_zero (tfidf [d1; d2] k 0) * RNum.or_zero (tfidf [d1; d2] k 0))).
  2:{ intros k _. destruct (tfidf_swap d1 d2 k) as [_ ->]. reflexivity. }
  rewrite orb_comm, (Rmult_comm (sqrt _)). reflexivity.
Qed.

Lemma analyzeSemanticSimilarity_sym a b :
  analyzeSemanticSimilarity a b = analyzeSemanticSimilarity b a.
Proof.
  unfold analyzeSemanticSimilarity. cbv zeta.
  rewrite cosineSimilarity_sym, jaccardSimilarity_sym, calculateTfidfSimilarity_sym.
  reflexivity.
Qed.

Lemma magnitude_squares v : magnitude v = sqrt (total_over (fun x => x * x) v).
Proof. unfold magnitude. rewrite total_over_fold, Rplus_0_l. reflexivity. Qed.

Lemma magnitude_positive v : Exists (fun x => 0 < x) v -> 0 < magnitude v.
Proof.
  intros H. apply Exists_exists in H. destruct H as [x [Hin Hx]].
  rewrite magnitude_squares. apply sqrt_lt_R0.
  apply (@total_over_pos _ (fun x => x * x) v x); [intros y _; nra | exact Hin | nra].
Qed.

Lemma magnitude_nonneg v : 0 <= magnitude v.
Proof. rewrite magnitude_squares. apply sqrt_pos. Qed.

Lemma normalize_length v : List.length (normalize v) = List.length v.
Proof. unfold normalize. apply length_map. Qed.

Lemma normalize_nonneg v :
  Forall (fun x => 0 <= x) v -> Forall (fun x => 0 <= x) (normalize v).
Proof.
  intros H. unfold normalize. apply Forall_map.
  destruct (RNum.eqb (magnitude v) 0) eqn:E.
  - apply Forall_forall. intros x _. lra.
  - apply RNum_eqb_false in E. pose proof (magnitude_nonneg v) as Hm.
    eapply Forall_impl; [| exact H]. cbv beta. intros x Hx.
    unfold Rdiv. apply Rmult_le_pos; [exact Hx |].
    left. apply Rinv_0_lt_compat. lra.
Qed.

Lemma normalize_positive v :
  Exists (fun x => 0 < x) v -> Exists (fun x => 0 < x) (normalize v).
Proof.
  intros H. pose proof (magnitude_positive H) as Hm.
  unfold normalize. apply Exists_map.
  assert (E : RNum.eqb (magnitude v) 0 = false) by (apply RNum_eqb_false; lra).
  rewrite E. eapply Exists_impl; [| exact H]. cbv beta. intros x Hx.
  apply Rdiv_lt_0_compat; lra.
Qed.

Lemma add_at_length i x v : List.length (add_at i x v) = List.length v.
Proof.
  revert i. induction v as [| y v IH]; intros [| i]; cbn [add_at List.length];
    try reflexivity.
  rewrite IH. reflexivity.
Qed.

Lemma add_at_nonneg i x v :
  0 <= x -> Forall (fun x => 0 <= x) v -> Forall (fun x => 0 <= x) (add_at i x v).
Proof.
  intros Hx. revert i. induction v as [| y v IH]; intros i H; destruct i as [| i];
    cbn [add_at]; try constructor; inversion H; subst; try assumption.
  - lra.
  - apply IH. assumption.
Qed.

Lemma add_at_positive i x v :
  0 < x -> Forall (fun x => 0 <= x) v -> (i < List.length v)%nat ->
  Exists (fun x => 0 < x) (add_at i x v).
Proof.
  intros Hx. revert i. induction v as [| y v IH]; intros i H Hi;
    cbn [List.length] in Hi; [lia |].
  inversion H; subst. destruct i as [| i]; cbn [add_at].
  - apply Exists_cons_hd. lra.
  - apply Exists_cons_tl. apply IH; [assumption | lia].
Qed.

Lemma weight_positive i : 0 < 1 / (INR i + 1).
Proof.
  pose proof (pos_INR i). apply Rdiv_lt_0_compat; lra.
Qed.

Lemma hash_char_vector v i c :
  Forall (fun x => 0 <= x) v -> List.length v = vectorDimension ->
  Forall (fun x => 0 <= x) (hash_char v i c)
  /\ List.length (hash_char v i c) = vectorDimension
  /\ Exists (fun x => 0 < x) (hash_char v i c).
Proof.
  intros Hv Hl. pose proof (weight_positive i) as Hw.
  unfold hash_char, seedPrimes. cbn [fold_left fst snd].
  split; [| split].
  - repeat (apply add_at_nonneg; [lra |]). exact Hv.
  - rewrite !add_at_length. exact Hl.
  - apply add_at_positive; [exact Hw | |].
    + repeat (apply add_at_nonneg; [lra |]). exact Hv.
    + rewrite !add_at_length, Hl. apply Nat.mod_upper_bound.
      unfold vectorDimension. lia.
Qed.

Lemma hash_fold cs v i :
  Forall (fun x => 0 <= x) v -> List.length v = vectorDimension ->
  Forall (fun x => 0 <= x)
         (fst (fold_left (fun (st : list R * nat) c =>
                            let (v, i) := st in (hash_char v i c, S i)) cs (v, i)))
  /\ List.length
       (fst (fold_left (fun (st : list R * nat) c =>
                          let (v, i) := st in (hash_char v i c, S i)) cs (v, i)))
     = vectorDimension
  /\ (cs <> [] \/ Exists (fun x => 0 < x) v ->
      Exists (fun x => 0 < x)
             (fst (fold_left (fun (st : list R * nat) c =>
                                let (v, i) := st in (hash_char v i c, S i)) cs (v, i)))).
Proof.
  revert v i. induction cs as [| c cs IH]; intros v i Hv Hl; cbn [fold_left fst].
  - split; [exact Hv |]. split; [exact Hl |]. intros [H | H]; [congruence | exact H].
  - destruct (hash_char_vector i c Hv Hl) as [H1 [H2 H3]].
    destruct (IH (hash_char v i c) (S i) H1 H2) as [G1 [G2 G3]].
    split; [exact G1 |]. split; [exact G2 |]. intros _. apply G3. right. exact H3.
Qed.

Lemma zero_vector_nonneg : Forall (fun x => 0 <= x) zero_vector.
Proof.
  apply Forall_forall. intros x Hx. apply repeat_spec in Hx. lra.
Qed.

Lemma zero_vector_length : List.length zero_vector = vectorDimension.
Proof. apply repeat_length. Qed.

Lemma getWordVector_vector word :
  Forall (fun x => 0 <= x) (getWordVector word)
  /\ List.length (getWordVector word) = vectorDimension
  /\ (word <> "" -> Exists (fun x => 0 < x) (getWordVector word)).
Proof.
  unfold getWordVector, hash_word.
  destruct (hash_fold (chars word) 0 zero_vector_nonneg zero_vector_length)
    as [H1 [H2 H3]].
  split; [apply normalize_nonneg, H1 |].
  split; [rewrite normalize_length; exact H2 |].
  intros Hw. apply normalize_positive, H3. left.
  destruct word; [congruence | discriminate].
Qed.

Lemma add_vectors (v w : list R) :
  Forall (fun x => 0 <= x) v -> Forall (fun x => 0 <= x) w ->
  List.length v = List.length w ->
  Forall (fun x => 0 <= x) (map (fun p => fst p + snd p * 1) (combine v w))
  /\ List.length (map (fun p => fst p + snd p * 1) (combine v w)) = List.length v
  /\ (Exists (fun x => 0 < x) v \/ Exists (fun x => 0 < x) w ->
      Exists (fun x => 0 < x) (map (fun p => fst p + snd p * 1) (combine v w))).
Proof.
  revert w. induction v as [| x v IH]; intros [| y w] Hv Hw Hl;
    cbn [List.length] in Hl; try discriminate; cbn [combine map fst snd List.length].
  - split; [constructor |]. split; [reflexivity |].
    intros [H | H]; inversion H.
  - inversion Hv; subst. inversion Hw; subst.
    destruct (IH w) as [G1 [G2 G3]]; [assumption | assumption | lia |].
    split; [constructor; [lra | exact G1] |]. split; [rewrite G2; reflexivity |].
    intros [H | H]; inversion H; subst;
      solve [apply Exists_cons_hd; lra | apply Exists_cons_tl; apply G3; tauto].
Qed.

Lemma build_fold tokens vec n :
  Forall (fun x => 0 <= x) vec -> List.length vec = vectorDimension ->
  Forall (fun x => 0 <= x)
    (fst (fold_left
            (fun (st : list R * nat) token =>
               let (vector, wordCount) := st in
               (map (fun p => fst p + snd p * getIdfWeight token)
                    (combine vector (getWordVector token)), S wordCount))
            tokens (vec, n)))
  /\ snd (fold_left
            (fun (st : list R * nat) token =>
               let (vector, wordCount) := st in
               (map (fun p => fst p + snd p * getIdfWeight token)
                    (combine vector (getWordVector token)), S wordCount))
            tokens (vec, n)) = (n + List.length tokens)%nat
  /\ (Exists (fun x => 0 < x) vec \/ (exists token, In token tokens /\ token <> "") ->
      Exists (fun x => 0 < x)
        (fst (fold_left
                (fun (st : list R * nat) token =>
                   let (vector, wordCount) := st in
                   (map (fun p => fst p + snd p * getIdfWeight token)
                        (combine vector (getWordVector token)), S wordCount))
                tokens (vec, n)))).
Proof.
  revert vec n. induction tokens as [| token tokens IH]; intros vec n Hv Hl;
    cbn [fold_left fst snd List.length].
  - split; [exact Hv |]. split; [lia |].
    intros [H | [token [[] _]]]. exact H.
  - destruct (getWordVector_vector token) as [W1 [W2 W3]].
    change (getIdfWeight token) with 1.
    destruct (@add_vectors vec (getWordVector token) Hv W1) as [A1 [A2 A3]];
      [congruence |].
    destruct (IH _ (S n) A1) as [G1 [G2 G3]]; [congruence |].
    split; [exact G1 |]. split; [rewrite G2; lia |].
    intros H. apply G3.
    destruct H as [H | [t [[<- | Hin] Ht]]].
    + left. apply A3. left. exact H.
    + left. apply A3. right. apply W3, Ht.
    + right. exists t. split; assumption.
Qed.

Lemma jaccardSimilarity_self K : NoDup K -> K <> [] -> jaccardSimilarity K K = 1.
Proof.
  intros Hnd Hne. unfold jaccardSimilarity.
  assert (Hf : filter (fun x => mem x K) K = K).
  { apply forallb_filter_id. apply forallb_forall. intros x Hx. apply mem_In, Hx. }
  rewrite Hf, (dedup_fixed Hnd).
  assert (Hu : List.length (dedup (K ++ K)) = List.length K).
  { apply same_members_same_length; [apply dedup_NoDup | exact Hnd |].
    intros x. rewrite dedup_In, in_app_iff. tauto. }
  rewrite Hu.
  destruct K as [| k K]; [congruence |].
  cbn [List.length Nat.eqb]. apply Rdiv_diag. apply not_0_INR. discriminate.
Qed.

Lemma dedup_nonempty l : l <> [] -> dedup l <> [].
Proof. destruct l; [congruence | discriminate]. Qed.

Lemma extractKeywords_nonempty text :
  tokenizeAndNormalize text <> [] -> extractKeywords text <> [].
Proof.
  intros H. unfold extractKeywords.
  destruct (tokenizeAndNormalize text) as [| token tokens] eqn:E; [congruence |].
  cbv zeta. unfold addDocument_tokens, listTerms. cbn [app nth_error].
  intros Hnil. apply (f_equal (@List.length _)) in Hnil.
  unfold take in Hnil.
  rewrite length_map, length_firstn in Hnil.
  rewrite !(Permutation_length (sort_perm _ _)), length_map in Hnil.
  assert (Hd : dedup (token :: tokens) <> []) by (apply dedup_nonempty; discriminate).
  destruct (dedup (token :: tokens)); [congruence | discriminate].
Qed.

Lemma forallb_reversed {A} (p : A -> bool) l :
  forallb p l = true -> forallb p (rev l) = true.
Proof.
  rewrite !forallb_forall. intros H x Hx. apply H, in_rev, Hx.
Qed.

Lemma split_pieces_clean sep plus cur insep s x :
  forallb (fun c => negb (sep c)) cur = true ->
  In x (split_class sep plus cur insep s) ->
  forallb (fun c => negb (sep c)) (chars x) = true.
Proof.
  revert cur insep. induction s as [| c s IH]; intros cur insep Hcur; cbn [split_class].
  - intros [<- | []]. unfold chars, str.
    rewrite list_ascii_of_string_of_list_ascii. apply forallb_reversed, Hcur.
  - destruct (sep c) eqn:E.
    + destruct (plus && insep).
      * apply IH, Hcur.
      * intros [<- | H]; [| exact (IH [] true eq_refl H)].
        unfold chars, str.
        rewrite list_ascii_of_string_of_list_ascii. apply forallb_reversed, Hcur.
    + apply IH. cbn [forallb]. rewrite E, Hcur. reflexivity.
Qed.

Lemma token_is_clean text k :
  In k (tokenizeAndNormalize text) ->
  forallb (fun c => negb (is_space c)) (chars k) = true.
Proof.
  unfold tokenizeAndNormalize, removeStopwords, tokenize, split_ws.
  intros H. apply filter_In in H. destruct H as [H _].
  apply (split_pieces_clean is_space true [] false _ _ eq_refl H).
Qed.

(** *** A text of stopwords *)

Lemma total_over_zero {A} (l : list A) : total_over (fun _ => 0) l = 0.
Proof.
  induction l as [| x l IH]; cbn [total_over fold_right]; [reflexivity |].
  fold (total_over (fun _ : A => 0) l). rewrite IH. lra.
Qed.

Lemma magnitude_of_zeros v : (forall x, In x v -> x = 0) -> magnitude v = 0.
Proof.
  intros H. rewrite magnitude_squares.
  rewrite (total_over_ext (fun x => x * x) (fun _ => 0)).
  - rewrite total_over_zero. apply sqrt_0.
  - intros x Hx. rewrite (H x Hx). lra.
Qed.

Lemma normalize_zeros v :
  (forall x, In x v -> x = 0) -> forall x, In x (normalize v) -> x = 0.
Proof.
  intros H x Hx. unfold normalize in Hx. apply in_map_iff in Hx.
  destruct Hx as [y [<- Hy]]. rewrite (H y Hy).
  destruct (RNum.eqb (magnitude v) 0); [reflexivity |]. unfold Rdiv. lra.
Qed.

Lemma cosineSimilarity_of_zeros v w : magnitude v = 0 -> cosineSimilarity v w = 0.
Proof.
  intros H. unfold cosineSimilarity.
  destruct (negb (List.length v =? List.length w)%nat); [reflexivity |].
  apply RNum_eqb_true in H. rewrite H. reflexivity.
Qed.


End Similarity.

(* ------------------------------------------------------------------------- *)
(** ** The similarity of two thoughts, as the doubles give it (C4)            *)
(* ------------------------------------------------------------------------- *)

Section SimilarityInDoubles.

Import Floats.Floats JS Natural Doubles.
Local Open Scope string_scope.
Local Open Scope float_scope.
#[local] Set Warnings "-inexact-float".






(** *** Texts without a common term *)













End SimilarityInDoubles.

(* ------------------------------------------------------------------------- *)
(** ** The clusters of a list of thoughts                                     *)
(* ------------------------------------------------------------------------- *)

Section Clustering.

Import JS Natural SemanticAnalyzer Properties.
Local Open Scope string_scope.














Lemma number_gtb x y : RNum.gtb x y = true <-> (y < x)%R.
Proof.
  unfold RNum.gtb. destruct (Rgt_dec x y) as [H | H]; split; intros H'.
  - exact H.
  - reflexivity.
  - discriminate.
  - contradiction.
Qed.

Lemma cluster_step_assignment thoughts st it :
  cluster_step thoughts st it
  = match assignment thoughts st it with
    | Some (topicName, cluster) =>
        {| clusters := assign (clusters st) topicName cluster;
           clusterCount := clusterCount st + 1;
           processedThoughts :=
             (processedThoughts st ++ map thoughtNumber cluster)%list |}
    | None => st
    end.
Proof.
  unfold cluster_step, assignment. destruct it as [index th].
  destruct (has_number (processedThoughts st) (thoughtNumber th)); [reflexivity |].
  cbv zeta.
  match goal with |- context [(0 <? List.length ?c)%nat] =>
    destruct (0 <? List.length c)%nat end; reflexivity.
Qed.









(** *** Thoughts made of stopwords *)

Lemma assignment_alone thoughts st i t :
  nth_error thoughts i = Some t ->
  has_number (processedThoughts st) (thoughtNumber t) = false ->
  (forall j u, nth_error thoughts j = Some u -> j <> i ->
     has_number (processedThoughts st) (thoughtNumber u) = true
     \/ (analyzeSemanticSimilarity t u <= 0.6)%R) ->
  assignment thoughts st (i, t)
  = Some (if (0 <? List.length (extractTopicKeywords [t]))%nat
          then join "_" (take 2 (extractTopicKeywords [t]))
          else "topic_" ++ string_of_Z (Z.of_nat (clusterCount st + 1)),
          [t]).
Proof.
  intros Hn Hp Hothers. unfold assignment. rewrite Hp. cbv zeta.
  set (similar := fun jt : nat * ThoughtData =>
                    negb (has_number (processedThoughts st) (thoughtNumber (snd jt)))
                    && RNum.gtb (similarity_entry thoughts i (fst jt)) 0.6).
  assert (E : map snd (filter similar (indexed thoughts)) = [t]).
  { unfold indexed.
    assert (G : forall k l,
               (forall j u, nth_error l j = Some u ->
                            nth_error thoughts (k + j) = Some u) ->
               map snd (filter similar (combine (seq k (List.length l)) l))
               = if (k <=? i)%nat && (i <? k + List.length l)%nat then [t] else []).
    { intros k l. revert k. induction l as [| u l IH]; intros k Hl;
        cbn [List.length seq combine filter map].
      - destruct (k <=? i)%nat eqn:E1; [| reflexivity].
        destruct (i <? k + 0)%nat eqn:E2; [| reflexivity].
        apply Nat.leb_le in E1. apply Nat.ltb_lt in E2. lia.
      - assert (Hu : nth_error thoughts k = Some u).
        { rewrite <- (Nat.add_0_r k). apply Hl. reflexivity. }
        assert (Hrest : map snd (filter similar (combine (seq (S k) (List.length l)) l))
                        = if (S k <=? i)%nat && (i <? S k + List.length l)%nat
                          then [t] else []).
        { apply IH. intros j v Hj. replace (S k + j)%nat with (k + S j)%nat by lia.
          apply Hl. exact Hj. }
        destruct (Nat.eq_dec k i) as [-> | Hne].
        + assert (Eu : u = t) by congruence. subst u.
          assert (Es : similar (i, t) = true).
          { unfold similar. cbn [fst snd]. rewrite Hp. cbn [negb andb].
            unfold similarity_entry. rewrite Nat.eqb_refl. apply number_gtb. lra. }
          rewrite Es. cbn [map snd]. rewrite Hrest.
          replace (S i <=? i)%nat with false by (symmetry; apply Nat.leb_gt; lia).
          replace (i <=? i)%nat with true by (symmetry; apply Nat.leb_le; lia).
          replace (i <? i + S (List.length l))%nat with true
            by (symmetry; apply Nat.ltb_lt; lia).
          reflexivity.
        + assert (Es : similar (k, u) = false).
          { unfold similar. cbn [fst snd].
            destruct (Hothers k u Hu Hne) as [H | H]; [rewrite H; reflexivity |].
            apply andb_false_iff. right.
            destruct (RNum.gtb (similarity_entry thoughts i k) 0.6) eqn:Eg;
              [| reflexivity].
            apply number_gtb in Eg. unfold similarity_entry in Eg.
            destruct (Nat.eqb_spec i k) as [-> | _]; [congruence |].
            rewrite Hn, Hu in Eg. lra. }
          rewrite Es, Hrest.
          destruct (Nat.leb_spec k i), (Nat.leb_spec (S k) i); try lia;
            cbn [andb]; try reflexivity.
          destruct (Nat.ltb_spec i (S k + List.length l)),
                   (Nat.ltb_spec i (k + S (List.length l))); try lia; reflexivity. }
    rewrite (G 0%nat thoughts) by (intros j u Hj; exact Hj).
    assert (Hi : (i < List.length thoughts)%nat) by (apply nth_error_Some; congruence).
    replace (0 <=? i)%nat with true by (symmetry; apply Nat.leb_le; lia).
    replace (i <? 0 + List.length thoughts)%nat with true
      by (symmetry; apply Nat.ltb_lt; lia).
    reflexivity. }
  rewrite E. reflexivity.
Qed.





Lemma similarity_to_stopwords a b :
  tokenizeAndNormalize (thought b) = [] -> vector b = None ->
  ~ In "" (tokenizeAndNormalize (thought a)) ->
  analyzeSemanticSimilarity a b = 0%R.
Proof.
  intros Hb Hv Ha. rewrite analyzeSemanticSimilarity_sym.
  unfold analyzeSemanticSimilarity. cbv zeta.
  rewrite cosineSimilarity_of_zeros.
  2:{ unfold thought_vector. rewrite Hv. unfold buildThoughtVectors.
      rewrite Hb. cbn [fold_left fst snd Nat.ltb Nat.leb].
      apply magnitude_of_zeros, normalize_zeros.
      intros x Hx. apply repeat_spec in Hx. exact Hx. }
  assert (Ej : forall K, jaccardSimilarity (dedup (extractKeywords (thought b))) K = 0%R).
  { intros K. unfold extractKeywords. rewrite Hb. unfold jaccardSimilarity.
    cbn [dedup dedup_aux filter List.length app].
    destruct (List.length (dedup_aux [] K) =? 0)%nat; [reflexivity |].
    cbn [INR]. unfold Rdiv. apply Rmult_0_l. }
  rewrite Ej.
  destruct (shared_terms (thought b) (thought a)) as [K [Hnd HK]].
  rewrite (calculateTfidfSimilarity_sums (thought b) (thought a) Hnd HK). cbv zeta.
  rewrite Hb. change (split_ws (join " " [])) with [""].
  set (d := split_ws (join " " (tokenizeAndNormalize (thought a)))).
  rewrite (total_over_ext
             (fun k => (RNum.or_zero (tfidf [[""]; d] k 0)
                        * RNum.or_zero (tfidf [[""]; d] k 0))%R)
             (fun _ => 0%R)).
  2:{ intros k Hk. apply HK in Hk. destruct Hk as [[Hk | Hk] _].
      - rewrite Hb in Hk. destruct Hk.
      - assert (Hne : k <> "") by (intros ->; contradiction).
        unfold tfidf. cbn [nth_error]. cbv zeta. cbn [RNum.or_zero].
        unfold count_term. cbn [filter]. apply String.eqb_neq in Hne. rewrite Hne.
        cbn [List.length INR]. unfold Rdiv. lra. }
  rewrite total_over_zero, sqrt_0.
  assert (E : RNum.eqb 0 0 = true) by (apply RNum_eqb_true; reflexivity).
  rewrite E. cbn [orb]. lra.
Qed.

(** Distinct thought numbers are not enough: the cluster of the thought
    "topic_2" is labelled by its keyword, the second cluster, of a
    thought without keywords, is labelled by its rank, "topic_2" too, and
    replaces the first. *)
Lemma equal_labels_lose_a_cluster :
  distinct_numbers [bare "topic_2" 1 2; bare "the" 2 2] = true
  /\ clusterThoughtsByTopic [bare "topic_2" 1 2; bare "the" 2 2]
     = [("topic_2", [bare "the" 2 2])].
Proof.
  split; [reflexivity |].
  unfold clusterThoughtsByTopic, indexed.
  cbn [List.length seq combine fold_left].
  rewrite (cluster_step_assignment _ _ (0%nat, bare "topic_2" 1 2)).
  rewrite (@assignment_alone _ _ 0 (bare "topic_2" 1 2)); [| reflexivity | reflexivity |].
  2:{ intros [| [| j]] u Hu Hne; [congruence | | destruct j; discriminate].
      injection Hu as <-. right.
      rewrite similarity_to_stopwords; [lra | reflexivity | reflexivity |].
      intros [E | []]. discriminate. }
  rewrite (cluster_step_assignment _ _ (1%nat, bare "the" 2 2)).
  rewrite (@assignment_alone _ _ 1 (bare "the" 2 2)); [| reflexivity | reflexivity |].
  2:{ intros [| [| j]] u Hu Hne; [| congruence | destruct j; discriminate].
      injection Hu as <-. left. reflexivity. }
  reflexivity.
Qed.




End Clustering.

(* ------------------------------------------------------------------------- *)
(** ** The server: validation, rendering, tracking and the response        *)
(* ------------------------------------------------------------------------- *)

Section Server.

Import JS SequentialThinkingServer Properties Extras.
Local Open Scope string_scope.

Lemma string_length_zero s : (String.length s =? 0)%nat = (s =? "").
Proof. destruct s; reflexivity. Qed.

Lemma validated_members data v :
  validateThoughtData (InMembers data) = inr v ->
  in_thought data = JStr (thought v)
  /\ in_thoughtNumber data = JNum (thoughtNumber v)
  /\ in_totalThoughts data = JNum (totalThoughts v)
  /\ in_nextThoughtNeeded data = JBool (nextThoughtNeeded v)
  /\ Qeq_bool (thoughtNumber v) 0 = false
  /\ Qeq_bool (totalThoughts v) 0 = false
  /\ (thought v =? "") = false.
Proof.
  unfold validateThoughtData. intros H.
  destruct (in_thought data) as [| | [|] | q0 | s |] eqn:E1;
    cbn [falsy typeof negb orb String.eqb Ascii.eqb Bool.eqb] in H;
    rewrite ?orb_true_r in H; try discriminate.
  rewrite string_length_zero in H.
  destruct (s =? "") eqn:Es; cbn [negb orb] in H; [discriminate |].
  destruct (in_thoughtNumber data) as [| | [|] | n | s1 |] eqn:E2;
    cbn [falsy typeof negb orb String.eqb Ascii.eqb Bool.eqb] in H;
    rewrite ?orb_true_r in H; try discriminate.
  destruct (Qeq_bool n 0) eqn:En; cbn [negb orb] in H; [discriminate |].
  destruct (in_totalThoughts data) as [| | [|] | t | s2 |] eqn:E3;
    cbn [falsy typeof negb orb String.eqb Ascii.eqb Bool.eqb] in H;
    rewrite ?orb_true_r in H; try discriminate.
  destruct (Qeq_bool t 0) eqn:Et; cbn [negb orb] in H; [discriminate |].
  destruct (in_nextThoughtNeeded data) as [| | b | q1 | s3 |] eqn:E4;
    cbn [typeof negb String.eqb Ascii.eqb Bool.eqb] in H; try discriminate.
  injection H as <-.
  cbn [thought thoughtNumber totalThoughts nextThoughtNeeded
       as_string as_number as_boolean].
  repeat split; assumption.
Qed.

Lemma accepted_is_validated input :
  accepted input = true -> exists v, validateThoughtData input = inr v.
Proof.
  destruct input as [| | data]; try discriminate.
  unfold accepted, validateThoughtData.
  destruct (in_thought data) as [| | [|] | q0 | s |]; try discriminate.
  destruct (in_thoughtNumber data) as [| | [|] | n | s1 |]; try discriminate.
  destruct (in_totalThoughts data) as [| | [|] | t | s2 |]; try discriminate.
  destruct (in_nextThoughtNeeded data) as [| | b | q1 | s3 |]; try discriminate.
  intros H. apply andb_true_iff in H. destruct H as [H Ht].
  apply andb_true_iff in H. destruct H as [Hs Hn].
  apply negb_true_iff in Hs, Hn, Ht.
  cbn [falsy typeof negb orb String.eqb Ascii.eqb Bool.eqb].
  rewrite string_length_zero, Hs, Hn, Ht. cbn [negb orb]. eauto.
Qed.

Lemma validated_is_accepted input v :
  validateThoughtData input = inr v -> accepted input = true.
Proof.
  intros H. destruct input as [| | data]; try discriminate.
  destruct (validated_members data H) as [E1 [E2 [E3 [E4 [Hn [Ht Hs]]]]]].
  unfold accepted. rewrite E1, E2, E3, E4, Hn, Ht, Hs. reflexivity.
Qed.

(** X1.  The validation accepts a submission exactly when its thought is
    a non-empty string, its thought number and its total are numbers other
    than zero and its continuation flag is a boolean; the record it returns
    carries these four members as submitted.  A thought number or a total
    of zero is rejected like a missing one. *)
Theorem validation_accepts_exactly_the_well_formed (input : Input) :
  ((exists v, validateThoughtData input = inr v) <-> accepted input = true)
  /\ (forall data v,
        input = InMembers data -> validateThoughtData input = inr v ->
        in_thought data = JStr (thought v)
        /\ in_thoughtNumber data = JNum (thoughtNumber v)
        /\ in_totalThoughts data = JNum (totalThoughts v)
        /\ in_nextThoughtNeeded data = JBool (nextThoughtNeeded v)).
Proof.
  split.
  - split; [| apply accepted_is_validated].
    intros [v H]. apply (validated_is_accepted input H).
  - intros data v -> H.
    destruct (validated_members data H) as [E1 [E2 [E3 [E4 _]]]]. auto.
Qed.


Lemma floor_nonneg x : (0 <= Qfloor x)%Z <-> (0 <= x)%Q.
Proof.
  split; intros H.
  - pose proof (Qfloor_le x) as Hf. apply Qle_trans with (inject_Z (Qfloor x)); [| exact Hf].
    rewrite Zle_Qle in H. exact H.
  - change 0%Z with (Qfloor 0). apply Qfloor_resp_le, H.
Qed.

Lemma floor_at_most x k : (Qfloor x <= k)%Z <-> (x < inject_Z (k + 1))%Q.
Proof.
  split; intros H.
  - apply Qlt_le_trans with (inject_Z (Qfloor x + 1)); [apply Qlt_floor |].
    rewrite <- Zle_Qle. lia.
  - pose proof (Qfloor_le x) as Hf.
    assert (Hlt : (inject_Z (Qfloor x) < inject_Z (k + 1))%Q) by lra.
    rewrite <- Zlt_Qlt in Hlt. lia.
Qed.

Lemma lt_false_iff a b : Num.lt a b = false <-> (b <= a)%Q.
Proof.
  unfold Num.lt. rewrite negb_false_iff. apply Qle_bool_iff.
Qed.

Lemma progress_bar_cases (percentage : Num.xnum) :
  createProgressBar_error percentage = None
  <-> percentage = Num.NaN
      \/ exists p, percentage = Num.Fin p /\ (0 <= p < 102)%Q.
Proof.
  unfold createProgressBar_error.
  destruct percentage as [p | | |]; cbn [Num.xmap Num.xfloor Num.xsub_from Num.repeat_throws orb].
  - set (cells := Qfloor (50 * (p / 100))).
    assert (H0 : (0 <= cells)%Z <-> (0 <= p)%Q).
    { unfold cells. rewrite floor_nonneg. split; intros H; qconst; lra. }
    assert (H50 : (cells <= 50)%Z <-> (p < 102)%Q).
    { unfold cells. rewrite floor_at_most. change (inject_Z (50 + 1)) with 51%Q.
      split; intros H; qconst; lra. }
    destruct (Num.lt (inject_Z cells) 0) eqn:E1; cbn [orb].
    + split; [discriminate |]. intros [H | [q [E [Hq _]]]]; [discriminate |].
      injection E as <-. apply H0 in Hq.
      assert (E' : Num.lt (inject_Z cells) 0 = false).
      { apply lt_false_iff. change 0%Q with (inject_Z 0). rewrite <- Zle_Qle. exact Hq. }
      congruence.
    + apply lt_false_iff in E1. change 0%Q with (inject_Z 0) in E1.
      rewrite <- Zle_Qle in E1.
      destruct (Num.lt (50 - inject_Z cells) 0) eqn:E2.
      * split; [discriminate |]. intros [H | [q [E [_ Hq]]]]; [discriminate |].
        injection E as <-. apply H50 in Hq.
        assert (E' : Num.lt (50 - inject_Z cells) 0 = false).
        { apply lt_false_iff. rewrite Zle_Qle in Hq.
          change (inject_Z 50) with 50%Q in Hq. lra. }
        congruence.
      * apply lt_false_iff in E2. split; [| intros _; reflexivity]. intros _. right.
        exists p. split; [reflexivity |]. split; [apply H0, E1 |].
        apply H50. rewrite Zle_Qle. change (inject_Z 50) with 50%Q. lra.
  - split; [discriminate | intros [H | [q [H _]]]; discriminate].
  - split; [discriminate | intros [H | [q [H _]]]; discriminate].
  - split; [intros _; left; reflexivity | reflexivity].
Qed.

(** X2.  The progress bar of 50 cells is drawn for every percentage from
    0 to 100 and for a percentage that is not a number; the repetition of a
    cell throws for a percentage of -2 or less, for one of 102 or more and
    for the infinite ones. *)
Theorem progress_bar_is_drawn_from_0_to_100 :
  (forall p, (0 <= p <= 100)%Q -> createProgressBar_error (Num.Fin p) = None)
  /\ createProgressBar_error Num.NaN = None
  /\ (forall p, (p <= -2)%Q \/ (102 <= p)%Q ->
                createProgressBar_error (Num.Fin p) <> None)
  /\ createProgressBar_error Num.PInf <> None
  /\ createProgressBar_error Num.NInf <> None.
Proof.
  split; [| split; [| split; [| split]]].
  - intros p Hp. apply progress_bar_cases. right. exists p.
    split; [reflexivity | lra].
  - reflexivity.
  - intros p Hp E. apply progress_bar_cases in E.
    destruct E as [E | [q [E Hq]]]; [discriminate |].
    injection E as <-. lra.
  - discriminate.
  - discriminate.
Qed.

Lemma negative_progress_throws n d :
  (n < 0)%Q -> (0 < d)%Q ->
  createProgressBar_error (Num.xmap (fun x => x * 100)%Q (Num.xdiv n d))
  = Some "Invalid count value".
Proof.
  intros Hn Hd. rewrite xdiv_positive by exact Hd. cbn [Num.xmap].
  destruct (createProgressBar_error (Num.Fin (n / d * 100))) as [message |] eqn:E.
  - unfold createProgressBar_error in E.
    destruct (_ || _) in E; [injection E as <-; reflexivity | discriminate].
  - apply progress_bar_cases in E.
    destruct E as [E | [p [E [Hp _]]]]; [discriminate |].
    injection E as <-. exfalso.
    assert (Hq : (n / d < 0)%Q).
    { apply Qlt_shift_div_r; [exact Hd | lra]. }
    lra.
Qed.


Lemma render_error_of_negative st v :
  (thoughtNumber v < 0)%Q -> (0 < totalThoughts v)%Q -> render_error st v <> None.
Proof.
  intros Hn Ht. unfold render_error.
  rewrite (negative_progress_throws Hn Ht).
  destruct (GraphRenderer.groupThoughtsByBranch_error (thoughtHistory st));
    [discriminate |].
  destruct (metadata (promptContext st)) as [m |]; [| discriminate].
  destruct (GraphRenderer.generatePromptProgressView_error (thoughtHistory st) m);
    discriminate.
Qed.

(** X3.  A submission that passes the validation with a thought number of
    -1 or less and a positive total, both of them finite numbers, is
    answered by the error object, and is stored all the same: the history
    has grown by the enriched thought when the error is returned. *)
Theorem thought_number_of_minus_one_or_less_fails_after_storing
        (st : ServerState) (input : Input) (v : ThoughtData) :
  validateThoughtData input = inr v ->
  (thoughtNumber v <= -1)%Q -> (0 < totalThoughts v)%Q ->
  exists message v',
    fst (processThought st input)
    = Failure {| error := message; error_status := "failed" |}
    /\ thoughtHistory (snd (processThought st input)) = (thoughtHistory st ++ [v'])%list
    /\ enriched (metadata (promptContext st)) v v'.
Proof.
  intros Hv Hn Ht.
  destruct (enrich_fields st v) as [v' [He Hf]].
  assert (Hn' : (thoughtNumber v' < 0)%Q) by (rewrite (en_number Hf); lra).
  assert (Ht' : (0 < totalThoughts v')%Q).
  { rewrite (en_total Hf).
    destruct (raised_total_bounds v) as [H1 _].
    destruct (reported_total_bounds (metadata (promptContext st)) v) as [H2 _]. lra. }
  unfold processThought. rewrite Hv, He.
  destruct (branch_error st v') as [thrown |].
  { exists thrown, v'. split; [reflexivity | split; [reflexivity | exact Hf]]. }
  destruct (render_error (append st v') v') as [thrown |] eqn:Er.
  { exists thrown, v'. split; [reflexivity | split; [reflexivity | exact Hf]]. }
  exfalso. exact (@render_error_of_negative (append st v') v' Hn' Ht' Er).
Qed.

Lemma thought_number_of_minus_one_or_less_fails_after_storing_witness :
  exists message v',
    fst (processThought initial (submission "Plan the trip" (-1) 5))
    = Failure {| error := message; error_status := "failed" |}
    /\ thoughtHistory (snd (processThought initial (submission "Plan the trip" (-1) 5)))
       = [v'].
Proof.
  assert (Hn : (thoughtNumber (bare "Plan the trip" (-1) 5) <= -1)%Q).
  { unfold Qle. simpl. lia. }
  destruct (@thought_number_of_minus_one_or_less_fails_after_storing initial
              (submission "Plan the trip" (-1) 5) (bare "Plan the trip" (-1) 5)
              eq_refl Hn eq_refl) as [message [v' [H1 [H2 _]]]].
  exists message, v'. split; [exact H1 | exact H2].
Defined.


Lemma not_accepted_is_rejected input :
  accepted input = false -> exists message, validateThoughtData input = inl message.
Proof.
  intros H. destruct (validateThoughtData input) as [message | v] eqn:E; [eauto |].
  pose proof (validated_is_accepted input E) as Ha. congruence.
Qed.


(** X4.  The handler makes the prompt profile of a call numbered 1 before
    the validation: when such a call carries a string as its thought but is
    rejected by the validation, the answer is the error object and the
    history, the branches and the tool statistics are left as they were,
    while the profile is replaced by the analysis of that string. *)
Theorem rejected_first_call_still_sets_the_profile
        (st : ServerState) (input : Input) (s : string) :
  numbered_one input = true ->
  thought_member input = JStr s ->
  accepted input = false ->
  exists message,
    fst (callTool st tool input)
    = Returned (Failure {| error := message; error_status := "failed" |})
    /\ metadata (promptContext (snd (callTool st tool input)))
       = Some (PromptAnalyzer.analyzePrompt s)
    /\ thoughtHistory (snd (callTool st tool input)) = thoughtHistory st
    /\ branches (snd (callTool st tool input)) = branches st
    /\ toolUsageStats (snd (callTool st tool input)) = toolUsageStats st.
Proof.
  intros Hone Hs Hrej.
  destruct (not_accepted_is_rejected input Hrej) as [message Hv].
  exists message.
  rewrite (callTool_numbered_one st input Hone Hs). cbn [fst snd].
  rewrite (processThought_invalid _ input Hv). cbn [fst snd].
  repeat split.
Qed.

Lemma rejected_first_call_still_sets_the_profile_witness :
  exists message,
    fst (callTool initial tool
           (InMembers (required_only (JStr "Plan the trip") (JNum 1) JUndefined
                                     (JBool true))))
    = Returned (Failure {| error := message; error_status := "failed" |})
    /\ metadata (promptContext
                   (snd (callTool initial tool
                           (InMembers (required_only (JStr "Plan the trip") (JNum 1)
                                                     JUndefined (JBool true))))))
       = Some (PromptAnalyzer.analyzePrompt "Plan the trip").
Proof.
  destruct (@rejected_first_call_still_sets_the_profile initial
              (InMembers (required_only (JStr "Plan the trip") (JNum 1) JUndefined
                                        (JBool true)))
              "Plan the trip" eq_refl eq_refl eq_refl) as [message [H1 [H2 _]]].
  exists message. split; [exact H1 | exact H2].
Defined.

(** X5.  A call numbered 1 whose thought is not a string never reaches
    [processThought]: the analysis of the prompt throws, the handler
    rejects the call, and the store keeps its history, branches, statistics
    and profile; only the original prompt is overwritten by the value. *)
Theorem first_call_without_text_is_rejected_by_the_handler
        (st : ServerState) (input : Input) :
  numbered_one input = true ->
  (forall s, thought_member input <> JStr s) ->
  exists message,
    fst (callTool st tool input) = Rejected message
    /\ thoughtHistory (snd (callTool st tool input)) = thoughtHistory st
    /\ branches (snd (callTool st tool input)) = branches st
    /\ toolUsageStats (snd (callTool st tool input)) = toolUsageStats st
    /\ metadata (promptContext (snd (callTool st tool input)))
       = metadata (promptContext st)
    /\ pc_originalPrompt (promptContext (snd (callTool st tool input)))
       = thought_member input.
Proof.
  intros Hone Hs. unfold callTool, tool. cbn [String.eqb Ascii.eqb Bool.eqb].
  rewrite Hone.
  destruct (thought_member input) as [| | b | q | s |] eqn:E;
    try solve [eexists; cbn; repeat split].
  exfalso. apply (Hs s). reflexivity.
Qed.

Lemma first_call_without_text_is_rejected_by_the_handler_witness :
  exists message,
    fst (callTool initial tool
           (InMembers (required_only (JNum 7) (JNum 1) (JNum 3) (JBool true))))
    = Rejected message.
Proof.
  destruct (@first_call_without_text_is_rejected_by_the_handler initial
              (InMembers (required_only (JNum 7) (JNum 1) (JNum 3) (JBool true)))
              eq_refl) as [message [H _]].
  - intros s. discriminate.
  - exists message. exact H.
Defined.


Lemma track_tool_usage t stats tool k :
  usage_of (track_tool t stats tool) k
  = (usage_of stats k + if string_dec tool k then 1 else 0)%nat
  /\ uses_in (track_tool t stats tool) k
     = (uses_in stats k ++ if string_dec tool k then [thoughtNumber t] else [])%list.
Proof.
  unfold usage_of, uses_in, track_tool.
  destruct (string_dec tool k) as [<- | Hne].
  - rewrite get_set_same. cbn [usageCount thoughtsUsedIn].
    destruct (get stats tool); cbn [usageCount thoughtsUsedIn]; split; reflexivity.
  - rewrite get_set_other by congruence.
    rewrite Nat.add_0_r, app_nil_r. split; reflexivity.
Qed.

Lemma track_tools_usage t tools :
  forallb (fun tool => negb (is_inherited tool)) tools = true ->
  forall stats,
    snd (track_tools t stats tools) = None
    /\ forall k,
         usage_of (fst (track_tools t stats tools)) k
         = (usage_of stats k + count_occ string_dec tools k)%nat
         /\ uses_in (fst (track_tools t stats tools)) k
            = (uses_in stats k
               ++ repeat (thoughtNumber t) (count_occ string_dec tools k))%list.
Proof.
  induction tools as [| tool rest IH]; intros Hplain stats.
  - cbn [track_tools fst snd count_occ repeat]. split; [reflexivity |].
    intros k. rewrite Nat.add_0_r, app_nil_r. split; reflexivity.
  - cbn [forallb] in Hplain. apply andb_true_iff in Hplain.
    destruct Hplain as [Htool Hrest]. apply negb_true_iff in Htool.
    cbn [track_tools]. unfold reads_inherited. rewrite Htool. cbn [andb].
    destruct (IH Hrest (track_tool t stats tool)) as [IH1 IH2].
    split; [exact IH1 |]. intros k.
    destruct (IH2 k) as [U1 U2]. rewrite U1, U2.
    destruct (track_tool_usage t stats tool k) as [T1 T2]. rewrite T1, T2.
    cbn [count_occ]. destruct (string_dec tool k); cbn [repeat app].
    + split; [lia |]. rewrite <- app_assoc. reflexivity.
    + split; [lia |]. rewrite app_nil_r. reflexivity.
Qed.

(** X6.  Tracking the tools of a thought, none of them named like an
    inherited member, never throws and counts every use: the usage count of
    a tool grows by the number of times the thought lists it, and the
    thought number is appended that many times to the thoughts the tool was
    used in; the counts of all other tools stay as they were. *)
Theorem every_listed_use_of_a_tool_is_counted
        (stats : dict ToolUsageStats) (t : ThoughtData) (tools : list string) :
  toolsUsed t = Some tools ->
  forallb (fun tool => negb (is_inherited tool)) tools = true ->
  snd (trackToolUsage stats t) = None
  /\ forall k,
       usage_of (fst (trackToolUsage stats t)) k
       = (usage_of stats k + count_occ string_dec tools k)%nat
       /\ uses_in (fst (trackToolUsage stats t)) k
          = (uses_in stats k
             ++ repeat (thoughtNumber t) (count_occ string_dec tools k))%list.
Proof.
  intros Ht Hplain. unfold trackToolUsage. rewrite Ht.
  destruct tools as [| tool rest].
  - cbn [fst snd count_occ repeat]. split; [reflexivity |].
    intros k. rewrite Nat.add_0_r, app_nil_r. split; reflexivity.
  - apply (track_tools_usage t (tool :: rest) Hplain).
Qed.

Lemma every_listed_use_of_a_tool_is_counted_witness :
  exists v,
    validateThoughtData
      (InMembers (with_tools (required_only (JStr "Look it up") (JNum 3) (JNum 4)
                                            (JBool true))
                             ["search"; "fetch"; "search"])) = inr v
    /\ snd (trackToolUsage [] v) = None
    /\ usage_of (fst (trackToolUsage [] v)) "search" = 2%nat
    /\ uses_in (fst (trackToolUsage [] v)) "search" = [3%Q; 3%Q]
    /\ usage_of (fst (trackToolUsage [] v)) "fetch" = 1%nat.
Proof.
  eexists. split; [reflexivity |].
  match goal with
  | |- snd (trackToolUsage _ ?v) = _ /\ _ =>
      destruct (@every_listed_use_of_a_tool_is_counted [] v
                  ["search"; "fetch"; "search"] eq_refl eq_refl) as [H1 H2]
  end.
  split; [exact H1 |].
  destruct (H2 "search") as [H3 H4]. destruct (H2 "fetch") as [H5 _].
  split; [exact H3 |]. split; [exact H4 | exact H5].
Defined.


Lemma get_in_keys {V} (o : dict V) k x : get o k = Some x -> In k (keys o).
Proof.
  intros H. apply (Permutation_in k (Permutation_sym (keys_perm o))).
  induction o as [| [k' v'] o IH]; cbn [get map fst In] in *; [discriminate |].
  destruct (String.eqb_spec k k') as [-> | Hne]; [left; reflexivity |].
  right. apply IH, H.
Qed.

Lemma successful_call st input body st' :
  processThought st input = (Success body, st') ->
  exists v v',
    validateThoughtData input = inr v
    /\ enriched (metadata (promptContext st)) v v'
    /\ st' = track (append st v') v'
    /\ body = respond st' v'.
Proof.
  intros Hrun.
  destruct (validateThoughtData input) as [message | v] eqn:Hv.
  - rewrite (processThought_invalid st input Hv) in Hrun. discriminate.
  - destruct (processThought_valid st input Hv)
      as [v' [_ [Hf [Hp | [message [st0 [Hp _]]]]]]];
      rewrite Hp in Hrun; [| discriminate].
    injection Hrun as <- <-. exists v, v'. auto.
Qed.

Lemma enriched_branch m v v' : enriched m v v' -> branch_of v' = branch_of v.
Proof.
  intros Hf. unfold branch_of. rewrite (en_branch_from Hf), (en_branch_id Hf).
  reflexivity.
Qed.

(** X7.  After a successful call the thought of a branch, one submitted
    with a branch origin other than zero and a non-empty branch name, is
    the last member of the branch of that name, behind the members the
    branch had before, and the name is among the branches of the response;
    a thought of no branch leaves the branch table as it was.  On a store of
    well-stored thoughts a submission with a positive number and plain
    names does succeed. *)
Theorem a_branching_thought_is_the_last_of_its_branch
        (st : ServerState) (input : Input) (v : ThoughtData) :
  validateThoughtData input = inr v ->
  (forall body st',
      processThought st input = (Success body, st') ->
      exists v',
        thoughtHistory st' = (thoughtHistory st ++ [v'])%list
        /\ (forall id, branch_of v = Some id ->
              get (branches st') id
              = Some ((match get (branches st) id with Some l => l | None => [] end)
                      ++ [v'])%list
              /\ In id (r_branches body)
              /\ forall other, other <> id ->
                               get (branches st') other = get (branches st) other)
        /\ (branch_of v = None -> branches st' = branches st))
  /\ (Forall well_stored (thoughtHistory st) -> (0 < thoughtNumber v)%Q ->
      plain_names v = true ->
      exists body st', processThought st input = (Success body, st')).
Proof.
  intros Hv. split.
  - intros body st' Hrun.
    destruct (successful_call st input Hrun) as [v0 [v' [Hv0 [Hf [-> ->]]]]].
    assert (v0 = v) as -> by congruence.
    exists v'. split; [reflexivity |].
    cbn [track branches respond r_branches]. unfold append. cbn [branches].
    rewrite (enriched_branch Hf). split.
    + intros id Hid. rewrite Hid. split; [apply get_set_same |]. split.
      * apply (get_in_keys _ id (get_set_same _ _ _)).
      * intros other Hne. apply get_set_other. exact Hne.
    + intros Hnone. rewrite Hnone. reflexivity.
  - intros Hall Hpos Hplain.
    destruct (processThought_succeeds st input Hall Hv Hpos Hplain) as [v' [_ [Hp _]]].
    eauto.
Qed.

Lemma a_branching_thought_is_the_last_of_its_branch_witness :
  exists v body st' v',
    validateThoughtData
      (InMembers (with_branch (required_only (JStr "Try a heap") (JNum 2) (JNum 3)
                                             (JBool true)) 1 "heap")) = inr v
    /\ processThought initial
         (InMembers (with_branch (required_only (JStr "Try a heap") (JNum 2) (JNum 3)
                                                (JBool true)) 1 "heap"))
       = (Success body, st')
    /\ get (branches st') "heap" = Some [v']
    /\ In "heap" (r_branches body).
Proof.
  destruct (@a_branching_thought_is_the_last_of_its_branch initial
              (InMembers (with_branch (required_only (JStr "Try a heap") (JNum 2)
                                                     (JNum 3) (JBool true)) 1 "heap"))
              _ eq_refl) as [Hbody Hrun].
  destruct (Hrun (Forall_nil _) eq_refl eq_refl) as [body [st' E]].
  destruct (Hbody body st' E) as [v' [_ [Hb _]]].
  destruct (Hb "heap" eq_refl) as [H1 [H2 _]].
  eexists. exists body, st', v'.
  split; [reflexivity |]. split; [exact E |]. split; [exact H1 | exact H2].
Defined.

Lemma suggestNextPhase_steps t :
  let p := match phase t with Some p => p | None => Execution end in
  suggestNextPhase t = p \/ suggestNextPhase t = next_phase p.
Proof.
  unfold suggestNextPhase.
  destruct (phase t) as [[| | |] |]; cbn [next_phase];
    try destruct (Num.gt _ _); auto.
Qed.

(** X8.  The phase that a response suggests next is the phase of the
    thought or the one after it in the order Planning, Analysis, Execution,
    Verification: no phase is skipped, none is gone back to, and
    Verification is followed by Verification.  On a store of well-stored
    thoughts a submission with a positive number and plain names does get
    such a response. *)
Theorem the_suggested_phase_is_the_current_or_the_next
        (st : ServerState) (input : Input) (v : ThoughtData) :
  validateThoughtData input = inr v ->
  (forall body st',
      processThought st input = (Success body, st') ->
      r_phase body = Some (phase_or_default v)
      /\ (r_suggestedNextPhase body = phase_or_default v
          \/ r_suggestedNextPhase body = next_phase (phase_or_default v))
      /\ (phase_or_default v = Verification ->
          r_suggestedNextPhase body = Verification))
  /\ (Forall well_stored (thoughtHistory st) -> (0 < thoughtNumber v)%Q ->
      plain_names v = true ->
      exists body st', processThought st input = (Success body, st')).
Proof.
  intros Hv. split.
  - intros body st' Hrun.
    destruct (successful_call st input Hrun) as [v0 [v' [Hv0 [Hf [-> ->]]]]].
    assert (v0 = v) as -> by congruence.
    cbn [respond r_phase r_suggestedNextPhase].
    split; [apply (en_phase Hf) |].
    pose proof (suggestNextPhase_steps v') as H. cbv zeta in H.
    rewrite (en_phase Hf) in H. split; [exact H |].
    intros E. rewrite E in H. cbn [next_phase] in H. tauto.
  - intros Hall Hpos Hplain.
    destruct (processThought_succeeds st input Hall Hv Hpos Hplain) as [v' [_ [Hp _]]].
    eauto.
Qed.

Lemma the_suggested_phase_is_the_current_or_the_next_witness :
  exists body st',
    processThought initial (submission "Sort the list" 1 4) = (Success body, st')
    /\ r_phase body = Some Planning
    /\ (r_suggestedNextPhase body = Planning \/ r_suggestedNextPhase body = Analysis).
Proof.
  destruct (@the_suggested_phase_is_the_current_or_the_next initial
              (submission "Sort the list" 1 4) (bare "Sort the list" 1 4) eq_refl)
    as [Hbody Hrun].
  destruct (Hrun (Forall_nil _) eq_refl eq_refl) as [body [st' E]].
  destruct (Hbody body st' E) as [H1 [H2 _]].
  exists body, st'. split; [exact E |]. split; [exact H1 | exact H2].
Defined.

End Server.

(* ------------------------------------------------------------------------- *)
(** ** The reports of the response                                         *)
(* ------------------------------------------------------------------------- *)

Section Reports.

Import JS SequentialThinkingServer ServerReports Properties Extras.
Local Open Scope string_scope.

Lemma string_of_Z_inj a b : string_of_Z a = string_of_Z b -> a = b.
Proof.
  unfold string_of_Z. intros H. apply to_int_inj.
  pose proof (NilEmpty.isi (Z.to_int a)) as Ha.
  pose proof (NilEmpty.isi (Z.to_int b)) as Hb.
  rewrite H in Ha. congruence.
Qed.

Lemma goal_key_inj i j :
  "goal_" ++ string_of_Z (Z.of_nat i) = "goal_" ++ string_of_Z (Z.of_nat j) -> i = j.
Proof.
  cbn [append]. intros H. injection H as H. apply string_of_Z_inj in H. lia.
Qed.

Lemma set_values_Forall {V} (P : V -> Prop) (o : dict V) k x :
  Forall P (map snd o) -> P x -> Forall P (map snd (set o k x)).
Proof.
  intros Ho Hx. induction o as [| [k' v'] o IH]; cbn [set map snd].
  - constructor; [exact Hx | constructor].
  - inversion Ho; subst. destruct (String.eqb k k'); cbn [map snd];
      constructor; auto.
Qed.

Lemma coverage_percentage_range n c :
  (0 < c)%Q ->
  exists z, Num.min 100 (inject_Z (Num.round (Num.of_nat n / c * 100))) = inject_Z z
            /\ (0 <= z <= 100)%Z.
Proof.
  intros Hc.
  assert (Hx : (0 <= Num.of_nat n / c * 100)%Q).
  { pose proof (of_nat_nonneg n) as Hn.
    assert (Hq : (0 <= Num.of_nat n / c)%Q) by (apply Qle_shift_div_l; lra).
    set (r := (Num.of_nat n / c)%Q) in *. lra. }
  assert (Hr : (0 <= Num.round (Num.of_nat n / c * 100))%Z).
  { unfold Num.round. change 0%Z with (Qfloor 0). apply Qfloor_resp_le. lra. }
  unfold Num.min.
  destruct (Qle_bool 100 _) eqn:E.
  - exists 100%Z. split; [reflexivity | lia].
  - eexists. split; [reflexivity |]. split; [exact Hr |].
    destruct (Z_le_gt_dec (Num.round (Num.of_nat n / c * 100)) 100) as [H | H];
      [exact H |].
    assert (E' : Qle_bool 100 (inject_Z (Num.round (Num.of_nat n / c * 100))) = true).
    { apply Qle_bool_iff.
      assert (Hz : (100 <= Num.round (Num.of_nat n / c * 100))%Z) by lia.
      rewrite Zle_Qle in Hz. exact Hz. }
    congruence.
Qed.

Lemma target_positive (c : Complexity) :
  (0 < Num.max 2 (match c with simple => 3 | medium => 5 | complex => 8 end))%Q.
Proof. destruct c; vm_compute; reflexivity. Qed.

Lemma coverage_values st :
  Forall (fun x => exists z, x = inject_Z z /\ (0 <= z <= 100)%Z)
         (map snd (calculateGoalCoverage st)).
Proof.
  unfold calculateGoalCoverage.
  destruct (metadata (promptContext st)) as [m |]; [| constructor].
  generalize (seq 0 (List.length (goals m))). intros indexes.
  assert (H0 : Forall (fun x => exists z, x = inject_Z z /\ (0 <= z <= 100)%Z)
                      (map snd (@nil (string * Q)))) by constructor.
  revert H0. generalize (@nil (string * Q)).
  induction indexes as [| i indexes IH]; intros o Ho; cbn [fold_left]; [exact Ho |].
  apply IH. apply set_values_Forall; [exact Ho |].
  apply coverage_percentage_range, target_positive.
Qed.


Lemma keyed_fill_get {V} (key : nat -> string) (f : nat -> V) l (o : dict V) :
  (forall i j, key i = key j -> i = j) ->
  (forall j, In j l ->
     get (fold_left (fun o i => set o (key i) (f i)) l o) (key j) = Some (f j))
  /\ (forall k, (forall i, In i l -> key i <> k) ->
        get (fold_left (fun o i => set o (key i) (f i)) l o) k = get o k).
Proof.
  intros Hinj. revert o. induction l as [| i rest IH]; intros o; cbn [fold_left].
  - split; [intros j [] | reflexivity].
  - destruct (IH (set o (key i) (f i))) as [IH1 IH2]. split.
    + intros j Hj. destruct (in_dec Nat.eq_dec j rest) as [Hin | Hout].
      * apply IH1, Hin.
      * destruct Hj as [<- | Hj]; [| contradiction].
        rewrite IH2; [apply get_set_same |].
        intros i' Hi' E. apply Hinj in E. subst. contradiction.
    + intros k Hk. rewrite IH2.
      * apply get_set_other. intros ->. apply (Hk i); [left |]; reflexivity.
      * intros i' Hi'. apply Hk. right. exact Hi'.
Qed.

(** X9.  The goal coverage of the response has no entry without a profile;
    with a profile it has exactly one entry for every goal, under the key
    "goal_" followed by the position of the goal, and the entry is the
    share of the thoughts relevant to that goal in the number expected for
    the complexity of the prompt, in percent, rounded and capped at 100: an
    integer between 0 and 100. *)
Theorem goal_coverage_has_a_capped_percentage_for_every_goal (st : ServerState) :
  (metadata (promptContext st) = None -> calculateGoalCoverage st = [])
  /\ (forall m, metadata (promptContext st) = Some m ->
        (forall i, (i < List.length (goals m))%nat ->
           get (calculateGoalCoverage st) ("goal_" ++ string_of_Z (Z.of_nat i))
           = Some (Num.min 100
                     (inject_Z
                        (Num.round
                           (Num.of_nat
                              (List.length
                                 (filter (GraphRenderer.relevant_to_goal i)
                                         (thoughtHistory st)))
                            / Num.max 2 (match complexity m with
                                         | simple => 3 | medium => 5 | complex => 8
                                         end) * 100)%Q))))
        /\ (forall k, (forall i, (i < List.length (goals m))%nat ->
                                 k <> "goal_" ++ string_of_Z (Z.of_nat i)) ->
                      get (calculateGoalCoverage st) k = None))
  /\ Forall (fun x => exists z, x = inject_Z z /\ (0 <= z <= 100)%Z)
            (values (calculateGoalCoverage st)).
Proof.
  split; [| split].
  - intros H. unfold calculateGoalCoverage. rewrite H. reflexivity.
  - intros m Hm. unfold calculateGoalCoverage. rewrite Hm.
    destruct (@keyed_fill_get Q
                (fun i => "goal_" ++ string_of_Z (Z.of_nat i))
                (fun i => Num.min 100
                     (inject_Z
                        (Num.round
                           (Num.of_nat
                              (List.length
                                 (filter (GraphRenderer.relevant_to_goal i)
                                         (thoughtHistory st)))
                            / Num.max 2 (match complexity m with
                                         | simple => 3 | medium => 5 | complex => 8
                                         end) * 100)%Q)))
                (seq 0 (List.length (goals m))) [] goal_key_inj) as [H1 H2].
    split.
    + intros i Hi. apply H1. apply in_seq. lia.
    + intros k Hk. rewrite H2; [reflexivity |].
      intros i Hi E. apply in_seq in Hi. apply (Hk i); [lia | congruence].
  - unfold values. eapply Permutation_Forall.
    + apply Permutation_map. symmetry. apply entries_perm.
    + apply coverage_values.
Qed.


Lemma length_of_append (a b : string) :
  String.length (a ++ b) = (String.length a + String.length b)%nat.
Proof. induction a as [| c a IH]; cbn; [reflexivity | rewrite IH; reflexivity]. Qed.

Lemma length_of_str l : String.length (str l) = List.length l.
Proof.
  unfold str. induction l as [| c l IH]; cbn; [reflexivity | rewrite IH; reflexivity].
Qed.

Lemma length_of_chars s : List.length (chars s) = String.length s.
Proof.
  unfold chars. induction s as [| c s IH]; cbn; [reflexivity | rewrite IH; reflexivity].
Qed.

(** X12.  The recent thoughts of the response are the last [count]
    thoughts of the history, fewer when the history is shorter, each with
    its number and its text; a text of more than 50 characters is cut to
    its first 50 characters followed by three dots, so that no summary is
    longer than 53 characters.  A count of zero gives the whole history. *)
Theorem recent_thoughts_are_the_last_ones_cut_to_50_characters
        (st : ServerState) (count : nat) :
  List.length (getRecentThoughts st count)
  = (if (count =? 0)%nat then List.length (thoughtHistory st)
     else Nat.min count (List.length (thoughtHistory st)))
  /\ (exists first, thoughtHistory st
                    = (first ++ match count with
                                | O => thoughtHistory st
                                | _ => last_n count (thoughtHistory st)
                                end)%list
                    /\ Forall2 (fun t e =>
                                  fst e = thoughtNumber t
                                  /\ ((String.length (thought t) <= 50)%nat ->
                                      snd e = thought t)
                                  /\ ((50 < String.length (thought t))%nat ->
                                      snd e = substring_to 50 (thought t) ++ "..."))
                               (match count with
                                | O => thoughtHistory st
                                | _ => last_n count (thoughtHistory st)
                                end)
                               (getRecentThoughts st count))
  /\ Forall (fun e => (String.length (snd e) <= 53)%nat) (getRecentThoughts st count).
Proof.
  unfold getRecentThoughts.
  set (summary := fun t : ThoughtData =>
                    (thoughtNumber t,
                     if (50 <? String.length (thought t))%nat
                     then substring_to 50 (thought t) ++ "..." else thought t)).
  split; [| split].
  - rewrite length_map. destruct count as [| n]; [reflexivity |].
    cbn [Nat.eqb]. unfold last_n. rewrite length_skipn. lia.
  - exists (match count with
            | O => []
            | _ => firstn (List.length (thoughtHistory st) - count) (thoughtHistory st)
            end).
    split.
    + destruct count as [| n]; [reflexivity |].
      unfold last_n. symmetry. apply firstn_skipn.
    + generalize (match count with
                  | O => thoughtHistory st
                  | _ => last_n count (thoughtHistory st)
                  end).
      intros l. induction l as [| t l IH]; cbn [map]; constructor; [| exact IH].
      unfold summary. cbn [fst snd]. split; [reflexivity |].
      destruct (Nat.ltb_spec 50 (String.length (thought t))); split; intros; try lia;
        reflexivity.
  - apply Forall_map. apply Forall_forall. intros t _. unfold summary. cbn [snd].
    destruct (Nat.ltb_spec 50 (String.length (thought t))) as [H | H]; [| lia].
    rewrite length_of_append. unfold substring_to. rewrite length_of_str.
    rewrite length_firstn, length_of_chars. cbn [String.length]. lia.
Qed.

End Reports.

(* ------------------------------------------------------------------------- *)
(** ** Invariants of the stores that the server reaches                    *)
(* ------------------------------------------------------------------------- *)

Section Reachable.

Import JS SequentialThinkingServer ServerReports Properties Extras.
Local Open Scope string_scope.

Lemma relevance_has_no_goal_key text m i :
  get (PromptAnalyzer.calculateRelevanceScores text m)
      ("goal_" ++ string_of_Z (Z.of_nat i)) = None.
Proof.
  unfold PromptAnalyzer.calculateRelevanceScores. cbv zeta.
  rewrite !get_set_other; [reflexivity | | |]; cbn [append]; discriminate.
Qed.

Lemma enriched_is_unmatched m v v' i :
  enriched m v v' -> promptRelevance v = None ->
  GraphRenderer.relevant_to_goal i v' = false.
Proof.
  intros Hf Hv. unfold GraphRenderer.relevant_to_goal.
  rewrite (en_relevance Hf). destruct m as [m |].
  - rewrite relevance_has_no_goal_key. reflexivity.
  - rewrite Hv. reflexivity.
Qed.

(** What a call can do to the history: nothing, or append the enriched
    thought. *)
Lemma processThought_history st input :
  thoughtHistory (snd (processThought st input)) = thoughtHistory st
  \/ exists v v',
       validateThoughtData input = inr v
       /\ enriched (metadata (promptContext st)) v v'
       /\ thoughtHistory (snd (processThought st input))
          = (thoughtHistory st ++ [v'])%list.
Proof.
  destruct (validateThoughtData input) as [message | v] eqn:Hv.
  - left. rewrite (processThought_invalid st input Hv). reflexivity.
  - right.
    destruct (processThought_valid st input Hv)
      as [v' [_ [Hf [Hp | [message [st' [Hp [-> | [-> | ->]]]]]]]]];
      rewrite Hp; exists v, v'; auto.
Qed.

Lemma callTool_history st name arguments :
  thoughtHistory (snd (callTool st name arguments)) = thoughtHistory st
  \/ exists v v' profile,
       validateThoughtData arguments = inr v
       /\ enriched profile v v'
       /\ thoughtHistory (snd (callTool st name arguments))
          = (thoughtHistory st ++ [v'])%list.
Proof.
  unfold callTool. destruct (name =? "sequentialthinking"); [| left; reflexivity].
  destruct (numbered_one arguments).
  - destruct (initializePromptContext st (thought_member arguments))
      as [[message |] st1] eqn:E.
    + left. cbn [snd].
      unfold initializePromptContext in E.
      destruct (thought_member arguments); try discriminate;
        injection E as _ <-; reflexivity.
    + assert (Eh : thoughtHistory st1 = thoughtHistory st).
      { unfold initializePromptContext in E.
        destruct (thought_member arguments); try discriminate;
          injection E as <-; reflexivity. }
      destruct (processThought st1 arguments) as [r st2] eqn:Ep. cbn [snd].
      destruct (processThought_history st1 arguments) as [H | [v [v' [Hv [Hf H]]]]];
        rewrite Ep in H; cbn [snd] in H; rewrite Eh in H.
      * left. exact H.
      * right. exists v, v', (metadata (promptContext st1)). auto.
  - destruct (processThought st arguments) as [r st2] eqn:Ep. cbn [snd].
    destruct (processThought_history st arguments) as [H | [v [v' [Hv [Hf H]]]]];
      rewrite Ep in H; cbn [snd] in H.
    + left. exact H.
    + right. exists v, v', (metadata (promptContext st)). auto.
Qed.

Lemma reachable_history_unmatched st :
  reachable st ->
  forall t i, In t (thoughtHistory st) -> GraphRenderer.relevant_to_goal i t = false.
Proof.
  induction 1 as [| st _ IH | st name arguments _ IH]; intros t i Hin.
  - destruct Hin.
  - apply IH, Hin.
  - destruct (callTool_history st name arguments) as [E | [v [v' [profile [Hv [Hf E]]]]]];
      rewrite E in Hin.
    + apply IH, Hin.
    + apply in_app_or in Hin. destruct Hin as [Hin | [<- | []]]; [apply IH, Hin |].
      apply (enriched_is_unmatched i Hf).
      apply (validated_fresh arguments Hv).
Qed.

Lemma get_in_values {V} (o : dict V) k x : get o k = Some x -> In x (map snd o).
Proof.
  induction o as [| [k' v'] o IH]; cbn [get map snd In]; [discriminate |].
  destruct (String.eqb k k'); [intros H; injection H as <-; left; reflexivity |].
  intros H. right. apply IH, H.
Qed.

Lemma filter_none {A} (f : A -> bool) l :
  (forall x, In x l -> f x = false) -> filter f l = [].
Proof.
  induction l as [| a l IH]; intros H; cbn [filter]; [reflexivity |].
  rewrite (H a (or_introl eq_refl)). apply IH. intros x Hx. apply H. right. exact Hx.
Qed.

(** X13.  No store that the server reaches has a thought that counts as
    relevant to a goal: the coverage looks up the keys "goal_0", "goal_1",
    ... in the relevance scores of a thought, and the scores that the server
    attaches have the keys "goals", "constraints" and "domains" only.  So
    the goal coverage reported for every goal is 0. *)
Theorem reported_goal_coverage_is_always_zero (st : ServerState) :
  reachable st ->
  (forall t i, In t (thoughtHistory st) -> GraphRenderer.relevant_to_goal i t = false)
  /\ forall k x, get (calculateGoalCoverage st) k = Some x -> x = 0%Q.
Proof.
  intros Hr. pose proof (reachable_history_unmatched Hr) as Hun.
  split; [exact Hun |].
  intros k x Hget. apply get_in_values in Hget.
  revert x Hget. apply Forall_forall.
  unfold calculateGoalCoverage.
  destruct (metadata (promptContext st)) as [m |]; [| constructor].
  generalize (seq 0 (List.length (goals m))). intros indexes.
  assert (H0 : Forall (fun x => x = 0%Q) (map snd (@nil (string * Q)))) by constructor.
  revert H0. generalize (@nil (string * Q)).
  induction indexes as [| i indexes IH]; intros o Ho; cbn [fold_left]; [exact Ho |].
  apply IH. apply set_values_Forall; [exact Ho |].
  replace (filter (GraphRenderer.relevant_to_goal i) (thoughtHistory st))
    with (@nil ThoughtData).
  - destruct (complexity m); vm_compute; reflexivity.
  - symmetry. apply filter_none. intros t Hin. apply Hun, Hin.
Qed.

Lemma reported_goal_coverage_is_always_zero_witness :
  reachable (snd (callTool initial tool (submission "I want to sort a list" 1 3)))
  /\ forall k x,
       get (calculateGoalCoverage
              (snd (callTool initial tool (submission "I want to sort a list" 1 3)))) k
       = Some x ->
       x = 0%Q.
Proof.
  assert (Hr : reachable (snd (callTool initial tool
                                        (submission "I want to sort a list" 1 3)))).
  { apply reach_call. apply reach_initial. }
  split; [exact Hr |].
  destruct (reported_goal_coverage_is_always_zero Hr) as [_ H]. exact H.
Defined.

(** The stores that a submission can leave. *)
Lemma processThought_store st input :
  snd (processThought st input) = st
  \/ exists v v',
       validateThoughtData input = inr v
       /\ enriched (metadata (promptContext st)) v v'
       /\ (snd (processThought st input) = push_history st v'
           \/ snd (processThought st input) = append st v'
           \/ snd (processThought st input) = track (append st v') v').
Proof.
  destruct (validateThoughtData input) as [message | v] eqn:Hv.
  - left. rewrite (processThought_invalid st input Hv). reflexivity.
  - right.
    destruct (processThought_valid st input Hv)
      as [v' [_ [Hf [Hp | [message [st' [Hp H]]]]]]];
      rewrite Hp; exists v, v'; cbn [snd];
      (split; [reflexivity |]); (split; [exact Hf |]).
    + right. right. reflexivity.
    + exact H.
Qed.

(** A property of the store that the constructor establishes and every
    write of the two handlers keeps holds in every store that the server
    reaches. *)
Lemma reachable_invariant (P : ServerState -> Prop) :
  P initial ->
  (forall st tools, P st -> P (setAvailableTools st tools)) ->
  (forall st prompt, P st -> P (snd (initializePromptContext st prompt))) ->
  (forall st input v v',
      P st -> validateThoughtData input = inr v ->
      enriched (metadata (promptContext st)) v v' ->
      P (push_history st v') /\ P (append st v') /\ P (track (append st v') v')) ->
  forall st, reachable st -> P st.
Proof.
  intros Hinit Hlist Hprompt Hstore st Hr.
  induction Hr as [| st _ IH | st name arguments _ IH].
  - exact Hinit.
  - apply Hlist, IH.
  - assert (Hsub : forall st0, P st0 -> P (snd (processThought st0 arguments))).
    { intros st0 H0.
      destruct (processThought_store st0 arguments) as [-> | [v [v' [Hv [Hf H]]]]];
        [exact H0 |].
      destruct (Hstore st0 arguments v v' H0 Hv Hf) as [H1 [H2 H3]].
      destruct H as [-> | [-> | ->]]; assumption. }
    unfold callTool. destruct (name =? "sequentialthinking"); [| exact IH].
    destruct (numbered_one arguments).
    + pose proof (Hprompt st (thought_member arguments) IH) as H1.
      destruct (initializePromptContext st (thought_member arguments))
        as [[message |] st1]; cbn [snd] in *; [exact H1 |].
      pose proof (Hsub st1 H1) as H2.
      destruct (processThought st1 arguments) as [r st2]. exact H2.
    + pose proof (Hsub st IH) as H2.
      destruct (processThought st arguments) as [r st2]. exact H2.
Qed.

Lemma phase_uses_counted (usage : dict nat) p :
  phase_uses {| usageCount := 0; thoughtsUsedIn := [];
                phaseUsage := set usage (phase_name p)
                                  (match get usage (phase_name p) with
                                   | Some n => (n + 1)%nat | None => 1%nat end) |}
  = S (phase_uses {| usageCount := 0; thoughtsUsedIn := []; phaseUsage := usage |}).
Proof.
  unfold phase_uses. cbn [fold_right phaseUsage].
  destruct p; cbn [phase_name];
    rewrite get_set_same, !get_set_other by discriminate;
    repeat match goal with
           | |- context [get usage ?k] => destruct (get usage k)
           end; lia.
Qed.


Lemma phase_uses_ext a b c d usage :
  phase_uses {| usageCount := a; thoughtsUsedIn := b; phaseUsage := usage |}
  = phase_uses {| usageCount := c; thoughtsUsedIn := d; phaseUsage := usage |}.
Proof. reflexivity. Qed.

Lemma track_tool_consistent t p stats tool :
  phase t = Some p ->
  (forall k s, get stats k = Some s -> consistent s) ->
  forall k s, get (track_tool t stats tool) k = Some s -> consistent s.
Proof.
  intros Hp Hall k s. unfold track_tool. rewrite Hp.
  destruct (String.eqb_spec k tool) as [-> | Hne].
  - rewrite get_set_same. intros H. injection H as <-.
    unfold consistent. cbn [usageCount thoughtsUsedIn].
    rewrite length_app. cbn [List.length].
    erewrite phase_uses_ext, phase_uses_counted.
    destruct (get stats tool) as [s |] eqn:Es.
    + destruct (Hall tool s Es) as [H1 [H2 H3]].
      rewrite (phase_uses_ext 0 [] (usageCount s) (thoughtsUsedIn s)).
      destruct s; cbn in *. lia.
    + cbn. lia.
  - rewrite get_set_other by congruence. apply Hall.
Qed.

Lemma track_tools_consistent t p tools :
  phase t = Some p ->
  forall stats,
    (forall k s, get stats k = Some s -> consistent s) ->
    forall k s, get (fst (track_tools t stats tools)) k = Some s -> consistent s.
Proof.
  intros Hp. induction tools as [| tool rest IH]; intros stats Hall;
    cbn [track_tools fst]; [exact Hall |].
  destruct (reads_inherited stats tool); cbn [fst]; [exact Hall |].
  apply IH. apply (@track_tool_consistent t p stats tool Hp Hall).
Qed.

(** X14.  In every store that the server reaches the counters of a tool
    agree: a tool with statistics was used at least once, its usage count is
    the number of thought numbers recorded for it, and its four phase
    counters add up to the usage count. *)
Theorem tool_statistics_stay_consistent (st : ServerState) :
  reachable st ->
  forall tool s,
    get (toolUsageStats st) tool = Some s ->
    (0 < usageCount s)%nat
    /\ usageCount s = List.length (thoughtsUsedIn s)
    /\ phase_uses s = usageCount s.
Proof.
  intros Hr. revert st Hr.
  apply (@reachable_invariant
           (fun st => forall tool s, get (toolUsageStats st) tool = Some s -> consistent s)).
  - intros tool s H. discriminate H.
  - intros st tools H. exact H.
  - intros st prompt H. destruct prompt; exact H.
  - intros st input v v' H Hv Hf. split; [exact H |]. split; [exact H |].
    cbn [track toolUsageStats append]. unfold trackToolUsage.
    destruct (toolsUsed v') as [[| tool rest] |]; cbn [fst]; try exact H.
    apply (@track_tools_consistent v' _ (tool :: rest) (en_phase Hf) _ H).
Qed.

Lemma tracked_tool st v v' name :
  toolsUsed v = Some [name] -> is_inherited name = false ->
  enriched (metadata (promptContext st)) v v' ->
  exists s, get (toolUsageStats (track (append st v') v')) name = Some s.
Proof.
  intros Ht Hi Hf. cbn [track toolUsageStats append]. unfold trackToolUsage.
  rewrite (en_tools Hf), Ht. cbn [track_tools fst]. unfold reads_inherited.
  rewrite Hi. cbn [andb fst]. unfold track_tool. rewrite get_set_same.
  eexists. reflexivity.
Qed.

Lemma later_call_store st input r st' :
  numbered_one input = false -> processThought st input = (r, st') ->
  snd (callTool st tool input) = st'.
Proof.
  intros Hn Hp. rewrite (callTool_other_number st input Hn), Hp. reflexivity.
Qed.

Lemma tool_statistics_stay_consistent_witness :
  exists s,
    get (toolUsageStats
           (snd (callTool initial tool
                          (InMembers (with_tools (required_only (JStr "Look it up")
                                                                (JNum 3) (JNum 4)
                                                                (JBool true))
                                                 ["search"])))))
        "search" = Some s
    /\ (0 < usageCount s)%nat
    /\ usageCount s = List.length (thoughtsUsedIn s)
    /\ phase_uses s = usageCount s.
Proof.
  assert (Hs : exists s,
             get (toolUsageStats
                    (snd (callTool initial tool
                                   (InMembers (with_tools (required_only
                                                             (JStr "Look it up") (JNum 3)
                                                             (JNum 4) (JBool true))
                                                          ["search"])))))
                 "search" = Some s).
  { destruct (@processThought_succeeds
                initial
                (InMembers (with_tools (required_only (JStr "Look it up") (JNum 3)
                                                      (JNum 4) (JBool true))
                                       ["search"]))
                _ (Forall_nil _) eq_refl eq_refl eq_refl) as [v' [Hf [Hp _]]].
    erewrite later_call_store; [| reflexivity | exact Hp].
    refine (@tracked_tool initial _ v' "search" _ _ Hf); reflexivity. }
  destruct Hs as [s Hs]. exists s. split; [exact Hs |].
  exact (@tool_statistics_stay_consistent
           _ (reach_call tool _ reach_initial) "search" s Hs).
Defined.

Lemma branch_after_append st v id members :
  get (branches (append st v)) id = Some members ->
  (branch_of v = Some id
   /\ members = ((match get (branches st) id with Some l => l | None => [] end) ++ [v])%list)
  \/ get (branches st) id = Some members.
Proof.
  unfold append. cbn [branches].
  destruct (branch_of v) as [b |] eqn:Eb; [| auto].
  destruct (String.eqb_spec id b) as [-> | Hne].
  - rewrite get_set_same. intros H. injection H as <-. left. auto.
  - rewrite get_set_other by congruence. auto.
Qed.

(** X15.  In every store that the server reaches a branch of the branch
    table is not empty, and each of its members is a thought of the history
    that was submitted as a thought of that branch. *)
Theorem branch_members_are_stored_thoughts_of_the_branch (st : ServerState) :
  reachable st ->
  forall id members,
    get (branches st) id = Some members ->
    members <> []
    /\ forall t, In t members -> In t (thoughtHistory st) /\ branch_of t = Some id.
Proof.
  intros Hr. revert st Hr.
  apply (@reachable_invariant
           (fun st => forall id members,
                get (branches st) id = Some members ->
                members <> []
                /\ forall t, In t members ->
                             In t (thoughtHistory st) /\ branch_of t = Some id)).
  - intros id members H. discriminate H.
  - intros st tools H. exact H.
  - intros st prompt H. destruct prompt; exact H.
  - intros st input v v' H Hv Hf.
    assert (Hpush : forall id members,
               get (branches st) id = Some members ->
               members <> []
               /\ forall t, In t members ->
                            In t (thoughtHistory st ++ [v'])%list /\ branch_of t = Some id).
    { intros id members Hget. destruct (H id members Hget) as [H1 H2].
      split; [exact H1 |]. intros t Ht. destruct (H2 t Ht) as [H3 H4].
      split; [apply in_or_app; left; exact H3 | exact H4]. }
    assert (Happ : forall id members,
               get (branches (append st v')) id = Some members ->
               members <> []
               /\ forall t, In t members ->
                            In t (thoughtHistory st ++ [v'])%list /\ branch_of t = Some id).
    { intros id members Hget.
      destruct (branch_after_append st v' id Hget) as [[Eb ->] | Hold];
        [| apply Hpush, Hold].
      split; [intros E; apply app_eq_nil in E; destruct E; discriminate |].
      intros t Ht. apply in_app_or in Ht. destruct Ht as [Ht | [<- | []]].
      - destruct (get (branches st) id) as [l |] eqn:El; [| destruct Ht].
        apply (Hpush id l El), Ht.
      - split; [apply in_or_app; right; left; reflexivity | exact Eb]. }
    split; [exact Hpush |]. split; exact Happ.
Qed.

Lemma branch_members_are_stored_thoughts_of_the_branch_witness :
  exists members,
    get (branches
           (snd (callTool initial tool
                          (InMembers (with_branch (required_only (JStr "Try a heap")
                                                                 (JNum 2) (JNum 3)
                                                                 (JBool true))
                                                  1 "heap")))))
        "heap" = Some members
    /\ members <> []
    /\ forall t,
         In t members ->
         In t (thoughtHistory
                 (snd (callTool initial tool
                                (InMembers (with_branch (required_only
                                                           (JStr "Try a heap") (JNum 2)
                                                           (JNum 3) (JBool true))
                                                        1 "heap")))))
         /\ branch_of t = Some "heap".
Proof.
  assert (Hs : exists members,
             get (branches
                    (snd (callTool initial tool
                                   (InMembers (with_branch (required_only
                                                              (JStr "Try a heap")
                                                              (JNum 2) (JNum 3)
                                                              (JBool true))
                                                           1 "heap")))))
                 "heap" = Some members).
  { destruct (@processThought_succeeds
                initial
                (InMembers (with_branch (required_only (JStr "Try a heap") (JNum 2)
                                                       (JNum 3) (JBool true))
                                        1 "heap"))
                _ (Forall_nil _) eq_refl eq_refl eq_refl) as [v' [Hf [Hp _]]].
    erewrite later_call_store; [| reflexivity | exact Hp].
    cbn [track branches]. unfold append. cbn [branches].
    rewrite (enriched_branch Hf).
    change (branch_of _) with (Some "heap").
    eexists. apply get_set_same. }
  destruct Hs as [members Hs]. exists members. split; [exact Hs |].
  exact (@branch_members_are_stored_thoughts_of_the_branch
           _ (reach_call tool _ reach_initial) "heap" members Hs).
Defined.

(** X16.  In every store that the server reaches, each thought of the
    history has a text that is not empty and a number that is not zero and
    not above its total, and it carries what the submission adds: a phase,
    a vector, concepts, assumptions and reflection prompts; its alignment
    score, if it has one, is an integer from 1 to 9. *)
Theorem stored_thoughts_are_numbered_within_their_total (st : ServerState) :
  reachable st ->
  Forall (fun t =>
            thought t <> ""
            /\ ~ (thoughtNumber t == 0)%Q
            /\ (thoughtNumber t <= totalThoughts t)%Q
            /\ phase t <> None /\ vector t <> None /\ conceptsExtracted t <> None
            /\ assumptions t <> None /\ reflectionPrompts t <> None
            /\ forall a, promptAlignment t = Some a ->
                         exists z, a = inject_Z z /\ (1 <= z <= 9)%Z)
         (thoughtHistory st).
Proof.
  induction 1 as [| st _ IH | st name arguments _ IH].
  - constructor.
  - exact IH.
  - destruct (callTool_history st name arguments) as [-> | [v [v' [profile [Hv [Hf ->]]]]]];
      [exact IH |].
    apply Forall_app. split; [exact IH |]. constructor; [| constructor].
    destruct arguments as [| | data]; try discriminate.
    destruct (validated_members data Hv) as [_ [_ [_ [_ [Hn [_ Hs]]]]]].
    destruct (validated_fresh _ Hv) as [Hfresh _].
    destruct (raised_total_bounds v) as [_ B1].
    destruct (reported_total_bounds profile v) as [B2 _].
    rewrite (en_thought Hf), (en_number Hf), (en_total Hf), (en_phase Hf),
      (en_alignment Hf).
    split; [intros E; rewrite E in Hs; discriminate |].
    split; [intros E; apply Qeq_bool_iff in E; congruence |].
    split; [apply (Qle_trans _ _ _ B1 B2) |].
    split; [discriminate |].
    split; [apply (en_vector Hf) |]. split; [apply (en_concepts Hf) |].
    split; [apply (en_assumptions Hf) |]. split; [apply (en_reflection Hf) |].
    intros a Ha. destruct profile as [m |]; [| congruence].
    injection Ha as <-. apply alignment_score_range.
Qed.

Lemma stored_thoughts_are_numbered_within_their_total_witness :
  Forall (fun t => (thoughtNumber t <= totalThoughts t)%Q /\ phase t <> None)
         (thoughtHistory (snd (callTool initial tool (submission "Sort the list" 4 2)))).
Proof.
  assert (Hr : reachable (snd (callTool initial tool (submission "Sort the list" 4 2)))).
  { apply reach_call. apply reach_initial. }
  eapply Forall_impl; [| exact (stored_thoughts_are_numbered_within_their_total Hr)].
  cbv beta. intros t [_ [_ [H1 [H2 _]]]]. split; assumption.
Defined.

End Reachable.

(* ------------------------------------------------------------------------- *)
(** ** The prompt analyzer                                                 *)
(* ------------------------------------------------------------------------- *)

Section Analyzer.

Import JS PromptAnalyzer Properties Extras.
Local Open Scope string_scope.

Lemma aspect_total_range thought aspects start :
  (0 <= start)%Q ->
  (start <=
   fold_left (fun total aspect =>
                let aspectKeywords := aspect_keywords aspect in
                let keywordMatches := count_matches thought aspectKeywords in
                let aspectRelevance :=
                  if (0 <? List.length aspectKeywords)%nat
                  then (Num.of_nat keywordMatches / Num.of_nat (List.length aspectKeywords)) * 10
                  else 5 in
                total + aspectRelevance)%Q
             aspects start
   <= start + 10 * Num.of_nat (List.length aspects))%Q.
Proof.
  revert start. induction aspects as [| a aspects IH]; intros start Hs.
  - cbn [fold_left List.length]. change (Num.of_nat 0) with 0%Q. lra.
  - cbn [fold_left]. cbv zeta.
    set (r := if (0 <? List.length (aspect_keywords a))%nat
              then (Num.of_nat (count_matches thought (aspect_keywords a))
                    / Num.of_nat (List.length (aspect_keywords a)) * 10)%Q
              else 5%Q).
    assert (Hr : (0 <= r <= 10)%Q).
    { subst r. destruct (0 <? List.length (aspect_keywords a))%nat eqn:E; [| lra].
      apply Nat.ltb_lt in E.
      pose proof (ratio_range (count_matches_le thought (aspect_keywords a)) E). lra. }
    assert (Hs' : (0 <= start + r)%Q) by lra.
    specialize (IH (start + r)%Q Hs'). cbv zeta in IH.
    assert (Hl : Num.of_nat (List.length (a :: aspects))
                 == Num.of_nat (List.length aspects) + 1).
    { unfold Num.of_nat. cbn [List.length]. rewrite Nat2Z.inj_succ, <- Z.add_1_r.
      rewrite inject_Z_plus. reflexivity. }
    rewrite Hl. lra.
Qed.

Lemma aspect_relevance_range thought aspects :
  exists z, calculateAspectRelevance thought aspects = inject_Z z /\ (0 <= z <= 10)%Z.
Proof.
  unfold calculateAspectRelevance. destruct aspects as [| a aspects].
  - exists 5%Z. split; [reflexivity | lia].
  - eexists. split; [reflexivity |].
    pose proof (@aspect_total_range thought (a :: aspects) 0%Q (Qle_refl 0)) as H.
    cbv zeta in H.
    set (total := fold_left _ (a :: aspects) 0%Q) in *.
    assert (Hn : (0 < Num.of_nat (List.length (a :: aspects)))%Q)
      by (apply of_nat_pos; cbn [List.length]; lia).
    set (n := Num.of_nat (List.length (a :: aspects))) in *.
    assert (Hq : (0 <= total / n <= 10)%Q).
    { split.
      - apply Qle_shift_div_l; [exact Hn | lra].
      - apply Qle_shift_div_r; [exact Hn | lra]. }
    apply round_range; change (inject_Z 0) with 0%Q; change (inject_Z 10) with 10%Q; lra.
Qed.

(** X17.  The relevance scores of a thought have the three keys "goals",
    "constraints" and "domains", in this order, and no other; each score is
    an integer from 0 to 10 (5 for an aspect of which the profile has no
    entry). *)
Theorem relevance_scores_are_three_integers_from_0_to_10
        (thought : string) (m : PromptMetadata) :
  keys (calculateRelevanceScores thought m) = ["goals"; "constraints"; "domains"]
  /\ forall k x,
       get (calculateRelevanceScores thought m) k = Some x ->
       exists z, x = inject_Z z /\ (0 <= z <= 10)%Z.
Proof.
  split; [reflexivity |].
  intros k x H. apply get_in_values in H. revert x H. apply Forall_forall.
  unfold calculateRelevanceScores. cbv zeta.
  repeat apply set_values_Forall; try apply aspect_relevance_range.
  constructor.
Qed.

Lemma sentence_nonempty prompt s : In s (sentences_of prompt) -> s <> "".
Proof.
  unfold sentences_of. rewrite filter_In. intros [_ H] ->. discriminate H.
Qed.

(** X18.  The goals of a prompt are sentences of it, trimmed and not empty:
    every sentence with a goal indicator is a goal, and when no sentence has
    one the first sentence alone is the goal.  So the goals are empty only
    for a prompt without a sentence. *)
Theorem a_prompt_with_a_sentence_has_a_goal (prompt : string) :
  (extractGoals prompt = [] <-> sentences_of prompt = [])
  /\ (forall goal, In goal (extractGoals prompt) ->
                   In goal (sentences_of prompt) /\ goal <> "")
  /\ (forall s, In s (sentences_of prompt) ->
                includes_any (toLowerCase s) goalIndicators = true ->
                In s (extractGoals prompt))
  /\ ((forall s, In s (sentences_of prompt) ->
                 includes_any (toLowerCase s) goalIndicators = false) ->
      extractGoals prompt = firstn 1 (sentences_of prompt)).
Proof.
  unfold extractGoals. cbv zeta.
  set (sentences := sentences_of prompt).
  assert (Hne : forall s, In s sentences -> s <> "")
    by (intros s; apply sentence_nonempty).
  clearbody sentences.
  destruct (filter (fun s => includes_any (toLowerCase s) goalIndicators) sentences)
    as [| g found] eqn:Ef.
  - destruct sentences as [| first rest].
    + repeat split; try tauto; intros ? [].
    + repeat split.
      * discriminate.
      * discriminate.
      * destruct H as [<- | []]. left. reflexivity.
      * destruct H as [<- | []]. apply Hne. left. reflexivity.
      * intros s Hs Hi.
        assert (Hin : In s (filter (fun s => includes_any (toLowerCase s) goalIndicators)
                                   (first :: rest)))
          by (apply filter_In; auto).
        rewrite Ef in Hin. destruct Hin.
  - assert (Hg : forall s, In s (g :: found) ->
                           In s sentences
                           /\ includes_any (toLowerCase s) goalIndicators = true).
    { intros s Hs. rewrite <- Ef in Hs. apply filter_In in Hs. exact Hs. }
    repeat split.
    + discriminate.
    + intros ->. destruct (Hg g (or_introl eq_refl)) as [[] _].
    + apply Hg, H.
    + apply Hne, Hg, H.
    + intros s Hs Hi. rewrite <- Ef. apply filter_In. auto.
    + intros Hnone. destruct (Hg g (or_introl eq_refl)) as [Hin Hi].
      rewrite (Hnone g Hin) in Hi. discriminate.
Qed.

Lemma take_In {A} n (l : list A) x : In x (take n l) -> In x l.
Proof.
  unfold take. revert l. induction n as [| n IH]; intros [| a l]; cbn [firstn In];
    try tauto. intros [-> | H]; [left; reflexivity | right; apply IH, H].
Qed.

Lemma take_NoDup {A} n (l : list A) : NoDup l -> NoDup (take n l).
Proof.
  unfold take. revert l. induction n as [| n IH]; intros [| a l] H; cbn [firstn];
    try constructor.
  - inversion H as [| ? ? Ha Hl]; subst. intros Hin. apply Ha.
    apply (@take_In _ n l a Hin).
  - inversion H; subst. apply IH. assumption.
Qed.

Lemma take_length {A} n (l : list A) : (List.length (take n l) <= n)%nat.
Proof. unfold take. apply firstn_le_length. Qed.

Lemma take_map {A B} (f : A -> B) n l : map f (take n l) = take n (map f l).
Proof. unfold take. symmetry. apply firstn_map. Qed.

Lemma count_words_keys words o k :
  In k (map fst (fold_left (fun counts word =>
               match get counts word with
               | Some (Some n) => set counts word (Some (n + 1)%nat)
               | Some None => set counts word None
               | None =>
                   if is_inherited word then assign counts word None
                   else set counts word (Some 1%nat)
               end) words o)) ->
  In k words \/ In k (map fst o).
Proof.
  revert o. induction words as [| w words IH]; intros o; cbn [fold_left In]; [tauto |].
  intros H. apply IH in H. destruct H as [H | H]; [tauto |].
  assert (Hs : forall x, In k (map fst (set o w x)) -> w = k \/ In k (map fst o))
    by (intros x Hx; apply set_keys_In in Hx; intuition congruence).
  destruct (get o w) as [[n |] |].
  - apply Hs in H. tauto.
  - apply Hs in H. tauto.
  - destruct (is_inherited w).
    + unfold assign in H. destruct (w =? "__proto__"); [tauto |].
      apply Hs in H. tauto.
    + apply Hs in H. tauto.
Qed.

Lemma count_words_NoDup words o :
  NoDup (map fst o) ->
  NoDup (map fst (fold_left (fun counts word =>
               match get counts word with
               | Some (Some n) => set counts word (Some (n + 1)%nat)
               | Some None => set counts word None
               | None =>
                   if is_inherited word then assign counts word None
                   else set counts word (Some 1%nat)
               end) words o)).
Proof.
  revert o. induction words as [| w words IH]; intros o H; cbn [fold_left]; [exact H |].
  apply IH.
  destruct (get o w) as [[n |] |]; try (apply set_keys_NoDup, H).
  destruct (is_inherited w); [| apply set_keys_NoDup, H].
  unfold assign. destruct (w =? "__proto__"); [exact H | apply set_keys_NoDup, H].
Qed.

(** X19.  The keywords of a prompt are at most ten, no keyword is listed
    twice, and each is a word of the prompt in lower case, without
    punctuation, longer than three characters and not a stop word. *)
Theorem keywords_are_at_most_ten_distinct_long_words (prompt : string) :
  (List.length (extractKeywords prompt) <= 10)%nat
  /\ NoDup (extractKeywords prompt)
  /\ forall word,
       In word (extractKeywords prompt) ->
       In word (split_ws (strip_punctuation (toLowerCase prompt)))
       /\ (3 < String.length word)%nat
       /\ ~ In word stopWords.
Proof.
  unfold extractKeywords. cbv zeta.
  set (words := filter _ (filter _ _)).
  rewrite take_map. split; [apply take_length |]. split.
  - apply take_NoDup.
    eapply Permutation_NoDup;
      [symmetry; apply Permutation_map, sort_perm |].
    eapply Permutation_NoDup;
      [symmetry; apply Permutation_map, entries_perm |].
    apply count_words_NoDup. constructor.
  - intros word Hin. apply take_In in Hin.
    apply (Permutation_in _ (Permutation_map fst (sort_perm _ _))) in Hin.
    apply (Permutation_in _ (Permutation_map fst (entries_perm _))) in Hin.
    apply count_words_keys in Hin. destruct Hin as [Hin | []].
    subst words. apply filter_In in Hin. destruct Hin as [Hin Hstop].
    apply filter_In in Hin. destruct Hin as [Hin Hlen].
    split; [exact Hin |]. split; [apply Nat.ltb_lt, Hlen |].
    apply negb_true_iff, mem_false in Hstop. exact Hstop.
Qed.

Lemma task_type_cases (a b c d : nat) :
  match sort by_count_desc [(creative, a); (analytical, b); (informational, c);
                            (technical, d)] with
  | (type0, count0) :: (_, count1) :: _ =>
      if ((0 <? count0) && (count1 <? count0))%nat then type0 else mixed
  | _ => mixed
  end
  = if ((0 <? a) && (b <? a) && (c <? a) && (d <? a))%nat then creative
    else if ((0 <? b) && (a <? b) && (c <? b) && (d <? b))%nat then analytical
    else if ((0 <? c) && (a <? c) && (b <? c) && (d <? c))%nat then informational
    else if ((0 <? d) && (a <? d) && (b <? d) && (c <? d))%nat then technical
    else mixed.
Proof.
  unfold sort, by_count_desc. cbn [fold_right insert_sorted snd].
  repeat match goal with
         | |- context [(?x <=? ?y)%nat] =>
             destruct (Nat.leb_spec x y); cbn [insert_sorted snd]
         end;
    repeat match goal with
           | |- context [(?x <? ?y)%nat] =>
               first [ replace (x <? y)%nat with true
                         by (symmetry; apply Nat.ltb_lt; lia)
                     | replace (x <? y)%nat with false
                         by (symmetry; apply Nat.ltb_ge; lia)
                     | destruct (Nat.ltb_spec x y) ]; cbn [andb]
           end; reflexivity.
Qed.

(** X20.  The task type of a prompt is one of the four named types exactly
    when the prompt contains more indicators of that type than of each other
    type; with a tie for the first place, or without any indicator, the type
    is "mixed". *)
Theorem task_type_is_the_strict_winner (prompt : string) (t : TaskType) :
  t <> mixed ->
  (determineTaskType prompt = t
   <-> forall u, u <> t -> (type_count prompt u < type_count prompt t)%nat).
Proof.
  intros Ht. unfold determineTaskType. cbv zeta. rewrite task_type_cases.
  set (a := count_matches (toLowerCase prompt) creativeIndicators).
  set (b := count_matches (toLowerCase prompt) analyticalIndicators).
  set (c := count_matches (toLowerCase prompt) informationalIndicators).
  set (d := count_matches (toLowerCase prompt) technicalIndicators).
  assert (Hall : forall P : TaskType -> Prop,
             (forall u, P u) <-> P creative /\ P analytical /\ P informational
                                 /\ P technical /\ P mixed).
  { intros P. split; [intros H; repeat split; apply H |].
    intros [H1 [H2 [H3 [H4 H5]]]] [| | | |]; assumption. }
  rewrite Hall. unfold type_count. fold a b c d.
  destruct t; try congruence;
    repeat match goal with
           | |- context [(?x <? ?y)%nat] =>
               destruct (Nat.ltb_spec x y); cbn [andb]
           | |- context [if true then _ else _] => cbn [andb]
           end;
    (split;
     [ intros E; try discriminate E; repeat split; intros Hu;
       first [ exfalso; apply Hu; reflexivity | lia ]
     | intros [G1 [G2 [G3 [G4 G5]]]]; try reflexivity; exfalso;
       repeat match goal with
              | H : ?u <> ?v -> _ |- _ =>
                  first [ specialize (H ltac:(discriminate)) | clear H ]
              end; lia ]).
Qed.

Lemma task_type_is_the_strict_winner_witness :
  determineTaskType "Implement the function and debug it" = technical.
Proof.
  apply (proj2 (@task_type_is_the_strict_winner
                  "Implement the function and debug it" technical
                  ltac:(discriminate))).
  intros u Hu. destruct u; try (vm_compute; lia). congruence.
Defined.

End Analyzer.

(* ------------------------------------------------------------------------- *)
(** ** The complexity estimation                                           *)
(* ------------------------------------------------------------------------- *)

Section Complexity.

Import JS IntelligenceMaximizationModule Properties Extras.
Local Open Scope string_scope.
Local Open Scope Q_scope.

Lemma conceptual_range m : 3 <= calculateConceptualComplexity m <= 10.
Proof.
  unfold calculateConceptualComplexity. cbv zeta.
  pose proof (of_nat_nonneg (List.length (goals m))).
  pose proof (of_nat_nonneg (List.length (domains m))).
  bounds.
Qed.

Lemma procedural_range m : 5 <= calculateProceduralComplexity m <= 10.
Proof.
  unfold calculateProceduralComplexity. cbv zeta.
  pose proof (of_nat_nonneg (List.length (constraints m))).
  bounds.
Qed.

Lemma contextual_range m : 5 <= calculateContextualComplexity m <= 10.
Proof.
  unfold calculateContextualComplexity. cbv zeta.
  pose proof (of_nat_nonneg (List.length (entities m))).
  qconst. bounds.
Qed.

Lemma domain_bonus_cases ds :
  domain_bonus ds = 0 \/ domain_bonus ds = 1 \/ domain_bonus ds = 2.
Proof.
  induction ds as [| d ds IH]; cbn [domain_bonus]; [auto |].
  destruct (existsb _ complexDomains); [auto |].
  destruct (existsb _ mediumDomains); auto.
Qed.

Lemma domain_range m : 5 <= calculateDomainComplexity m <= 7.
Proof.
  unfold calculateDomainComplexity.
  destruct (domain_bonus_cases (domains m)) as [-> | [-> | ->]]; vm_compute;
    split; discriminate.
Qed.

(** X21.  The four dimensional complexities stay in the range 0 to 10: the
    conceptual one is from 3 to 10, the procedural and the contextual one
    from 5 to 10, the domain one from 5 to 7.  The recommended thought count
    is an integer from 5 to 7 for a simple prompt, from 8 to 11 for a medium
    one and from 11 to 17 for a complex one. *)
Theorem recommended_thought_count_follows_the_complexity (m : PromptMetadata) :
  3 <= conceptual (dimensionalComplexity (estimateDetailedComplexity m)) <= 10
  /\ 5 <= procedural (dimensionalComplexity (estimateDetailedComplexity m)) <= 10
  /\ 5 <= contextual (dimensionalComplexity (estimateDetailedComplexity m)) <= 10
  /\ 5 <= domain (dimensionalComplexity (estimateDetailedComplexity m)) <= 7
  /\ exists z,
       recommendedThoughtCount (estimateDetailedComplexity m) = inject_Z z
       /\ match complexity m with
          | simple => (5 <= z <= 7)%Z
          | medium => (8 <= z <= 11)%Z
          | complex => (11 <= z <= 17)%Z
          end.
Proof.
  pose proof (conceptual_range m) as H1. pose proof (procedural_range m) as H2.
  pose proof (contextual_range m) as H3. pose proof (domain_range m) as H4.
  unfold estimateDetailedComplexity. cbv zeta.
  cbn [dimensionalComplexity conceptual procedural contextual domain
       recommendedThoughtCount].
  repeat (split; [assumption |]).
  eexists. split; [reflexivity |].
  destruct (complexity m); apply round_range;
    match goal with
    | |- context [inject_Z ?k] => change (inject_Z k) with (k # 1)
    end; qconst; lra.
Qed.

(** X22.  The domain complexity never exceeds 7, so the phase distribution
    never gets the domain adjustment: the Verification share is the one the
    overall complexity starts from, Planning and Execution are at most one
    above their start and Analysis at most two. *)
Theorem verification_share_is_fixed_by_the_complexity (m : PromptMetadata) :
  let base := base_shares (complexity m) in
  let d := recommendedPhaseDistribution (estimateDetailedComplexity m) in
  pd_Verification d = pd_Verification base
  /\ (pd_Planning d = pd_Planning base \/ pd_Planning d = pd_Planning base + 1)
  /\ (pd_Execution d = pd_Execution base \/ pd_Execution d = pd_Execution base + 1)
  /\ pd_Analysis base <= pd_Analysis d <= pd_Analysis base + 2.
Proof.
  cbv zeta. unfold estimateDetailedComplexity. cbv zeta.
  cbn [recommendedPhaseDistribution]. unfold calculatePhaseDistribution.
  cbn [conceptual procedural contextual domain].
  assert (Hd : Num.gt (calculateDomainComplexity m) 7 = false).
  { unfold Num.gt. apply negb_false_iff, Qle_bool_iff. apply (domain_range m). }
  rewrite Hd.
  destruct (complexity m);
    destruct (Num.gt (calculateConceptualComplexity m) 7);
    destruct (Num.gt (calculateProceduralComplexity m) 7);
    destruct (Num.gt (calculateContextualComplexity m) 7);
    cbn [base_shares pd_Verification pd_Planning pd_Execution pd_Analysis];
    repeat split; auto; vm_compute; discriminate.
Qed.

End Complexity.

(* ------------------------------------------------------------------------- *)
(** ** The ranges of the similarities and the vectors                      *)
(* ------------------------------------------------------------------------- *)

Section Ranges.

Import JS Natural SemanticAnalyzer Properties Extras.
Local Open Scope string_scope.
Local Open Scope R_scope.

Lemma square_le x y : 0 <= y -> x * x <= y * y -> x <= y.
Proof. intros Hy H. destruct (Rle_or_lt x y) as [Hle | Hlt]; [exact Hle | nra]. Qed.

Lemma product_step a b D F G :
  0 <= F -> 0 <= G -> D * D <= F * G ->
  (a * b + D) * (a * b + D) <= (a * a + F) * (b * b + G).
Proof.
  intros HF HG HD.
  assert (H : 2 * (a * b) * D <= a * a * G + b * b * F).
  { apply square_le.
    - assert (0 <= a * a) by nra. assert (0 <= b * b) by nra.
      assert (0 <= a * a * G) by (apply Rmult_le_pos; assumption).
      assert (0 <= b * b * F) by (apply Rmult_le_pos; assumption). lra.
    - assert (H0 : 0 <= (a * b) * (a * b)) by nra.
      assert (H1 : (a * b) * (a * b) * (D * D) <= (a * b) * (a * b) * (F * G))
        by (apply Rmult_le_compat_l; [exact H0 | exact HD]).
      assert (H2 : 0 <= (a * a * G - b * b * F) * (a * a * G - b * b * F))
        by apply Rle_0_sqr.
      replace (2 * (a * b) * D * (2 * (a * b) * D)) with (4 * ((a * b) * (a * b) * (D * D))) by ring.
      replace ((a * a * G + b * b * F) * (a * a * G + b * b * F))
        with ((a * a * G - b * b * F) * (a * a * G - b * b * F) + 4 * ((a * b) * (a * b) * (F * G))) by ring.
      lra. }
  replace ((a * b + D) * (a * b + D)) with (a * b * (a * b) + 2 * (a * b) * D + D * D) by ring.
  replace ((a * a + F) * (b * b + G)) with (a * b * (a * b) + (a * a * G + b * b * F) + F * G) by ring.
  lra.
Qed.

(** The inequality of Cauchy and Schwarz for sums over a list. *)
Lemma products_bounded {A} (f g : A -> R) l :
  total_over (fun x => f x * g x) l * total_over (fun x => f x * g x) l
  <= total_over (fun x => f x * f x) l * total_over (fun x => g x * g x) l.
Proof.
  induction l as [| x l IH]; cbn [total_over fold_right]; [lra |].
  fold (total_over (fun x => f x * g x) l) (total_over (fun x => f x * f x) l)
       (total_over (fun x => g x * g x) l).
  apply product_step; [| | exact IH];
    apply total_over_nonneg; intros y _; apply Rle_0_sqr.
Qed.

Lemma quotient_between x m lo hi :
  0 < m -> lo * m <= x <= hi * m -> lo <= x / m <= hi.
Proof.
  intros Hm [H1 H2].
  assert (Hi : 0 < / m) by (apply Rinv_0_lt_compat; exact Hm).
  split.
  - replace lo with (lo * m * / m) by (field; lra).
    unfold Rdiv. apply Rmult_le_compat_r; lra.
  - replace hi with (hi * m * / m) by (field; lra).
    unfold Rdiv. apply Rmult_le_compat_r; lra.
Qed.

Lemma quotient_range D F G :
  D * D <= F * G -> 0 <= F -> 0 <= G -> sqrt F <> 0 -> sqrt G <> 0 ->
  -1 <= D / (sqrt F * sqrt G) <= 1 /\ (0 <= D -> 0 <= D / (sqrt F * sqrt G)).
Proof.
  intros HD HF HG H1 H2.
  pose proof (sqrt_pos F) as P1. pose proof (sqrt_pos G) as P2.
  assert (Hm : 0 < sqrt F * sqrt G) by nra.
  assert (Hs : (sqrt F * sqrt G) * (sqrt F * sqrt G) = F * G).
  { replace (sqrt F * sqrt G * (sqrt F * sqrt G))
      with ((sqrt F * sqrt F) * (sqrt G * sqrt G)) by ring.
    rewrite !sqrt_sqrt by assumption. reflexivity. }
  assert (Hup : D <= sqrt F * sqrt G) by (apply square_le; nra).
  assert (Hlo : - D <= sqrt F * sqrt G) by (apply square_le; nra).
  split.
  - apply quotient_between; [exact Hm | lra].
  - intros H0. apply (@quotient_between D (sqrt F * sqrt G) 0 1); [exact Hm | lra].
Qed.

Lemma squares_of_first (v w : list R) :
  List.length v = List.length w ->
  total_over (fun x => x * x) v = total_over (fun p => fst p * fst p) (combine v w)
  /\ total_over (fun x => x * x) w = total_over (fun p => snd p * snd p) (combine v w).
Proof.
  revert w. induction v as [| x v IH]; intros [| y w] H; cbn [List.length] in H;
    try discriminate; cbn [combine total_over fold_right fst snd]; [split; reflexivity |].
  destruct (IH w) as [H1 H2]; [lia |].
  unfold total_over in H1, H2. rewrite H1, H2. split; reflexivity.
Qed.

Lemma cosineSimilarity_range v w :
  -1 <= cosineSimilarity v w <= 1
  /\ (Forall (fun x => 0 <= x) v -> Forall (fun x => 0 <= x) w ->
      0 <= cosineSimilarity v w).
Proof.
  unfold cosineSimilarity.
  destruct (negb (List.length v =? List.length w)%nat) eqn:El;
    [split; [lra | intros _ _; lra] |].
  apply negb_false_iff, Nat.eqb_eq in El.
  destruct (RNum.eqb (magnitude v) 0 || RNum.eqb (magnitude w) 0) eqn:Em;
    [split; [lra | intros _ _; lra] |].
  apply orb_false_iff in Em. destruct Em as [E1 E2].
  apply RNum_eqb_false in E1, E2.
  rewrite total_over_fold, Rplus_0_l.
  rewrite !magnitude_squares in *.
  destruct (squares_of_first v w El) as [S1 S2]. rewrite S1, S2 in *.
  destruct (@quotient_range
              (total_over (fun p => fst p * snd p) (combine v w))
              (total_over (fun p => fst p * fst p) (combine v w))
              (total_over (fun p => snd p * snd p) (combine v w)))
    as [Hr Hp]; try assumption.
  - apply (products_bounded fst snd).
  - apply total_over_nonneg. intros y _. apply Rle_0_sqr.
  - apply total_over_nonneg. intros y _. apply Rle_0_sqr.
  - split; [exact Hr |]. intros Hv Hw. apply Hp.
    apply total_over_nonneg. intros [x y] Hin. cbn [fst snd].
    pose proof (in_combine_l _ _ _ _ Hin) as Hx.
    pose proof (in_combine_r _ _ _ _ Hin) as Hy.
    rewrite Forall_forall in Hv, Hw.
    apply Rmult_le_pos; [apply Hv, Hx | apply Hw, Hy].
Qed.

Lemma jaccardSimilarity_range s t : 0 <= jaccardSimilarity s t <= 1.
Proof.
  unfold jaccardSimilarity.
  destruct (List.length (dedup (s ++ t)) =? 0)%nat eqn:E; [lra |].
  apply Nat.eqb_neq in E.
  assert (Hle : (List.length (dedup (filter (fun x => mem x t) s))
                 <= List.length (dedup (s ++ t)))%nat).
  { apply NoDup_incl_length; [apply dedup_NoDup |].
    intros x Hx. apply dedup_In, filter_In in Hx. apply dedup_In, in_or_app.
    left. apply Hx. }
  assert (Hpos : 0 < INR (List.length (dedup (s ++ t)))) by (apply lt_0_INR; lia).
  apply le_INR in Hle.
  pose proof (pos_INR (List.length (dedup (filter (fun x => mem x t) s)))) as H0.
  apply quotient_between; [exact Hpos | lra].
Qed.

Lemma shared_score_nonneg (d1 d2 : list string) k :
  0 <= RNum.or_zero (tfidf [d1; d2] k 0) * RNum.or_zero (tfidf [d1; d2] k 1).
Proof.
  unfold tfidf. cbn [nth_error List.length].
  destruct d1 as [| a d1]; [cbn [RNum.or_zero]; lra |].
  destruct d2 as [| b d2]; [cbn [RNum.or_zero]; lra |].
  cbn [RNum.or_zero].
  set (idf := ln _).
  set (tf1 := INR (count_term k (a :: d1)) / INR (List.length (a :: d1))).
  set (tf2 := INR (count_term k (b :: d2)) / INR (List.length (b :: d2))).
  assert (H1 : 0 <= tf1).
  { apply (@quotient_between _ _ 0 1); [apply lt_0_INR; cbn [List.length]; lia |].
    split; [rewrite Rmult_0_l; apply pos_INR |].
    rewrite Rmult_1_l. apply le_INR. unfold count_term. apply filter_length_le. }
  assert (H2 : 0 <= tf2).
  { apply (@quotient_between _ _ 0 1); [apply lt_0_INR; cbn [List.length]; lia |].
    split; [rewrite Rmult_0_l; apply pos_INR |].
    rewrite Rmult_1_l. apply le_INR. unfold count_term. apply filter_length_le. }
  replace (tf1 * idf * (tf2 * idf)) with ((tf1 * tf2) * (idf * idf)) by ring.
  apply Rmult_le_pos; nra.
Qed.

Lemma calculateTfidfSimilarity_range text1 text2 :
  0 <= calculateTfidfSimilarity text1 text2 <= 1.
Proof.
  destruct (shared_terms text1 text2) as [K [Hnd HK]].
  rewrite (calculateTfidfSimilarity_sums text1 text2 Hnd HK). cbv zeta.
  set (T := [_; _]).
  destruct (RNum.eqb _ 0 || RNum.eqb _ 0) eqn:Em; [lra |].
  apply orb_false_iff in Em. destruct Em as [E1 E2].
  apply RNum_eqb_false in E1, E2.
  destruct (@quotient_range
              (total_over (fun k => RNum.or_zero (tfidf T k 0) * RNum.or_zero (tfidf T k 1)) K)
              (total_over (fun k => RNum.or_zero (tfidf T k 0) * RNum.or_zero (tfidf T k 0)) K)
              (total_over (fun k => RNum.or_zero (tfidf T k 1) * RNum.or_zero (tfidf T k 1)) K))
    as [Hr Hp]; try assumption.
  - apply (products_bounded (fun k => RNum.or_zero (tfidf T k 0))
                            (fun k => RNum.or_zero (tfidf T k 1))).
  - apply total_over_nonneg. intros y _. apply Rle_0_sqr.
  - apply total_over_nonneg. intros y _. apply Rle_0_sqr.
  - split; [| apply Hr]. apply Hp.
    apply total_over_nonneg. intros k _. apply shared_score_nonneg.
Qed.

Lemma disjoint_filter (s t : list string) :
  (forall x, In x s -> ~ In x t) -> filter (fun x => mem x t) s = [].
Proof.
  intros H. induction s as [| x s IH]; cbn [filter]; [reflexivity |].
  assert (E : mem x t = false) by (apply mem_false, H; left; reflexivity).
  rewrite E. apply IH. intros y Hy. apply H. right. exact Hy.
Qed.

(** X24.  The Jaccard index of two sets of keywords is between 0 and 1 and
    symmetric; it is 0 for sets without a common element, the two empty sets
    included, and 1 for a non-empty set with itself. *)
Theorem jaccard_index_is_between_zero_and_one (s t : list string) :
  0 <= jaccardSimilarity s t <= 1
  /\ jaccardSimilarity s t = jaccardSimilarity t s
  /\ ((forall x, In x s -> ~ In x t) -> jaccardSimilarity s t = 0)
  /\ (NoDup s -> s <> [] -> jaccardSimilarity s s = 1).
Proof.
  split; [apply jaccardSimilarity_range |].
  split; [apply jaccardSimilarity_sym |].
  split; [| apply jaccardSimilarity_self].
  intros H. unfold jaccardSimilarity. rewrite (disjoint_filter s t H).
  destruct (List.length (dedup (s ++ t)) =? 0)%nat; [reflexivity |].
  cbn [dedup dedup_aux List.length INR]. unfold Rdiv. lra.
Qed.

Lemma zeros_sum (v w : list R) :
  (forall x, In x v -> x = 0) -> (forall x, In x w -> x = 0) ->
  forall x, In x (map (fun p => fst p + snd p * 1) (combine v w)) -> x = 0.
Proof.
  intros Hv Hw x Hx. apply in_map_iff in Hx. destruct Hx as [[a b] [<- Hin]].
  cbn [fst snd]. rewrite (Hv a (in_combine_l _ _ _ _ Hin)).
  rewrite (Hw b (in_combine_r _ _ _ _ Hin)). lra.
Qed.

Lemma empty_word_vector x : In x (getWordVector "") -> x = 0.
Proof.
  unfold getWordVector, hash_word. cbn [chars fold_left fst].
  apply normalize_zeros. intros y Hy. apply repeat_spec in Hy. exact Hy.
Qed.

Lemma build_zeros tokens vec n :
  (forall x, In x vec -> x = 0) -> (forall token, In token tokens -> token = "") ->
  forall x,
    In x (fst (fold_left
                 (fun (st : list R * nat) token =>
                    let (vector, wordCount) := st in
                    (map (fun p => fst p + snd p * getIdfWeight token)
                         (combine vector (getWordVector token)), S wordCount))
                 tokens (vec, n))) ->
    x = 0.
Proof.
  revert vec n. induction tokens as [| token tokens IH]; intros vec n Hv Ht;
    cbn [fold_left fst]; [exact Hv |].
  apply IH; [| intros t Hin; apply Ht; right; exact Hin].
  change (getIdfWeight token) with 1.
  rewrite (Ht token (or_introl eq_refl)).
  apply zeros_sum; [exact Hv | apply empty_word_vector].
Qed.

Lemma build_length tokens vec n :
  List.length vec = vectorDimension ->
  List.length
    (fst (fold_left
            (fun (st : list R * nat) token =>
               let (vector, wordCount) := st in
               (map (fun p => fst p + snd p * getIdfWeight token)
                    (combine vector (getWordVector token)), S wordCount))
            tokens (vec, n))) = vectorDimension.
Proof.
  revert vec n. induction tokens as [| token tokens IH]; intros vec n Hl;
    cbn [fold_left fst]; [exact Hl |].
  apply IH. destruct (getWordVector_vector token) as [_ [W _]].
  rewrite length_map, length_combine, W, Hl. apply Nat.min_id.
Qed.

(** The sum of the word vectors, divided by their number. *)
Lemma averaged_vector tokens :
  let acc :=
    fold_left
      (fun (st : list R * nat) token =>
         let (vector, wordCount) := st in
         (map (fun p => fst p + snd p * getIdfWeight token)
              (combine vector (getWordVector token)), S wordCount))
      tokens (zero_vector, 0%nat) in
  let scaled := if (0 <? snd acc)%nat
                then map (fun val => val / INR (snd acc)) (fst acc) else fst acc in
  List.length scaled = vectorDimension /\ Forall (fun x => 0 <= x) scaled.
Proof.
  cbv zeta.
  destruct (build_fold tokens 0 zero_vector_nonneg zero_vector_length) as [G1 _].
  pose proof (@build_length tokens zero_vector 0%nat zero_vector_length) as Hlen.
  set (acc := fold_left _ tokens (zero_vector, 0%nat)) in *.
  split.
  - destruct (0 <? snd acc)%nat; [rewrite length_map |]; exact Hlen.
  - destruct (0 <? snd acc)%nat eqn:E; [| exact G1].
    apply Nat.ltb_lt in E. apply Forall_map.
    eapply Forall_impl; [| exact G1]. cbv beta. intros x Hx.
    assert (Hn : 0 < INR (snd acc)) by (apply lt_0_INR; exact E).
    apply (@quotient_between x (INR (snd acc)) 0 (x / INR (snd acc) + 1));
      [exact Hn |].
    split; [lra |].
    replace ((x / INR (snd acc) + 1) * INR (snd acc)) with (x + INR (snd acc))
      by (field; lra). lra.
Qed.

Lemma built_vector_nonneg t : Forall (fun x => 0 <= x) (buildThoughtVectors t).
Proof.
  unfold buildThoughtVectors. cbv zeta.
  apply normalize_nonneg, (averaged_vector (tokenizeAndNormalize (thought t))).
Qed.

(** X25.  The vector built for a thought has 300 entries, none negative;
    when the text has no token with a character in it (a text of stop words
    or of white space), every entry is 0. *)
Theorem thought_vector_has_300_entries_none_negative (t : ThoughtData) :
  List.length (buildThoughtVectors t) = 300%nat
  /\ Forall (fun x => 0 <= x) (buildThoughtVectors t)
  /\ ((forall token, In token (tokenizeAndNormalize (thought t)) -> token = "") ->
      Forall (fun x => x = 0) (buildThoughtVectors t)).
Proof.
  unfold buildThoughtVectors in *. cbv zeta in *.
  destruct (averaged_vector (tokenizeAndNormalize (thought t))) as [Hs1 Hs2].
  cbv zeta in Hs1, Hs2.
  pose proof (@build_zeros (tokenizeAndNormalize (thought t)) zero_vector 0%nat) as Hz.
  set (acc := fold_left _ (tokenizeAndNormalize (thought t)) (zero_vector, 0%nat)) in *.
  set (scaled := if (0 <? snd acc)%nat
                 then map (fun val => val / INR (snd acc)) (fst acc) else fst acc) in *.
  split; [rewrite normalize_length; exact Hs1 |].
  split; [apply normalize_nonneg, Hs2 |].
  intros H. apply Forall_forall. apply normalize_zeros.
  assert (Hacc : forall x, In x (fst acc) -> x = 0).
  { apply Hz; [| exact H]. intros x Hx. apply repeat_spec in Hx. exact Hx. }
  subst scaled. destruct (0 <? snd acc)%nat; [| exact Hacc].
  intros x Hx. apply in_map_iff in Hx. destruct Hx as [y [<- Hy]].
  rewrite (Hacc y Hy). unfold Rdiv. lra.
Qed.

(** X26.  The similarity of two thoughts is not negative when each of
    them has no stored vector or the vector built from its text. *)
Theorem similarity_of_built_vectors_is_not_negative (a b : ThoughtData) :
  vector a = None \/ vector a = Some (buildThoughtVectors a) ->
  vector b = None \/ vector b = Some (buildThoughtVectors b) ->
  0 <= analyzeSemanticSimilarity a b.
Proof.
  intros Ha Hb. unfold analyzeSemanticSimilarity. cbv zeta.
  destruct (cosineSimilarity_range (thought_vector a) (thought_vector b)) as [_ C2].
  pose proof (jaccardSimilarity_range (dedup (extractKeywords (thought a)))
                                      (dedup (extractKeywords (thought b)))) as J.
  pose proof (calculateTfidfSimilarity_range (thought a) (thought b)) as T.
  assert (Hv : forall t, vector t = None \/ vector t = Some (buildThoughtVectors t) ->
                         Forall (fun x => 0 <= x) (thought_vector t)).
  { intros t Ht. unfold thought_vector.
    destruct Ht as [-> | ->]; apply built_vector_nonneg. }
  specialize (C2 (Hv a Ha) (Hv b Hb)). lra.
Qed.

Lemma similarity_of_built_vectors_is_not_negative_witness :
  0 <= analyzeSemanticSimilarity (bare "Sort the list" 1 3) (bare "Plan the trip" 2 3).
Proof.
  apply (@similarity_of_built_vectors_is_not_negative
           (bare "Sort the list" 1 3) (bare "Plan the trip" 2 3));
    left; reflexivity.
Defined.

End Ranges.

(* ------------------------------------------------------------------------- *)
(** ** Reflection prompts and contradictions                               *)
(* ------------------------------------------------------------------------- *)

Section Reflection.

Import JS ReflectionEngine ContradictionDetector Properties Extras.
Local Open Scope string_scope.

Lemma insert_sorted_In {A} (before : A -> A -> bool) x l y :
  In y (insert_sorted before x l) <-> y = x \/ In y l.
Proof.
  induction l as [| z l IH]; cbn [insert_sorted In]; [intuition congruence |].
  destruct (before x z); cbn [In]; [intuition congruence |].
  rewrite IH. intuition congruence.
Qed.

Lemma insert_sorted_ordered {A} (before : A -> A -> bool) x l :
  (forall a b, before a b = false -> before b a = true) ->
  (forall a b c, before a b = true -> before b c = true -> before a c = true) ->
  ordered before l -> ordered before (insert_sorted before x l).
Proof.
  intros Htotal Htrans. induction l as [| z l IH]; cbn [insert_sorted ordered].
  - intros _. split; [intros y [] | exact I].
  - intros [Hz Hl]. destruct (before x z) eqn:E; cbn [ordered].
    + split; [| split; assumption].
      intros y [<- | Hy]; [exact E |]. apply (Htrans x z y E), Hz, Hy.
    + split; [| apply IH, Hl].
      intros y Hy. apply insert_sorted_In in Hy.
      destruct Hy as [-> | Hy]; [apply Htotal, E | apply Hz, Hy].
Qed.

Lemma sort_ordered {A} (before : A -> A -> bool) l :
  (forall a b, before a b = false -> before b a = true) ->
  (forall a b c, before a b = true -> before b c = true -> before a c = true) ->
  ordered before (sort before l).
Proof.
  intros Htotal Htrans. unfold sort.
  induction l as [| x l IH]; cbn [fold_right]; [exact I |].
  apply insert_sorted_ordered; assumption.
Qed.

Lemma take_ordered {A} (before : A -> A -> bool) n l :
  ordered before l -> ordered before (take n l).
Proof.
  unfold take. revert l. induction n as [| n IH]; intros [| x l]; cbn [firstn ordered];
    try tauto.
  intros [Hx Hl]. split; [| apply IH, Hl].
  intros y Hy. apply Hx. apply (@take_In _ n l y Hy).
Qed.

Lemma context_prompts_nonempty t all : generateContextAwarePrompts t all <> [].
Proof.
  unfold generateContextAwarePrompts. cbv zeta.
  destruct (0 <? List.length _)%nat; discriminate.
Qed.

Lemma prioritizePrompts_shape prompts :
  prompts <> [] ->
  (1 <= List.length (prioritizePrompts prompts) <= 5)%nat
  /\ NoDup (prioritizePrompts prompts)
  /\ ordered (fun a b => String.length b <=? String.length a)%nat
             (prioritizePrompts prompts)
  /\ forall p, In p (prioritizePrompts prompts) -> In p prompts.
Proof.
  intros Hne. unfold prioritizePrompts.
  set (before := fun a b : string => (String.length b <=? String.length a)%nat).
  assert (Hperm : Permutation (sort before (dedup prompts)) (dedup prompts))
    by apply sort_perm.
  split; [| split; [| split]].
  - split; [| apply take_length].
    unfold take. rewrite length_firstn, (Permutation_length Hperm).
    pose proof (dedup_nonempty Hne) as Hd.
    destruct (dedup prompts); [congruence | cbn [List.length]; lia].
  - apply take_NoDup. eapply Permutation_NoDup; [symmetry; exact Hperm |].
    apply dedup_NoDup.
  - apply take_ordered, sort_ordered; unfold before.
    + intros a b H. apply Nat.leb_gt in H. apply Nat.leb_le. lia.
    + intros a b c H1 H2. apply Nat.leb_le in H1, H2. apply Nat.leb_le. lia.
  - intros p Hp. apply take_In in Hp. apply (Permutation_in _ Hperm) in Hp.
    apply (proj1 (dedup_In _ _)) in Hp. exact Hp.
Qed.

(** X27.  The reflection prompts for a history with a latest thought are
    at least one and at most five, no prompt is listed twice, and a prompt
    is at least as long as every later one.  For an empty history the
    engine throws. *)
Theorem reflection_prompts_are_one_to_five_longest_first
        (history : list ThoughtData) (latest : ThoughtData) :
  generateReflectionPrompts [] = None
  /\ exists prompts,
       generateReflectionPrompts (history ++ [latest]) = Some prompts
       /\ (1 <= List.length prompts <= 5)%nat
       /\ NoDup prompts
       /\ ordered (fun a b => String.length b <=? String.length a)%nat prompts.
Proof.
  split; [reflexivity |].
  unfold generateReflectionPrompts. rewrite rev_app_distr. cbn [rev app].
  eexists. split; [reflexivity |].
  match goal with
  | |- context [prioritizePrompts ?l] =>
      destruct (@prioritizePrompts_shape l) as [H1 [H2 [H3 _]]]
  end.
  - intros E. apply app_eq_nil in E. destruct E as [E _].
    exact (context_prompts_nonempty _ _ E).
  - auto.
Qed.

Lemma collect_In {A B} (f : A -> option B) l y :
  In y (collect f l) <-> exists x, In x l /\ f x = Some y.
Proof.
  induction l as [| a l IH]; cbn [collect In].
  - split; [intros [] | intros [x [[] _]]].
  - destruct (f a) as [b |] eqn:E; cbn [In]; rewrite IH; split.
    + intros [<- | [x [Hx Hf]]]; [exists a; auto | exists x; auto].
    + intros [x [[<- | Hx] Hf]]; [left; congruence | right; exists x; auto].
    + intros [x [Hx Hf]]. exists x. auto.
    + intros [x [[<- | Hx] Hf]]; [congruence | exists x; auto].
Qed.

Lemma collect_length {A B} (f : A -> option B) l :
  (List.length (collect f l) <= List.length l)%nat.
Proof.
  induction l as [| a l IH]; cbn [collect List.length]; [lia |].
  destruct (f a); cbn [List.length]; lia.
Qed.

(** X28.  Contradictions are reported exactly when the list of details is
    not empty, and there are at most as many details as existing thoughts.
    Each detail carries the number of an existing thought whose number
    differs from the one of the new thought, whose similarity to the new
    thought is above 0.5, and for which the explanation is the contradiction
    detected. *)
Theorem contradictions_are_with_similar_thoughts_of_another_number
        (newThought : ThoughtData) (existingThoughts : list ThoughtData) :
  let report := checkContradictions newThought existingThoughts in
  (hasContradictions report = true <-> details report <> [])
  /\ (List.length (details report) <= List.length existingThoughts)%nat
  /\ forall c,
       In c (details report) ->
       exists existing,
         In existing existingThoughts
         /\ c_thoughtNumber c = thoughtNumber existing
         /\ ~ (thoughtNumber existing == thoughtNumber newThought)%Q
         /\ (SemanticAnalyzer.analyzeSemanticSimilarity newThought existing > 0.5)%R
         /\ detectContradiction newThought existing = Some (explanation c).
Proof.
  cbv zeta. unfold checkContradictions.
  destruct (truthy_bool (isRevision newThought)).
  - cbn [hasContradictions details List.length In].
    split; [split; [discriminate | congruence] |]. split; [lia | intros c []].
  - cbn [hasContradictions details]. split; [| split].
    + destruct (collect _ existingThoughts); cbn [List.length Nat.ltb Nat.leb];
        split; congruence.
    + apply collect_length.
    + intros c Hc. apply collect_In in Hc. destruct Hc as [e [He Hf]].
      exists e. split; [exact He |]. unfold check_existing in Hf.
      destruct (truthy_bool (isRevision e)
                || Qeq_bool (thoughtNumber e) (thoughtNumber newThought)) eqn:E;
        [discriminate |].
      apply orb_false_iff in E. destruct E as [_ E].
      destruct (detectContradiction newThought e) as [text |] eqn:Ed; [| discriminate].
      destruct (truthy_str (Some text)); [| discriminate].
      injection Hf as <-. cbn [c_thoughtNumber explanation].
      split; [reflexivity |]. split.
      * intros Heq. apply Qeq_bool_iff in Heq. congruence.
      * split; [| reflexivity].
        unfold detectContradiction in Ed.
        destruct (RNum.gtb _ 0.5) eqn:Eg; [| discriminate].
        apply gtb_true in Eg. exact Eg.
Qed.

End Reflection.

(* ------------------------------------------------------------------------- *)
(** ** Tokens and keywords of a text                                       *)
(* ------------------------------------------------------------------------- *)

Section Tokens.

Import JS Natural SemanticAnalyzer Properties Extras.
Local Open Scope string_scope.

Lemma lower_char_not_upper c : is_upper (lower_char c) = false.
Proof.
  destruct c as [[|] [|] [|] [|] [|] [|] [|] [|]]; vm_compute; reflexivity.
Qed.

Lemma lower_char_fixed c : is_upper c = false -> lower_char c = c.
Proof. unfold lower_char. intros ->. reflexivity. Qed.

Lemma split_pieces_chars sep plus cur insep s x c :
  In x (split_class sep plus cur insep s) -> In c (chars x) -> In c cur \/ In c s.
Proof.
  revert cur insep. induction s as [| d s IH]; intros cur insep; cbn [split_class].
  - intros [<- | []] Hc. unfold chars, str in Hc.
    rewrite list_ascii_of_string_of_list_ascii in Hc. left. apply in_rev, Hc.
  - destruct (sep d).
    + destruct (plus && insep).
      * intros Hx Hc. destruct (IH _ _ Hx Hc); [tauto | right; right; assumption].
      * intros [<- | Hx] Hc.
        -- unfold chars, str in Hc. rewrite list_ascii_of_string_of_list_ascii in Hc.
           left. apply in_rev, Hc.
        -- destruct (IH _ _ Hx Hc) as [[] | H]. right. right. exact H.
    + intros Hx Hc. destruct (IH _ _ Hx Hc) as [[<- | H] | H].
      * right. left. reflexivity.
      * left. exact H.
      * right. right. exact H.
Qed.

Lemma lower_text text token :
  In token (split_ws (toLowerCase text)) ->
  forallb (fun c => negb (is_upper c)) (chars token) = true
  /\ toLowerCase token = token.
Proof.
  intros H.
  assert (Hc : forall c, In c (chars token) -> is_upper c = false).
  { intros c Hin. unfold split_ws in H.
    destruct (split_pieces_chars _ _ _ _ _ _ c H Hin) as [[] | Hs].
    unfold toLowerCase, chars, str in Hs.
    rewrite list_ascii_of_string_of_list_ascii in Hs.
    apply in_map_iff in Hs. destruct Hs as [d [<- _]]. apply lower_char_not_upper. }
  split.
  - apply forallb_forall. intros c Hin. rewrite (Hc c Hin). reflexivity.
  - unfold toLowerCase.
    rewrite (map_ext_in lower_char (fun c => c)).
    + rewrite map_id. apply string_of_list_ascii_of_string.
    + intros c Hin. apply lower_char_fixed, Hc, Hin.
Qed.

(** X29.  A token of a text is one of the pieces between the white space
    of the text in lower case: it has no white space and no upper-case
    letter in it, and it is not a stop word. *)
Theorem tokens_are_lower_case_words_that_are_not_stopwords (text token : string) :
  In token (tokenizeAndNormalize text) ->
  ~ In token stopwords
  /\ forallb (fun c => negb (is_space c) && negb (is_upper c)) (chars token) = true
  /\ In token (split_ws (toLowerCase text)).
Proof.
  intros H. pose proof (token_is_clean text token H) as Hclean.
  unfold tokenizeAndNormalize, removeStopwords, tokenize in H.
  apply filter_In in H. destruct H as [Hin Hstop].
  destruct (lower_text text token Hin) as [Hlow Hfix].
  rewrite Hfix in Hstop. apply negb_true_iff, mem_false in Hstop.
  split; [exact Hstop |]. split; [| exact Hin].
  rewrite forallb_forall in *. intros c Hc.
  rewrite (Hclean c Hc), (Hlow c Hc). reflexivity.
Qed.

Lemma tokens_are_lower_case_words_that_are_not_stopwords_witness :
  ~ In "sort" stopwords
  /\ forallb (fun c => negb (is_space c) && negb (is_upper c)) (chars "sort") = true
  /\ In "sort" (split_ws (toLowerCase "Sort the LIST")).
Proof.
  apply (@tokens_are_lower_case_words_that_are_not_stopwords "Sort the LIST" "sort").
  vm_compute. left. reflexivity.
Defined.

Lemma listTerms_terms (T : TfIdf) doc :
  Permutation (map fst (listTerms (T ++ [doc])%list (List.length T))) (dedup doc).
Proof.
  unfold listTerms. rewrite nth_error_app2, Nat.sub_diag by lia. cbn [nth_error].
  rewrite (Permutation_map fst (sort_perm _ _)), map_map. cbn [fst].
  rewrite map_id. reflexivity.
Qed.

(** X30.  The keywords of a text are at most ten tokens of it, none listed
    twice; there is none exactly when the text has no token, and every
    token is a keyword when the text has at most ten different tokens. *)
Theorem text_keywords_are_at_most_ten_distinct_tokens (text : string) :
  (List.length (extractKeywords text) <= 10)%nat
  /\ NoDup (extractKeywords text)
  /\ (forall k, In k (extractKeywords text) -> In k (tokenizeAndNormalize text))
  /\ (extractKeywords text = [] <-> tokenizeAndNormalize text = [])
  /\ ((List.length (dedup (tokenizeAndNormalize text)) <= 10)%nat ->
      forall k, In k (tokenizeAndNormalize text) -> In k (extractKeywords text)).
Proof.
  pose proof (@extractKeywords_nonempty text) as Hne.
  unfold extractKeywords in *.
  destruct (tokenizeAndNormalize text) as [| token tokens] eqn:E.
  - cbn [List.length]. repeat split; try constructor; try tauto; try lia.
  - cbv zeta in *. unfold addDocument_tokens in *.
    pose proof (@listTerms_terms [] (token :: tokens)) as Hperm.
    cbn [app List.length] in Hperm.
    set (terms := listTerms [token :: tokens] 0) in *.
    assert (Hs : Permutation (map fst (sort by_score_desc terms)) (dedup (token :: tokens))).
    { rewrite (Permutation_map fst (sort_perm _ _)). exact Hperm. }
    rewrite take_map.
    split; [apply take_length |]. split; [| split; [| split]].
    + apply take_NoDup. eapply Permutation_NoDup; [symmetry; exact Hs |].
      apply dedup_NoDup.
    + intros k Hk. apply take_In in Hk. apply (Permutation_in _ Hs) in Hk.
      apply (proj1 (dedup_In _ _)) in Hk. exact Hk.
    + split; [| discriminate]. intros H. exfalso.
      rewrite <- take_map in H. apply Hne; [discriminate | exact H].
    + intros Hlen k Hk. unfold take.
      rewrite firstn_all2.
      2:{ exact (eq_ind_r (fun n => (n <= 10)%nat) Hlen (Permutation_length Hs)). }
      apply (Permutation_in _ (Permutation_sym Hs)), dedup_In, Hk.
Qed.

End Tokens.
